(** * ldap-go-lib: connection lifecycle, error translation and group
      membership reconciliation

    A shallow embedding of [ldap/client.go], [ldap/users.go] and of the
    managers of groups and of organizational units.

    - Go strings are [string] (byte strings). [strings.ToUpper] and
      [strings.TrimSpace] are modelled on ASCII: bytes above 127 are kept
      and are no white space, which is what Go does for strings of ASCII
      and differs from it on other Unicode letters and spaces.
    - A Go slice whose nil-ness is observable (the results of
      [parseSearchResult]) is a [slice]: [None] is the nil slice.
    - A method that returns [*errors.Error] (possibly next to a value)
      returns an [Outcome]: [Ok], [Fail] with the error, or [Panic] when the
      Go runtime would panic (index out of range).
    - The directory behind [ldap.Client] is a record of responses, and every
      call on it is recorded in a trace, in call order. *)

From Stdlib Require Import List String Ascii Bool Arith ZArith Lia.
Import ListNotations.

Local Open Scope string_scope.
Local Open Scope list_scope.
Local Open Scope nat_scope.

Local Infix "^" := String.append (at level 30, right associativity).

(** ** The Go library functions the code calls *)

Module strings.

(** [strings.Contains(s, substr)]. *)
Fixpoint Contains (s substr : string) : bool :=
  if String.prefix substr s then true
  else match s with
       | EmptyString => false
       | String _ s' => Contains s' substr
       end.

(** [strings.ToUpper] on ASCII letters; every other byte is kept. *)
Definition upperAscii (c : ascii) : ascii :=
  let n := nat_of_ascii c in
  if (97 <=? n) && (n <=? 122) then ascii_of_nat (n - 32) else c.

Fixpoint ToUpper (s : string) : string :=
  match s with
  | EmptyString => EmptyString
  | String c s' => String (upperAscii c) (ToUpper s')
  end.

(** White space as [strings.TrimSpace] sees it in ASCII:
    tab, line feed, vertical tab, form feed, carriage return, space. *)
Definition isSpace (c : ascii) : bool :=
  let n := nat_of_ascii c in
  ((9 <=? n) && (n <=? 13)) || (n =? 32).

Fixpoint trimLeft (s : string) : string :=
  match s with
  | EmptyString => EmptyString
  | String c s' => if isSpace c then trimLeft s' else s
  end.

Fixpoint trimRight (s : string) : string :=
  match s with
  | EmptyString => EmptyString
  | String c s' =>
      match trimRight s' with
      | EmptyString => if isSpace c then EmptyString else String c EmptyString
      | r => String c r
      end
  end.

(** [strings.TrimSpace(s)]. *)
Definition TrimSpace (s : string) : string := trimRight (trimLeft s).

(** [strings.Split(s, sep)] for a one-byte separator: the pieces between
    the separators, at least one piece. *)
Fixpoint Split (s : string) (sep : ascii) : list string :=
  match s with
  | EmptyString => [EmptyString]
  | String c s' =>
      if Ascii.eqb c sep then EmptyString :: Split s' sep
      else match Split s' sep with
           | [] => [String c EmptyString]
           | p :: ps => String c p :: ps
           end
  end.

(** [strings.Replace(s, old, "", -1)] for a non-empty [old]: every
    non-overlapping occurrence of [old], from the left, is dropped.
    [skip] counts the bytes of a matched occurrence still to drop. *)
Fixpoint removeFrom (skip : nat) (old s : string) : string :=
  match s with
  | EmptyString => EmptyString
  | String c s' =>
      match skip with
      | S k => removeFrom k old s'
      | O => if String.prefix old s
             then removeFrom (String.length old - 1) old s'
             else String c (removeFrom 0 old s')
      end
  end.

Definition RemoveAll (s old : string) : string := removeFrom 0 old s.

End strings.

Module slicelib.

(** [slice.EntryExists(slice, entry)] of go-utils: exact match. *)
Definition EntryExists (l : list string) (entry : string) : bool :=
  existsb (String.eqb entry) l.

End slicelib.

Module fmt.

(** [%v] of a [[]string]: the elements between brackets, one space
    between two of them. *)
Definition showSlice (l : list string) : string :=
  "[" ^ String.concat " " l ^ "]".

End fmt.

(** A Go slice with an observable nil. *)
Definition slice (A : Type) : Type := option (list A).

Definition elems {A} (s : slice A) : list A :=
  match s with
  | None => []
  | Some l => l
  end.

Definition len {A} (s : slice A) : nat := List.length (elems s).

(** [append(s, x)]: never nil. *)
Definition append {A} (s : slice A) (x : A) : slice A := Some (elems s ++ [x]).

(** ** Application errors (go-utils [errors]) *)

Inductive ErrCode :=
| ErrCodeBadRequest
| ErrCodeUnauthorized
| ErrCodeInsufficientAccess
| ErrCodeNotFound
| ErrCodeConflict
| ErrCodeInternalServerError.

(** The message of an error. The two go-utils formats are kept with their
    argument; every other message is the text the code builds. *)
Inductive Msg :=
| Text (s : string)
| MissingMandatoryParameter (names : list string)
| MissingMandatoryConfiguration (names : list string).

Record Error := mkError { Code : ErrCode; Status : nat; Message : Msg }.

Definition StatusBadRequest := 400.
Definition StatusUnauthorized := 401.
Definition StatusForbidden := 403.
Definition StatusNotFound := 404.
Definition StatusConflict := 409.
Definition StatusInternalServerError := 500.

Definition BadRequestError (m : Msg) : Error :=
  mkError ErrCodeBadRequest StatusBadRequest m.
Definition UnauthorizedError (m : Msg) : Error :=
  mkError ErrCodeUnauthorized StatusUnauthorized m.
Definition ForbiddenError (m : Msg) : Error :=
  mkError ErrCodeInsufficientAccess StatusForbidden m.
Definition NotFoundError (m : Msg) : Error :=
  mkError ErrCodeNotFound StatusNotFound m.
Definition ConflictError (m : Msg) : Error :=
  mkError ErrCodeConflict StatusConflict m.
Definition InternalServerError (m : Msg) : Error :=
  mkError ErrCodeInternalServerError StatusInternalServerError m.

(** What a method returns: a value, an application error, or a runtime
    panic. *)
Inductive Outcome (A : Type) :=
| Ok (a : A)
| Fail (e : Error)
| Panic.
Arguments Ok {A} a.
Arguments Fail {A} e.
Arguments Panic {A}.

(** ** The protocol library (go-ldap) as the code uses it *)

Module ldap.

Inductive LDAPResult :=
| LDAPResultInvalidCredentials
| LDAPResultInvalidDNSyntax
| LDAPResultInsufficientAccessRights
| LDAPResultEntryAlreadyExists
| LDAPResultNoSuchObject.

(** The texts of go-ldap's [LDAPResultCodeMap] for the codes the client
    looks at. *)
Definition LDAPResultCodeMap (r : LDAPResult) : string :=
  match r with
  | LDAPResultInvalidCredentials => "Invalid Credentials"
  | LDAPResultInvalidDNSyntax => "Invalid DN Syntax"
  | LDAPResultInsufficientAccessRights => "Insufficient Access Rights"
  | LDAPResultEntryAlreadyExists => "Entry Already Exists"
  | LDAPResultNoSuchObject => "No Such Object"
  end.

Inductive Scope := ScopeBaseObject | ScopeSingleLevel | ScopeWholeSubtree.
Inductive Deref := NeverDerefAliases.

Record SearchRequest := mkSearchRequest {
  BaseDN : string;
  SearchScope : Scope;
  DerefAliases : Deref;
  SizeLimit : nat;
  TimeLimit : nat;
  TypesOnly : bool;
  Filter : string;
  Attributes : list string
}.

Record EntryAttribute := mkEntryAttribute {
  Name : string;
  Values : list string
}.

Record Entry := mkEntry {
  DN : string;
  EntryAttributes : list EntryAttribute
}.

(** [Entry.GetAttributeValues]: the values of the first attribute of that
    name, none when there is no such attribute. *)
Fixpoint attributeValues (attrs : list EntryAttribute) (name : string)
  : list string :=
  match attrs with
  | [] => []
  | a :: rest =>
      if String.eqb (Name a) name then Values a
      else attributeValues rest name
  end.

Definition GetAttributeValues (e : Entry) (name : string) : list string :=
  attributeValues (EntryAttributes e) name.

(** [Entry.GetAttributeValue]: the first of these values, or the empty
    string. *)
Definition GetAttributeValue (e : Entry) (name : string) : string :=
  match GetAttributeValues e name with
  | [] => ""
  | v :: _ => v
  end.

Record SearchResult := mkSearchResult { Entries : list Entry }.

Record AddRequest := mkAddRequest {
  AddDN : string;
  AddAttributes : list (string * list string)
}.

Definition NewAddRequest (dn : string) : AddRequest := mkAddRequest dn [].

(** [AddRequest.Attribute(attrType, attrVals)]. *)
Definition Attribute (attrType : string) (attrVals : list string)
           (ar : AddRequest) : AddRequest :=
  mkAddRequest (AddDN ar) (AddAttributes ar ++ [(attrType, attrVals)]).

Record DelRequest := mkDelRequest { DelDN : string }.

Inductive Operation := AddAttribute | DeleteAttribute | ReplaceAttribute.

Record Change := mkChange {
  ChangeOp : Operation;
  ChangeType : string;
  ChangeVals : list string
}.

Record ModifyRequest := mkModifyRequest {
  ModifyDN : string;
  Changes : list Change
}.

Definition NewModifyRequest (dn : string) : ModifyRequest :=
  mkModifyRequest dn [].

(** [ModifyRequest.Add] and [ModifyRequest.Delete] append one change. *)
Definition Add (attrType : string) (attrVals : list string)
           (mr : ModifyRequest) : ModifyRequest :=
  mkModifyRequest (ModifyDN mr)
                  (Changes mr ++ [mkChange AddAttribute attrType attrVals]).

Definition Delete (attrType : string) (attrVals : list string)
           (mr : ModifyRequest) : ModifyRequest :=
  mkModifyRequest (ModifyDN mr)
                  (Changes mr ++ [mkChange DeleteAttribute attrType attrVals]).

Record PasswordModifyRequest := mkPasswordModifyRequest {
  UserIdentity : string;
  OldPassword : string;
  NewPassword : string
}.

Record PasswordModifyResult := mkPasswordModifyResult {
  GeneratedPassword : string
}.

End ldap.

(** ** client.go *)

Definition ldapUrlFormat (protocol hostname port : string) : string :=
  protocol ^ "://" ^ hostname ^ ":" ^ port.

Definition userIdAttr := "uid".
Definition alternateUserIdAttr := "altUid".
Definition CommonNameAttr := "cn".
Definition familyNameAttr := "sn".
Definition displayNameAttr := "displayName".
Definition employeeNumberAttr := "employeeNumber".
Definition mailAttr := "mail".
Definition userPasswordAttr := "userPassword".
Definition statusAttr := "status".
Definition OrganizationalUnitAttr := "ou".
Definition uniqueMemberAttr := "uniqueMember".
Definition objectClassAttr := "objectClass".

Definition orgUnitSearchFilter := "(&(objectClass=organizationalUnit))".
Definition groupSearchFilter := "(&(objectClass=groupOfUniqueNames))".
Definition userSearchFilter := "(&(objectClass=inetOrgPerson))".

Definition ProtocolLdap := "ldap".
Definition ProtocolLdaps := "ldaps".
Definition OrganizationalUnitAttrValuePrefix := OrganizationalUnitAttr ^ "=".

(** [fmt.Sprintf(WildcardUserSearchFilter, key, value)]. *)
Definition WildcardUserSearchFilter (key value : string) : string :=
  "(&(" ^ key ^ "=" ^ value ^ ")(objectClass=inetOrgPerson))".

Definition validProtocols := [ProtocolLdap; ProtocolLdaps].
Definition defaultObjectClassesGroup := ["groupOfUniqueNames"; "top"].

Record Config := mkConfig {
  Protocol : string;
  Hostname : string;
  Port : string;
  BaseDN : string;
  UserBaseDN : string;
  GroupBaseDN : string;
  BindUser : string;
  BindPassword : string
}.

(** The directory reached through [ldap.Dial]/[ldap.DialTLS] and the
    [ldap.Client] interface: what it answers to each call. An error is the
    text of [err.Error()], which is all [handleLdapError] reads. *)
Record Server := mkServer {
  srvDial : bool -> string -> option string;
  srvBind : string -> string -> option string;
  srvSearch : ldap.SearchRequest -> string + ldap.SearchResult;
  srvAdd : ldap.AddRequest -> option string;
  srvDel : ldap.DelRequest -> option string;
  srvModify : ldap.ModifyRequest -> option string;
  srvPasswordModify :
    ldap.PasswordModifyRequest -> string + ldap.PasswordModifyResult
}.

Record Client := mkClient {
  config : Config;
  ldapClient : Server;
  unitTesting : bool
}.

(** [Client.SetProtocol]. *)
Definition SetProtocol (c : Client) (protocol : string) : Client :=
  let p := if slicelib.EntryExists validProtocols protocol
           then protocol else ProtocolLdaps in
  mkClient
    (mkConfig p (Hostname (config c)) (Port (config c)) (BaseDN (config c))
              (UserBaseDN (config c)) (GroupBaseDN (config c))
              (BindUser (config c)) (BindPassword (config c)))
    (ldapClient c) (unitTesting c).

(** [NewClient(config, opts...)] with the options [WithLDAPClient] and,
    when [testing], [UnitTesting]. *)
Definition NewClient (cfg : Config) (srv : Server) (testing : bool) : Client :=
  SetProtocol (mkClient cfg srv testing) (Protocol cfg).

(** [Client.SetHostname], [Client.SetPort], [Client.SetBindCredentials]. *)
Definition SetHostname (c : Client) (hostname : string) : Client :=
  mkClient
    (mkConfig (Protocol (config c)) hostname (Port (config c))
              (BaseDN (config c)) (UserBaseDN (config c))
              (GroupBaseDN (config c)) (BindUser (config c))
              (BindPassword (config c)))
    (ldapClient c) (unitTesting c).

Definition SetPort (c : Client) (port : string) : Client :=
  mkClient
    (mkConfig (Protocol (config c)) (Hostname (config c)) port
              (BaseDN (config c)) (UserBaseDN (config c))
              (GroupBaseDN (config c)) (BindUser (config c))
              (BindPassword (config c)))
    (ldapClient c) (unitTesting c).

Definition SetBindCredentials (c : Client) (bindUser bindPassword : string)
  : Client :=
  mkClient
    (mkConfig (Protocol (config c)) (Hostname (config c)) (Port (config c))
              (BaseDN (config c)) (UserBaseDN (config c))
              (GroupBaseDN (config c)) bindUser bindPassword)
    (ldapClient c) (unitTesting c).

(** The calls made on the transport, in order. [DialCall tls addr] is
    [ldap.DialTLS] when [tls] and [ldap.Dial] otherwise. *)
Inductive Call :=
| DialCall (tls : bool) (addr : string)
| BindCall (username password : string)
| SearchCall (sr : ldap.SearchRequest)
| AddCall (ar : ldap.AddRequest)
| DelCall (dr : ldap.DelRequest)
| ModifyCall (mr : ldap.ModifyRequest)
| PasswordModifyCall (pmr : ldap.PasswordModifyRequest)
| CloseCall.

(** A computation: the calls it makes and its result. *)
Definition M (A : Type) : Type := (list Call * A)%type.

Definition ret {A} (a : A) : M A := ([], a).

Definition bind {A B} (m : M A) (f : A -> M B) : M B :=
  let (t1, a) := m in
  let (t2, b) := f a in
  (t1 ++ t2, b).

Definition call (c : Call) : M unit := ([c], tt).

Definition trace {A} (m : M A) : list Call := fst m.
Definition result {A} (m : M A) : A := snd m.

Notation "x <- m ;; k" := (bind m (fun x => k))
  (at level 61, m at next level, right associativity).
Notation "m ;;; k" := (bind m (fun _ => k))
  (at level 61, right associativity).

(** [defer c.ldapClient.Close()] around the rest of a function body. *)
Definition deferClose {A} (body : M A) : M A :=
  r <- body ;; call CloseCall ;;; ret r.

(** [config.Validate] of go-utils on [Config], every field of which is
    tagged required: the names of the empty fields, in declaration order,
    as the message of the error it returns. *)
Definition missingConfiguration (cfg : Config) : list string :=
  (if Protocol cfg =? "" then ["LDAP_PROTOCOL"] else [])%string ++
  (if Hostname cfg =? "" then ["LDAP_HOSTNAME"] else [])%string ++
  (if Port cfg =? "" then ["LDAP_PORT"] else [])%string ++
  (if BaseDN cfg =? "" then ["LDAP_BASE_DN"] else [])%string ++
  (if UserBaseDN cfg =? "" then ["LDAP_USER_BASE_DN"] else [])%string ++
  (if GroupBaseDN cfg =? "" then ["LDAP_GROUP_BASE_DN"] else [])%string ++
  (if BindUser cfg =? "" then ["bindUser"] else [])%string ++
  (if BindPassword cfg =? "" then ["bindPassword"] else [])%string.

Definition configValidate (cfg : Config) : option Msg :=
  match missingConfiguration cfg with
  | [] => None
  | names => Some (MissingMandatoryConfiguration names)
  end.

(** [Client.handleLdapError]. *)
Definition handleLdapError (errStr : string) : Error :=
  if strings.Contains errStr
       (ldap.LDAPResultCodeMap ldap.LDAPResultInvalidCredentials)
     || strings.Contains errStr
          (ldap.LDAPResultCodeMap ldap.LDAPResultInvalidDNSyntax)
  then UnauthorizedError
         (Text (ldap.LDAPResultCodeMap ldap.LDAPResultInvalidCredentials))
  else if strings.Contains errStr
            (ldap.LDAPResultCodeMap ldap.LDAPResultInsufficientAccessRights)
  then ForbiddenError
         (Text (ldap.LDAPResultCodeMap ldap.LDAPResultInsufficientAccessRights))
  else if strings.Contains errStr
            (ldap.LDAPResultCodeMap ldap.LDAPResultEntryAlreadyExists)
  then BadRequestError
         (Text (ldap.LDAPResultCodeMap ldap.LDAPResultEntryAlreadyExists))
  else if strings.Contains errStr
            (ldap.LDAPResultCodeMap ldap.LDAPResultNoSuchObject)
  then NotFoundError
         (Text (ldap.LDAPResultCodeMap ldap.LDAPResultNoSuchObject))
  else InternalServerError (Text errStr).

(** [Client.validate]. *)
Definition validate (c : Client) : option Error :=
  match configValidate (config c) with
  | Some msg => Some (BadRequestError msg)
  | None => None
  end.

(** [Client.dial]. *)
Definition dial (c : Client) : M (option Error) :=
  let addr := Hostname (config c) ^ ":" ^ Port (config c) in
  let tls := negb (Protocol (config c) =? "ldap")%string in
  call (DialCall tls addr) ;;;
  match srvDial (ldapClient c) tls addr with
  | Some err => ret (Some (handleLdapError err))
  | None => ret None
  end.

(** [Client.bind]. *)
Definition bindLdap (c : Client) : M (option Error) :=
  call (BindCall (BindUser (config c)) (BindPassword (config c))) ;;;
  match srvBind (ldapClient c) (BindUser (config c)) (BindPassword (config c))
  with
  | Some err => ret (Some (handleLdapError err))
  | None => ret None
  end.

(** [Client.connect]. *)
Definition connect (c : Client) : M (option Error) :=
  match validate c with
  | Some cErr => ret (Some cErr)
  | None =>
      d <- (if negb (unitTesting c) then dial c else ret None) ;;
      match d with
      | Some cErr => ret (Some cErr)
      | None => bindLdap c
      end
  end.

(** [Client.doLDAPSearch]. *)
Definition doLDAPSearch (c : Client) (sr : ldap.SearchRequest)
  : M (Outcome ldap.SearchResult) :=
  cErr <- connect c ;;
  match cErr with
  | Some e => ret (Fail e)
  | None =>
      deferClose
        (call (SearchCall sr) ;;;
         match srvSearch (ldapClient c) sr with
         | inl err => ret (Fail (handleLdapError err))
         | inr res => ret (Ok res)
         end)
  end.

(** [Client.doLDAPAdd]. *)
Definition doLDAPAdd (c : Client) (ar : ldap.AddRequest) : M (Outcome unit) :=
  cErr <- connect c ;;
  match cErr with
  | Some e => ret (Fail e)
  | None =>
      deferClose
        (call (AddCall ar) ;;;
         match srvAdd (ldapClient c) ar with
         | Some err => ret (Fail (handleLdapError err))
         | None => ret (Ok tt)
         end)
  end.

(** [Client.doLDAPDelete]. *)
Definition doLDAPDelete (c : Client) (dr : ldap.DelRequest)
  : M (Outcome unit) :=
  cErr <- connect c ;;
  match cErr with
  | Some e => ret (Fail e)
  | None =>
      deferClose
        (call (DelCall dr) ;;;
         match srvDel (ldapClient c) dr with
         | Some err => ret (Fail (handleLdapError err))
         | None => ret (Ok tt)
         end)
  end.

(** [Client.doLDAPModify]. *)
Definition doLDAPModify (c : Client) (mr : ldap.ModifyRequest)
  : M (Outcome unit) :=
  cErr <- connect c ;;
  match cErr with
  | Some e => ret (Fail e)
  | None =>
      deferClose
        (call (ModifyCall mr) ;;;
         match srvModify (ldapClient c) mr with
         | Some err => ret (Fail (handleLdapError err))
         | None => ret (Ok tt)
         end)
  end.

(** [Client.doLDAPPasswordModify]. *)
Definition doLDAPPasswordModify (c : Client) (pmr : ldap.PasswordModifyRequest)
  : M (Outcome ldap.PasswordModifyResult) :=
  cErr <- connect c ;;
  match cErr with
  | Some e => ret (Fail e)
  | None =>
      deferClose
        (call (PasswordModifyCall pmr) ;;;
         match srvPasswordModify (ldapClient c) pmr with
         | inl err => ret (Fail (handleLdapError err))
         | inr res => ret (Ok res)
         end)
  end.

(** [if cErr != nil { return cErr }] between two steps of a method. *)
Definition andThen {A B} (m : M (Outcome A)) (f : A -> M (Outcome B))
  : M (Outcome B) :=
  r <- m ;;
  match r with
  | Ok a => f a
  | Fail e => ret (Fail e)
  | Panic => ret Panic
  end.

(** ** organizational_units.go *)

Module organizationalUnits.

Definition getSearchRequest (c : Client) : ldap.SearchRequest :=
  ldap.mkSearchRequest (GroupBaseDN (config c)) ldap.ScopeSingleLevel
    ldap.NeverDerefAliases 0 0 false orgUnitSearchFilter
    [OrganizationalUnitAttr].

Definition parseSearchResult (res : ldap.SearchResult) : slice string :=
  fold_left
    (fun organizationalUnits entry =>
       append organizationalUnits
              (ldap.GetAttributeValue entry OrganizationalUnitAttr))
    (ldap.Entries res) None.

Definition GetAll (c : Client) : M (Outcome (slice string)) :=
  andThen (doLDAPSearch c (getSearchRequest c))
          (fun res => ret (Ok (parseSearchResult res))).

End organizationalUnits.

(** ** groups.go *)

Module groups.

Definition noSuchUserGroupMemberCn := "NO_SUCH_USER".

Definition groupAlreadyExistsMsg (cn ou : string) : string :=
  "Group with cn = '" ^ cn ^ "' and ou = '" ^ ou ^ "' already exists".

Definition groupNotFoundMsg (cn ou : string) : string :=
  "Group with cn = '" ^ cn ^ "' and ou = '" ^ ou ^ "' was not found".

Definition invalidOrganizationalUnitErrMsg (ou : string) (valid : list string)
  : string :=
  "Invalid organizational unit '" ^ ou ^ "'. Valid values are "
  ^ fmt.showSlice valid.

Record Group := mkGroup {
  Dn : string;
  Ou : string;
  Cn : string;
  Members : list string
}.

(** [groupsManager.getDN]. *)
Definition getDN (c : Client) (cn ou : string) : string :=
  if negb (cn =? "")%string && negb (ou =? "")%string then
    CommonNameAttr ^ "=" ^ cn ^ "," ^ OrganizationalUnitAttr ^ "=" ^ ou ^ ","
    ^ GroupBaseDN (config c)
  else if (cn =? "")%string && negb (ou =? "")%string then
    OrganizationalUnitAttr ^ "=" ^ ou ^ "," ^ GroupBaseDN (config c)
  else GroupBaseDN (config c).

(** [groupsManager.getUniqueMemberDn]. *)
Definition getUniqueMemberDn (c : Client) (memberId : string) : string :=
  userIdAttr ^ "=" ^ memberId ^ "," ^ UserBaseDN (config c).

(** [groupsManager.getSearchRequest]. *)
Definition getSearchRequest (c : Client) (cn ou groupSearchFilter : string)
  : ldap.SearchRequest :=
  ldap.mkSearchRequest (getDN c cn ou) ldap.ScopeWholeSubtree
    ldap.NeverDerefAliases 0 0 false groupSearchFilter
    [CommonNameAttr; uniqueMemberAttr].

(** [groupsManager.getAddRequest]. *)
Definition getAddRequest (c : Client) (cn ou : string) (memberIds : list string)
  : ldap.AddRequest :=
  let uniqueMembers :=
    fold_left
      (fun uniqueMembers memberId =>
         uniqueMembers ++ [getUniqueMemberDn c (strings.ToUpper memberId)])
      memberIds [] in
  let dn := getDN c cn ou in
  ldap.Attribute uniqueMemberAttr uniqueMembers
    (ldap.Attribute CommonNameAttr [cn]
       (ldap.Attribute objectClassAttr defaultObjectClassesGroup
          (ldap.NewAddRequest dn))).

Definition getModifyRequest (c : Client) (cn ou : string)
  : ldap.ModifyRequest :=
  ldap.NewModifyRequest (getDN c cn ou).

Definition getDeleteRequest (c : Client) (cn ou : string) : ldap.DelRequest :=
  ldap.mkDelRequest (getDN c cn ou).

(** One round of the loop of [groupsManager.parseSearchResult];
    [strings.Split(entry.DN, ",")[1]] panics on a DN without a comma. *)
Definition parseEntry (entry : ldap.Entry) : option Group :=
  match nth_error (strings.Split (ldap.DN entry) ",") 1 with
  | None => None
  | Some second =>
      Some (mkGroup (ldap.DN entry)
              (strings.RemoveAll second OrganizationalUnitAttrValuePrefix)
              (ldap.GetAttributeValue entry CommonNameAttr)
              (ldap.GetAttributeValues entry uniqueMemberAttr))
  end.

Fixpoint parseEntries (entries : list ldap.Entry) (groups : slice Group)
  : Outcome (slice Group) :=
  match entries with
  | [] => Ok groups
  | entry :: rest =>
      match parseEntry entry with
      | None => Panic
      | Some group => parseEntries rest (append groups group)
      end
  end.

(** [groupsManager.parseSearchResult]. *)
Definition parseSearchResult (res : ldap.SearchResult)
  : Outcome (slice Group) :=
  parseEntries (ldap.Entries res) None.

(** [groupsManager.validateGroupOu]. *)
Definition validateGroupOu (c : Client) (ou : string) : M (Outcome unit) :=
  andThen (organizationalUnits.GetAll c)
    (fun organizationalUnits =>
       if negb (slicelib.EntryExists (elems organizationalUnits) ou)
       then ret (Fail (BadRequestError
                         (Text (invalidOrganizationalUnitErrMsg ou
                                  (elems organizationalUnits)))))
       else ret (Ok tt)).

(** [groupsManager.validateGroup]. *)
Definition validateGroup (c : Client) (cn ou : string) : M (Outcome unit) :=
  let missingParams :=
    (if (strings.TrimSpace cn =? "")%string then [CommonNameAttr] else [])
    ++ (if (strings.TrimSpace ou =? "")%string
        then [OrganizationalUnitAttr] else []) in
  if 0 <? List.length missingParams
  then ret (Fail (BadRequestError (MissingMandatoryParameter missingParams)))
  else validateGroupOu c ou.

(** [groupsManager.Get]. *)
Definition Get (c : Client) (cn ou : string) : M (Outcome (slice Group)) :=
  andThen (if negb (ou =? "")%string then validateGroupOu c ou else ret (Ok tt))
    (fun _ =>
       r <- doLDAPSearch c (getSearchRequest c cn ou groupSearchFilter) ;;
       match r with
       | Fail cErr =>
           if Status cErr =? StatusNotFound
           then ret (Fail (NotFoundError (Text (groupNotFoundMsg cn ou))))
           else ret (Fail cErr)
       | Panic => ret Panic
       | Ok res => ret (parseSearchResult res)
       end).

(** [groupsManager.GetAll]. *)
Definition GetAll (c : Client) : M (Outcome (slice Group)) := Get c "" "".

(** [groupsManager.GetFilter]. *)
Definition GetFilter (c : Client) (searchFilter : string)
  : M (Outcome (slice Group)) :=
  andThen (doLDAPSearch c (getSearchRequest c "" "" searchFilter))
          (fun res => ret (parseSearchResult res)).

(** [groupsManager.Create]. *)
Definition Create (c : Client) (cn ou : string) (memberIds : list string)
  : M (Outcome unit) :=
  andThen (validateGroup c cn ou)
    (fun _ =>
       let memberIds :=
         if List.length memberIds =? 0
         then memberIds ++ [noSuchUserGroupMemberCn] else memberIds in
       r <- doLDAPAdd c (getAddRequest c cn ou memberIds) ;;
       match r with
       | Fail cErr =>
           if Status cErr =? StatusBadRequest
           then ret (Fail (ConflictError (Text (groupAlreadyExistsMsg cn ou))))
           else ret (Fail cErr)
       | other => ret other
       end).

(** [groupsManager.Delete]. *)
Definition Delete (c : Client) (cn ou : string) : M (Outcome unit) :=
  andThen (validateGroup c cn ou)
    (fun _ =>
       r <- doLDAPDelete c (getDeleteRequest c cn ou) ;;
       match r with
       | Fail cErr =>
           if Status cErr =? StatusNotFound
           then ret (Fail (NotFoundError (Text (groupNotFoundMsg cn ou))))
           else ret (Fail cErr)
       | other => ret other
       end).

(** The body of [groupsManager.AddMembers] between [group := result[0]]
    and the call of [doLDAPModify]: the request it builds. *)
Definition addMembersRequest (c : Client) (group : Group) (cn ou : string)
           (memberIds : list string) : ldap.ModifyRequest :=
  let mr := getModifyRequest c cn ou in
  let uniqueMembers :=
    fold_left
      (fun uniqueMembers memberId =>
         let uniqueMember := getUniqueMemberDn c (strings.ToUpper memberId) in
         if negb (slicelib.EntryExists (Members group) uniqueMember)
         then uniqueMembers ++ [uniqueMember]
         else uniqueMembers)
      memberIds [] in
  let mr := if 0 <? List.length uniqueMembers
            then ldap.Add uniqueMemberAttr uniqueMembers mr else mr in
  let mr := if 2 <=? List.length (Members group) + List.length uniqueMembers
            then ldap.Delete uniqueMemberAttr
                   [getUniqueMemberDn c noSuchUserGroupMemberCn] mr
            else mr in
  mr.

(** [groupsManager.AddMembers]; [result[0]] panics on an empty result. *)
Definition AddMembers (c : Client) (cn ou : string) (memberIds : list string)
  : M (Outcome unit) :=
  andThen (validateGroup c cn ou)
    (fun _ =>
       andThen (Get c cn ou)
         (fun res =>
            match elems res with
            | [] => ret Panic
            | group :: _ =>
                doLDAPModify c (addMembersRequest c group cn ou memberIds)
            end)).

(** The body of [groupsManager.RemoveMembers] between [group := result[0]]
    and the call of [doLDAPModify]. The difference of the two lengths is a
    Go [int] and can be negative. *)
Definition removeMembersRequest (c : Client) (group : Group) (cn ou : string)
           (memberIds : list string) : ldap.ModifyRequest :=
  let mr := getModifyRequest c cn ou in
  let uniqueMembers :=
    fold_left
      (fun uniqueMembers memberId =>
         let uniqueMember := getUniqueMemberDn c (strings.ToUpper memberId) in
         if slicelib.EntryExists (Members group) uniqueMember
         then uniqueMembers ++ [uniqueMember]
         else uniqueMembers)
      memberIds [] in
  let mr := if 0 <? List.length uniqueMembers
            then ldap.Delete uniqueMemberAttr uniqueMembers mr else mr in
  let mr := if (Z.of_nat (List.length (Members group))
                - Z.of_nat (List.length uniqueMembers) =? 0)%Z
            then ldap.Add uniqueMemberAttr
                   [getUniqueMemberDn c
                      (strings.ToUpper noSuchUserGroupMemberCn)] mr
            else mr in
  mr.

(** [groupsManager.RemoveMembers]. *)
Definition RemoveMembers (c : Client) (cn ou : string)
           (memberIds : list string) : M (Outcome unit) :=
  andThen (validateGroup c cn ou)
    (fun _ =>
       andThen (Get c cn ou)
         (fun res =>
            match elems res with
            | [] => ret Panic
            | group :: _ =>
                doLDAPModify c (removeMembersRequest c group cn ou memberIds)
            end)).

End groups.

(** ** users.go *)

Module users.

Definition userNotFoundMsg (uid : string) : string :=
  "User with uid = '" ^ uid ^ "' was not found".

Definition userAttributes : list string :=
  [userIdAttr; alternateUserIdAttr; CommonNameAttr; familyNameAttr;
   displayNameAttr; employeeNumberAttr; mailAttr; statusAttr].

Definition invalidFilterKeyErrMsg (key : string) (valid : list string)
  : string :=
  "Invalid filter key '" ^ key ^ "'. Valid filter keys are "
  ^ fmt.showSlice valid.

Record User := mkUser {
  Uid : string;
  AltUid : string;
  Cn : string;
  Sn : string;
  DisplayName : string;
  EmployeeNumber : string;
  Mail : string;
  UserPassword : string;
  UserStatus : string
}.

(** [usersManager.getDN]. *)
Definition getDN (c : Client) (uid : string) : string :=
  userIdAttr ^ "=" ^ uid ^ "," ^ UserBaseDN (config c).

(** [usersManager.getUsersSearchRequest]. *)
Definition getUsersSearchRequest (c : Client) (userSearchFilter : string)
  : ldap.SearchRequest :=
  ldap.mkSearchRequest (UserBaseDN (config c)) ldap.ScopeWholeSubtree
    ldap.NeverDerefAliases 0 0 false userSearchFilter userAttributes.

(** [usersManager.getUserSearchRequest]. *)
Definition getUserSearchRequest (c : Client) (DN : string)
  : ldap.SearchRequest :=
  ldap.mkSearchRequest DN ldap.ScopeBaseObject
    ldap.NeverDerefAliases 0 0 false userSearchFilter userAttributes.

Definition parseEntry (e : ldap.Entry) : User :=
  mkUser (ldap.GetAttributeValue e userIdAttr)
         (ldap.GetAttributeValue e alternateUserIdAttr)
         (ldap.GetAttributeValue e CommonNameAttr)
         (ldap.GetAttributeValue e familyNameAttr)
         (ldap.GetAttributeValue e displayNameAttr)
         (ldap.GetAttributeValue e employeeNumberAttr)
         (ldap.GetAttributeValue e mailAttr)
         (ldap.GetAttributeValue e userPasswordAttr)
         (ldap.GetAttributeValue e statusAttr).

(** [usersManager.parseSearchResult]. *)
Definition parseSearchResult (res : ldap.SearchResult) : slice User :=
  let users :=
    fold_left (fun users e => append users (parseEntry e))
              (ldap.Entries res) None in
  if len users =? 0 then Some [] else users.

(** [usersManager.validateUid]. *)
Definition validateUid (uid : string) : Outcome unit :=
  if (strings.TrimSpace uid =? "")%string
  then Fail (BadRequestError (MissingMandatoryParameter [userIdAttr]))
  else Ok tt.

(** [usersManager.validateFilter]. *)
Definition validateFilter (key value : string) : Outcome unit :=
  let missingParams :=
    (if (strings.TrimSpace key =? "")%string then ["key"%string] else [])
    ++ (if (strings.TrimSpace value =? "")%string
        then ["value"%string] else []) in
  if 0 <? List.length missingParams
  then Fail (BadRequestError (MissingMandatoryParameter missingParams))
  else if negb (slicelib.EntryExists userAttributes key)
  then Fail (BadRequestError
               (Text (invalidFilterKeyErrMsg key userAttributes)))
  else Ok tt.

(** [usersManager.GetAll]. *)
Definition GetAll (c : Client) : M (Outcome (slice User)) :=
  andThen (doLDAPSearch c (getUsersSearchRequest c userSearchFilter))
          (fun res => ret (Ok (parseSearchResult res))).

(** [usersManager.Get]; indexing the parsed list at 0 panics when it is
    empty. *)
Definition Get (c : Client) (uid : string) : M (Outcome User) :=
  andThen (ret (validateUid uid))
    (fun _ =>
       r <- doLDAPSearch c (getUserSearchRequest c (getDN c uid)) ;;
       match r with
       | Fail cErr =>
           if Status cErr =? StatusNotFound
           then ret (Fail (NotFoundError (Text (userNotFoundMsg uid))))
           else ret (Fail cErr)
       | Panic => ret Panic
       | Ok res =>
           match nth_error (elems (parseSearchResult res)) 0 with
           | None => ret Panic
           | Some user => ret (Ok user)
           end
       end).

(** [usersManager.Filter]. *)
Definition Filter (c : Client) (key value : string)
  : M (Outcome (slice User)) :=
  andThen (ret (validateFilter key value))
    (fun _ =>
       let userSearchFilter := WildcardUserSearchFilter key value in
       andThen (doLDAPSearch c (getUsersSearchRequest c userSearchFilter))
               (fun res => ret (Ok (parseSearchResult res)))).

(** The rest of users.go. *)

Definition UserStatusActive := "Active".
Definition UserStatusDisabled := "Disabled".
Definition UserStatusRevoked := "Revoked".
Definition UserStatusDeleted := "Deleted".

Definition UserTypePersonal := "personal".
Definition UserTypeNPA := "npa".
Definition UserTypeBuilder := "builder".

Definition userAlreadyExistsMsg (uid : string) : string :=
  "User with uid = '" ^ uid ^ "' already exists".

Definition invalidStatusErrMsg (status : string) (valid : list string)
  : string :=
  "Invalid status '" ^ status ^ "'. Valid status's are " ^ fmt.showSlice valid.

Definition invalidUserTypeErrMsg (userType : string) (valid : list string)
  : string :=
  "Invalid type '" ^ userType ^ "'. Valid types are " ^ fmt.showSlice valid.

Definition BuilderAccountSuffix := "_BUILDER".
Definition BuilderAccountTypeFilter := "*" ^ BuilderAccountSuffix.

Definition validStatusList : list string :=
  [UserStatusActive; UserStatusDisabled; UserStatusRevoked; UserStatusDeleted].

Definition validUserTypes : list string :=
  [UserTypePersonal; UserTypeNPA; UserTypeBuilder].

Definition defaultObjectClassesUser : list string :=
  ["person"; "organizationalPerson"; "inetOrgPerson"; "top"; "userExtras";
   "alternativeLogonUid"].

(** [regexp.Compile(PersonalUserTypeRegex)]: the pattern is a variable of
    the package, so what compiling it gives is taken as it comes: the text
    of the error, or the test [cRegex.Match([]byte(s))] of the compiled
    pattern. *)
Definition Compiled : Type := (string + (string -> bool))%type.

(** [usersManager.validateStatus]. *)
Definition validateStatus (status : string) : Outcome unit :=
  if negb (slicelib.EntryExists validStatusList status)
  then Fail (BadRequestError
               (Text (invalidStatusErrMsg status validStatusList)))
  else Ok tt.

(** [usersManager.validateUser]. *)
Definition validateUser (user : User) : Outcome unit :=
  let missing (value name : string) : list string :=
    if (strings.TrimSpace value =? "")%string then [name] else [] in
  let missingParams :=
    missing (Uid user) userIdAttr
    ++ missing (AltUid user) alternateUserIdAttr
    ++ missing (Cn user) CommonNameAttr
    ++ missing (Sn user) familyNameAttr
    ++ missing (DisplayName user) displayNameAttr
    ++ missing (Mail user) mailAttr
    ++ missing (UserPassword user) userPasswordAttr
    ++ missing (UserStatus user) statusAttr in
  if 0 <? List.length missingParams
  then Fail (BadRequestError (MissingMandatoryParameter missingParams))
  else validateStatus (UserStatus user).

(** [usersManager.getAddRequest]. *)
Definition getAddRequest (c : Client) (user : User) : ldap.AddRequest :=
  ldap.Attribute statusAttr [UserStatus user]
    (ldap.Attribute userPasswordAttr [UserPassword user]
       (ldap.Attribute mailAttr [Mail user]
          (ldap.Attribute employeeNumberAttr [EmployeeNumber user]
             (ldap.Attribute displayNameAttr [DisplayName user]
                (ldap.Attribute familyNameAttr [Sn user]
                   (ldap.Attribute CommonNameAttr [Cn user]
                      (ldap.Attribute alternateUserIdAttr [AltUid user]
                         (ldap.Attribute userIdAttr [Uid user]
                            (ldap.Attribute objectClassAttr
                               defaultObjectClassesUser
                               (ldap.NewAddRequest
                                  (getDN c (Uid user)))))))))))).

(** [usersManager.getPasswordModifyRequest]. *)
Definition getPasswordModifyRequest (c : Client)
           (uid oldPassword newPassword : string)
  : ldap.PasswordModifyRequest :=
  ldap.mkPasswordModifyRequest (getDN c uid) oldPassword newPassword.

(** [usersManager.getDeleteRequest]. *)
Definition getDeleteRequest (c : Client) (uid : string) : ldap.DelRequest :=
  ldap.mkDelRequest (getDN c uid).

(** [usersManager.modifyPassword]. *)
Definition modifyPassword (c : Client) (uid oldPassword newPassword : string)
  : M (Outcome ldap.PasswordModifyResult) :=
  r <- doLDAPPasswordModify c
         (getPasswordModifyRequest c uid oldPassword newPassword) ;;
  match r with
  | Fail cErr =>
      if Status cErr =? StatusNotFound
      then ret (Fail (NotFoundError (Text (userNotFoundMsg uid))))
      else ret (Fail cErr)
  | other => ret other
  end.

(** [usersManager.Create]. *)
Definition Create (c : Client) (user : User) : M (Outcome unit) :=
  andThen (ret (validateUser user))
    (fun _ =>
       let ar := getAddRequest c user in
       r <- doLDAPAdd c ar ;;
       match r with
       | Fail cErr =>
           if Status cErr =? StatusBadRequest
           then ret (Fail (ConflictError
                             (Text (userAlreadyExistsMsg (Uid user)))))
           else ret (Fail cErr)
       | Panic => ret Panic
       | Ok _ =>
           andThen (modifyPassword c (Uid user) (UserPassword user)
                      (UserPassword user))
                   (fun _ => ret (Ok tt))
       end).

(** [usersManager.Delete]. *)
Definition Delete (c : Client) (uid : string) : M (Outcome unit) :=
  andThen (ret (validateUid uid))
    (fun _ =>
       r <- doLDAPDelete c (getDeleteRequest c uid) ;;
       match r with
       | Fail cErr =>
           if Status cErr =? StatusNotFound
           then ret (Fail (NotFoundError (Text (userNotFoundMsg uid))))
           else ret (Fail cErr)
       | other => ret other
       end).

(** [usersManager.Authenticate]. *)
Definition Authenticate (c : Client) : M (option Error) := connect c.

(** [usersManager.SetNewPassword]. *)
Definition SetNewPassword (c : Client) (uid newPassword : string)
  : M (Outcome string) :=
  if (newPassword =? "")%string then
    andThen (modifyPassword c uid "" "")
            (fun res => ret (Ok (ldap.GeneratedPassword res)))
  else
    andThen (modifyPassword c uid "" newPassword)
            (fun _ => ret (Ok newPassword)).

(** [usersManager.FilterByStatus]. *)
Definition FilterByStatus (c : Client) (status : string)
  : M (Outcome (slice User)) :=
  andThen (ret (validateStatus status))
          (fun _ => Filter c statusAttr status).

(** [usersManager.getPersonalAccounts]. *)
Definition getPersonalAccounts (c : Client) (compiled : Compiled)
  : M (Outcome (slice User)) :=
  match compiled with
  | inl err => ret (Fail (InternalServerError (Text err)))
  | inr cRegex =>
      andThen (GetAll c)
        (fun users =>
           ret (Ok (fold_left
                      (fun res user =>
                         if cRegex (Uid user) then append res user else res)
                      (elems users) None)))
  end.

(** [usersManager.getBuilderAccounts]. *)
Definition getBuilderAccounts (c : Client) : M (Outcome (slice User)) :=
  Filter c userIdAttr BuilderAccountTypeFilter.

(** [usersManager.getNPAAccounts]. *)
Definition getNPAAccounts (c : Client) (compiled : Compiled)
  : M (Outcome (slice User)) :=
  match compiled with
  | inl err => ret (Fail (InternalServerError (Text err)))
  | inr cRegex =>
      andThen (GetAll c)
        (fun users =>
           ret (Ok (fold_left
                      (fun res user =>
                         if negb (cRegex (Uid user))
                            && negb (strings.Contains (Uid user)
                                       BuilderAccountSuffix)
                         then append res user else res)
                      (elems users) None)))
  end.

(** [usersManager.FilterByType]. *)
Definition FilterByType (c : Client) (compiled : Compiled) (userType : string)
  : M (Outcome (slice User)) :=
  if (userType =? UserTypePersonal)%string then getPersonalAccounts c compiled
  else if (userType =? UserTypeBuilder)%string then getBuilderAccounts c
  else if (userType =? UserTypeNPA)%string then getNPAAccounts c compiled
  else ret (Fail (BadRequestError
                    (Text (invalidUserTypeErrMsg userType validUserTypes)))).

End users.

(** ** The five operations of the connection manager, side by side *)

Inductive Request :=
| SearchOp (sr : ldap.SearchRequest)
| AddOp (ar : ldap.AddRequest)
| DeleteOp (dr : ldap.DelRequest)
| ModifyOp (mr : ldap.ModifyRequest)
| PasswordModifyOp (pmr : ldap.PasswordModifyRequest).

(** The calls one operation makes on the transport. *)
Definition execute (c : Client) (op : Request) : list Call :=
  match op with
  | SearchOp sr => trace (doLDAPSearch c sr)
  | AddOp ar => trace (doLDAPAdd c ar)
  | DeleteOp dr => trace (doLDAPDelete c dr)
  | ModifyOp mr => trace (doLDAPModify c mr)
  | PasswordModifyOp pmr => trace (doLDAPPasswordModify c pmr)
  end.

Definition isOk {A} (o : Outcome A) : bool :=
  match o with
  | Ok _ => true
  | _ => false
  end.

(** Whether the operation returned without an error. *)
Definition succeeds (c : Client) (op : Request) : bool :=
  match op with
  | SearchOp sr => isOk (result (doLDAPSearch c sr))
  | AddOp ar => isOk (result (doLDAPAdd c ar))
  | DeleteOp dr => isOk (result (doLDAPDelete c dr))
  | ModifyOp mr => isOk (result (doLDAPModify c mr))
  | PasswordModifyOp pmr => isOk (result (doLDAPPasswordModify c pmr))
  end.

(** The call of the operation itself. *)
Definition requestCall (op : Request) : Call :=
  match op with
  | SearchOp sr => SearchCall sr
  | AddOp ar => AddCall ar
  | DeleteOp dr => DelCall dr
  | ModifyOp mr => ModifyCall mr
  | PasswordModifyOp pmr => PasswordModifyCall pmr
  end.

(** Whether the directory answers the operation with an error. *)
Definition rejected (c : Client) (op : Request) : bool :=
  match op with
  | SearchOp sr =>
      match srvSearch (ldapClient c) sr with inl _ => true | inr _ => false end
  | AddOp ar =>
      match srvAdd (ldapClient c) ar with Some _ => true | None => false end
  | DeleteOp dr =>
      match srvDel (ldapClient c) dr with Some _ => true | None => false end
  | ModifyOp mr =>
      match srvModify (ldapClient c) mr with Some _ => true | None => false end
  | PasswordModifyOp pmr =>
      match srvPasswordModify (ldapClient c) pmr with
      | inl _ => true
      | inr _ => false
      end
  end.

(** The way an operation leaves, read from the configuration and from what
    the directory answers. *)
Inductive ExitPath :=
| ValidationFailure
| DialFailure
| BindFailure
| OperationFailure
| Success.

Definition dialFails (c : Client) : bool :=
  match srvDial (ldapClient c)
          (negb (Protocol (config c) =? "ldap")%string)
          (Hostname (config c) ^ ":" ^ Port (config c)) with
  | Some _ => true
  | None => false
  end.

Definition bindFails (c : Client) : bool :=
  match srvBind (ldapClient c) (BindUser (config c)) (BindPassword (config c))
  with
  | Some _ => true
  | None => false
  end.

Definition exitPath (c : Client) (op : Request) : ExitPath :=
  match missingConfiguration (config c) with
  | _ :: _ => ValidationFailure
  | [] =>
      if negb (unitTesting c) && dialFails c then DialFailure
      else if bindFails c then BindFailure
      else if rejected c op then OperationFailure
      else Success
  end.

(** Whether [connect] returned no error. *)
Definition connected (c : Client) : bool :=
  match result (connect c) with
  | None => true
  | Some _ => false
  end.

(** The calls that open a session. *)
Definition isSession (call : Call) : bool :=
  match call with
  | DialCall _ _ | BindCall _ _ => true
  | _ => false
  end.

Definition isClose (call : Call) : bool :=
  match call with
  | CloseCall => true
  | _ => false
  end.

(** How many times the connection is closed in a trace. *)
Definition closes (t : list Call) : nat := List.length (filter isClose t).

(** ** The member attribute of a group in the directory

    The values of an attribute are a set. The library queues the removal of
    the sentinel without looking whether it is a member, so the directory it
    talks to takes the removal of an absent value, and the addition of a
    present one, as no change. The changes of a request apply in order. *)

Module directory.

Definition addValue (vals : list string) (v : string) : list string :=
  if slicelib.EntryExists vals v then vals else vals ++ [v].

Definition addValues (vals : list string) (members : list string)
  : list string :=
  fold_left addValue vals members.

Definition deleteValues (vals : list string) (members : list string)
  : list string :=
  filter (fun m => negb (slicelib.EntryExists vals m)) members.

Definition applyChange (members : list string) (ch : ldap.Change)
  : list string :=
  if (ldap.ChangeType ch =? uniqueMemberAttr)%string then
    match ldap.ChangeOp ch with
    | ldap.AddAttribute => addValues (ldap.ChangeVals ch) members
    | ldap.DeleteAttribute => deleteValues (ldap.ChangeVals ch) members
    | ldap.ReplaceAttribute => addValues (ldap.ChangeVals ch) []
    end
  else members.

(** The members of a group after a modify request. *)
Definition applyModify (mr : ldap.ModifyRequest) (members : list string)
  : list string :=
  fold_left applyChange (ldap.Changes mr) members.

(** The members of a group an add request creates. *)
Definition applyAdd (ar : ldap.AddRequest) : list string :=
  addValues
    (flat_map (fun a => if (fst a =? uniqueMemberAttr)%string
                        then snd a else [])
              (ldap.AddAttributes ar))
    [].

End directory.

(** ** One group under the membership operations *)

Module membership.

(** The group [Get] reads when the directory holds [members] for it. *)
Definition groupOf (c : Client) (cn ou : string) (members : list string)
  : groups.Group :=
  groups.mkGroup (groups.getDN c cn ou) ou cn members.

(** The add request [groups.Create] passes to [doLDAPAdd]. *)
Definition createRequest (c : Client) (cn ou : string)
           (memberIds : list string) : ldap.AddRequest :=
  groups.getAddRequest c cn ou
    (if List.length memberIds =? 0
     then memberIds ++ [groups.noSuchUserGroupMemberCn] else memberIds).

Definition afterCreate (c : Client) (cn ou : string) (memberIds : list string)
  : list string :=
  directory.applyAdd (createRequest c cn ou memberIds).

Definition afterAddMembers (c : Client) (cn ou : string)
           (memberIds : list string) (members : list string) : list string :=
  directory.applyModify
    (groups.addMembersRequest c (groupOf c cn ou members) cn ou memberIds)
    members.

Definition afterRemoveMembers (c : Client) (cn ou : string)
           (memberIds : list string) (members : list string) : list string :=
  directory.applyModify
    (groups.removeMembersRequest c (groupOf c cn ou members) cn ou memberIds)
    members.

Inductive MemberOp :=
| AddMembersOp (memberIds : list string)
| RemoveMembersOp (memberIds : list string).

Definition afterOp (c : Client) (cn ou : string) (members : list string)
           (op : MemberOp) : list string :=
  match op with
  | AddMembersOp memberIds => afterAddMembers c cn ou memberIds members
  | RemoveMembersOp memberIds => afterRemoveMembers c cn ou memberIds members
  end.

(** The members of a group created with [memberIds] after a sequence of
    membership operations. *)
Definition afterOps (c : Client) (cn ou : string) (memberIds : list string)
           (ops : list MemberOp) : list string :=
  fold_left (afterOp c cn ou) ops (afterCreate c cn ou memberIds).

End membership.

(** The two sides of a modify request on the member attribute. *)
Definition sideOf (op : ldap.Operation) (ch : ldap.Change) : list string :=
  if (ldap.ChangeType ch =? uniqueMemberAttr)%string then
    match op, ldap.ChangeOp ch with
    | ldap.AddAttribute, ldap.AddAttribute => ldap.ChangeVals ch
    | ldap.DeleteAttribute, ldap.DeleteAttribute => ldap.ChangeVals ch
    | _, _ => []
    end
  else [].

Definition addSide (mr : ldap.ModifyRequest) : list string :=
  flat_map (sideOf ldap.AddAttribute) (ldap.Changes mr).

Definition deleteSide (mr : ldap.ModifyRequest) : list string :=
  flat_map (sideOf ldap.DeleteAttribute) (ldap.Changes mr).

(** The qualified member DN of a member identifier, and of the sentinel. *)
Definition memberDn (c : Client) (memberId : string) : string :=
  "uid=" ^ strings.ToUpper memberId ^ "," ^ UserBaseDN (config c).

Definition sentinelDn (c : Client) : string :=
  "uid=NO_SUCH_USER," ^ UserBaseDN (config c).

(** The DNs of the request that are not among [members], and those that
    are, by exact comparison. *)
Definition toAdd (c : Client) (members memberIds : list string)
  : list string :=
  filter (fun dn => negb (existsb (String.eqb dn) members))
         (map (memberDn c) memberIds).

Definition toRemove (c : Client) (members memberIds : list string)
  : list string :=
  filter (fun dn => existsb (String.eqb dn) members)
         (map (memberDn c) memberIds).

(** An operation that names no member twice to remove. *)
Definition distinctRemovals (c : Client) (op : membership.MemberOp) : Prop :=
  match op with
  | membership.AddMembersOp _ => True
  | membership.RemoveMembersOp memberIds => NoDup (map (memberDn c) memberIds)
  end.

(** The names [validateFilter] reports as missing: [key] and [value], in
    this order, each when it is empty or only white space. *)
Definition blankNames (key value : string) : list string :=
  (if (strings.TrimSpace key =? "")%string then ["key"] else [])
  ++ (if (strings.TrimSpace value =? "")%string then ["value"] else []).

(** ** A directory and a configuration to run the code on *)

Module fixtures.

Definition testConfig : Config :=
  mkConfig "ldaps" "ldap.company.com" "636" "company" "ou=users,o=company"
           "ou=projects,o=company" "cn=root,o=company" "somePassword".

Definition ouEntry (ou : string) : ldap.Entry :=
  ldap.mkEntry (OrganizationalUnitAttr ^ "=" ^ ou ^ ","
                ^ GroupBaseDN testConfig)
               [ldap.mkEntryAttribute OrganizationalUnitAttr [ou]].

Definition groupEntry (cn ou : string) (uniqueMembers : list string)
  : ldap.Entry :=
  ldap.mkEntry (CommonNameAttr ^ "=" ^ cn ^ "," ^ OrganizationalUnitAttr ^ "="
                ^ ou ^ "," ^ GroupBaseDN testConfig)
               [ldap.mkEntryAttribute CommonNameAttr [cn];
                ldap.mkEntryAttribute uniqueMemberAttr uniqueMembers].

Definition userEntry (uid : string) : ldap.Entry :=
  ldap.mkEntry (userIdAttr ^ "=" ^ uid ^ "," ^ UserBaseDN testConfig)
               [ldap.mkEntryAttribute userIdAttr [uid];
                ldap.mkEntryAttribute CommonNameAttr ["John"];
                ldap.mkEntryAttribute statusAttr ["Active"]].

(** A directory with the unit [test-ou-1], which answers a search under the
    group base with the entries [found], the search of one user with the
    entries [people] and a search of the users with no entry, and accepts
    every other call. *)
Definition serverWith (found people : list ldap.Entry) : Server :=
  mkServer
    (fun _ _ => None)
    (fun _ _ => None)
    (fun sr =>
       match ldap.SearchScope sr with
       | ldap.ScopeSingleLevel => inr (ldap.mkSearchResult [ouEntry "test-ou-1"])
       | ldap.ScopeWholeSubtree =>
           if String.prefix "ou=users" (ldap.BaseDN sr)
           then inr (ldap.mkSearchResult [])
           else inr (ldap.mkSearchResult found)
       | ldap.ScopeBaseObject => inr (ldap.mkSearchResult people)
       end)
    (fun _ => None)
    (fun _ => None)
    (fun _ => None)
    (fun _ => inr (ldap.mkPasswordModifyResult "")).

(** The same directory refusing the bind. *)
Definition refusingServer : Server :=
  mkServer
    (fun _ _ => None)
    (fun _ _ => Some "LDAP Result Code 49 Invalid Credentials: ")
    (srvSearch (serverWith [] []))
    (fun _ => None)
    (fun _ => None)
    (fun _ => None)
    (fun _ => inr (ldap.mkPasswordModifyResult "")).

Definition member (uid : string) : string :=
  userIdAttr ^ "=" ^ uid ^ "," ^ UserBaseDN testConfig.

(** A directory without the entry asked for: the search of one user, the
    deletion and the password change are answered with no such object; the
    search of the users gives the entries [people]. *)
Definition noSuchObject : string := "LDAP Result Code 32 No Such Object: ".

Definition missingServer (people : list ldap.Entry) : Server :=
  mkServer
    (fun _ _ => None)
    (fun _ _ => None)
    (fun sr =>
       match ldap.SearchScope sr with
       | ldap.ScopeBaseObject => inl noSuchObject
       | ldap.ScopeSingleLevel => inr (ldap.mkSearchResult [ouEntry "test-ou-1"])
       | ldap.ScopeWholeSubtree =>
           if String.prefix "ou=users" (ldap.BaseDN sr)
           then inr (ldap.mkSearchResult people)
           else inl noSuchObject
       end)
    (fun _ => Some "LDAP Result Code 68 Entry Already Exists: ")
    (fun _ => Some noSuchObject)
    (fun _ => None)
    (fun _ => inl noSuchObject).

(** A directory that generates the password [generated] when asked to
    change one. *)
Definition generatingServer : Server :=
  mkServer
    (fun _ _ => None)
    (fun _ _ => None)
    (fun _ => inr (ldap.mkSearchResult []))
    (fun _ => None)
    (fun _ => None)
    (fun _ => None)
    (fun _ => inr (ldap.mkPasswordModifyResult "generated")).

Definition john : users.User :=
  users.mkUser "C00001" "john.doe" "John" "Doe" "John Doe" "E100001"
               "john.doe@company.com" "somePassword" "Active".

End fixtures.

(** ** Names for what the operations do on the transport *)

(** The error an operation returns, if it returns one. *)
Definition errorOf (c : Client) (op : Request) : option Error :=
  let failure {A} (o : Outcome A) : option Error :=
    match o with
    | Fail e => Some e
    | _ => None
    end in
  match op with
  | SearchOp sr => failure (result (doLDAPSearch c sr))
  | AddOp ar => failure (result (doLDAPAdd c ar))
  | DeleteOp dr => failure (result (doLDAPDelete c dr))
  | ModifyOp mr => failure (result (doLDAPModify c mr))
  | PasswordModifyOp pmr => failure (result (doLDAPPasswordModify c pmr))
  end.

(** The error text the directory answers the operation with, if any. *)
Definition rejection (c : Client) (op : Request) : option string :=
  match op with
  | SearchOp sr =>
      match srvSearch (ldapClient c) sr with inl err => Some err | inr _ => None end
  | AddOp ar => srvAdd (ldapClient c) ar
  | DeleteOp dr => srvDel (ldapClient c) dr
  | ModifyOp mr => srvModify (ldapClient c) mr
  | PasswordModifyOp pmr =>
      match srvPasswordModify (ldapClient c) pmr with
      | inl err => Some err
      | inr _ => None
      end
  end.

(** The dial and the bind of a client, and what the directory answers. *)
Definition dialCall (c : Client) : Call :=
  DialCall (negb (Protocol (config c) =? "ldap")%string)
           (Hostname (config c) ^ ":" ^ Port (config c)).

Definition bindCall (c : Client) : Call :=
  BindCall (BindUser (config c)) (BindPassword (config c)).

Definition dialError (c : Client) : option string :=
  srvDial (ldapClient c) (negb (Protocol (config c) =? "ldap")%string)
          (Hostname (config c) ^ ":" ^ Port (config c)).

Definition bindError (c : Client) : option string :=
  srvBind (ldapClient c) (BindUser (config c)) (BindPassword (config c)).

(** The calls that change the directory. *)
Definition isWrite (call : Call) : bool :=
  match call with
  | AddCall _ | DelCall _ | ModifyCall _ | PasswordModifyCall _ => true
  | _ => false
  end.

Definition readOnly (t : list Call) : Prop :=
  forall call, In call t -> isWrite call = false.

(** * Properties *)

(** ** Traces and results of composed computations *)

Lemma trace_bind {A B} (m : M A) (f : A -> M B) :
  trace (bind m f) = trace m ++ trace (f (result m)).
Proof.
  destruct m as [t a]; unfold bind, trace, result; simpl.
  destruct (f a); reflexivity.
Qed.

Lemma result_bind {A B} (m : M A) (f : A -> M B) :
  result (bind m f) = result (f (result m)).
Proof.
  destruct m as [t a]; unfold bind, result; simpl.
  destruct (f a); reflexivity.
Qed.

Lemma trace_andThen {A B} (m : M (Outcome A)) (f : A -> M (Outcome B)) :
  trace (andThen m f)
  = trace m ++ match result m with
               | Ok a => trace (f a)
               | _ => []
               end.
Proof.
  unfold andThen. rewrite trace_bind.
  destruct (result m); reflexivity.
Qed.

Lemma result_andThen {A B} (m : M (Outcome A)) (f : A -> M (Outcome B)) :
  result (andThen m f)
  = match result m with
    | Ok a => result (f a)
    | Fail e => Fail e
    | Panic => Panic
    end.
Proof.
  unfold andThen. rewrite result_bind.
  destruct (result m); reflexivity.
Qed.

Lemma trace_deferClose {A} (body : M A) :
  trace (deferClose body) = trace body ++ [CloseCall].
Proof.
  unfold deferClose. rewrite trace_bind, trace_bind. simpl.
  reflexivity.
Qed.

Lemma result_deferClose {A} (body : M A) :
  result (deferClose body) = result body.
Proof.
  unfold deferClose. rewrite result_bind, result_bind. reflexivity.
Qed.

(** ** connect *)

Lemma validate_missing (c : Client) :
  validate c = match missingConfiguration (config c) with
               | [] => None
               | names => Some (BadRequestError (MissingMandatoryConfiguration names))
               end.
Proof.
  unfold validate, configValidate.
  destruct (missingConfiguration (config c)); reflexivity.
Qed.

Lemma connect_closes_nothing (c : Client) : closes (trace (connect c)) = 0.
Proof.
  unfold connect. destruct (validate c); [reflexivity|].
  rewrite trace_bind.
  destruct (negb (unitTesting c)).
  - unfold dial. rewrite trace_bind, result_bind. simpl.
    destruct (srvDial _ _ _); simpl; [reflexivity|].
    unfold bindLdap. rewrite trace_bind. simpl.
    destruct (srvBind _ _ _); reflexivity.
  - simpl. unfold bindLdap. rewrite trace_bind. simpl.
    destruct (srvBind _ _ _); reflexivity.
Qed.

Lemma connected_exitPath (c : Client) (op : Request) :
  connected c = match exitPath c op with
                | OperationFailure | Success => true
                | _ => false
                end.
Proof.
  unfold connected, exitPath, connect. rewrite validate_missing.
  destruct (missingConfiguration (config c)); [|reflexivity].
  rewrite result_bind.
  unfold dialFails, bindFails.
  destruct (unitTesting c); simpl.
  - unfold bindLdap. rewrite result_bind. simpl.
    destruct (srvBind _ _ _); simpl; [reflexivity|].
    destruct (rejected c op); reflexivity.
  - unfold dial. rewrite result_bind. simpl.
    destruct (srvDial _ _ _); simpl; [reflexivity|].
    unfold bindLdap. rewrite result_bind. simpl.
    destruct (srvBind _ _ _); simpl; [reflexivity|].
    destruct (rejected c op); reflexivity.
Qed.

Lemma execute_shape (c : Client) (op : Request) :
  execute c op
  = trace (connect c)
    ++ (if connected c then [requestCall op; CloseCall] else []).
Proof.
  unfold connected.
  destruct op; simpl;
    [unfold doLDAPSearch|unfold doLDAPAdd|unfold doLDAPDelete
    |unfold doLDAPModify|unfold doLDAPPasswordModify];
    rewrite trace_bind; destruct (result (connect c)); try reflexivity;
    rewrite trace_deferClose, trace_bind; simpl;
    match goal with |- context [match ?x with _ => _ end] => destruct x end;
    reflexivity.
Qed.

Lemma closes_app (t1 t2 : list Call) :
  closes (t1 ++ t2) = closes t1 + closes t2.
Proof.
  unfold closes. rewrite filter_app, length_app. reflexivity.
Qed.


Lemma succeeds_connected (c : Client) (op : Request) :
  succeeds c op = connected c && negb (rejected c op).
Proof.
  unfold connected.
  destruct op; simpl;
    [unfold doLDAPSearch|unfold doLDAPAdd|unfold doLDAPDelete
    |unfold doLDAPModify|unfold doLDAPPasswordModify];
    rewrite result_bind; destruct (result (connect c)); try reflexivity;
    rewrite result_deferClose, result_bind; simpl;
    match goal with |- context [match ?x with _ => _ end] => destruct x end;
    reflexivity.
Qed.

Lemma exitPath_success (c : Client) (op : Request) :
  exitPath c op = Success <-> connected c && negb (rejected c op) = true.
Proof.
  rewrite (connected_exitPath c op). unfold exitPath.
  destruct (missingConfiguration (config c)).
  - destruct (negb (unitTesting c) && dialFails c);
      [|destruct (bindFails c); [|destruct (rejected c op)]];
      simpl; split; congruence.
  - simpl; split; congruence.
Qed.

(** The Close calls of the five operations, by the way they leave. Each
    closes the connection exactly once, as its last call and right after
    the call of the operation, when validation, dial and bind went through
    (the operation itself failing or not). When validation, dial or bind
    fails it makes the calls of [connect] and no other, so it closes
    nothing: after a failed validation or dial no connection was opened,
    after a failed bind the dialed one stays open. *)
Theorem close_exactly_when_connected (c : Client) (op : Request) :
  closes (execute c op)
  = match exitPath c op with
    | OperationFailure | Success => 1
    | ValidationFailure | DialFailure | BindFailure => 0
    end
  /\ (succeeds c op = true <-> exitPath c op = Success)
  /\ match exitPath c op with
     | OperationFailure | Success =>
         exists before,
           execute c op = before ++ [requestCall op; CloseCall]
           /\ closes before = 0
     | ValidationFailure | DialFailure | BindFailure =>
         execute c op = trace (connect c)
     end.
Proof.
  pose proof (connected_exitPath c op) as Hc.
  pose proof (execute_shape c op) as He.
  pose proof (connect_closes_nothing c) as Hn.
  split; [|split].
  - rewrite He, closes_app, Hn, Hc.
    destruct (exitPath c op); destruct op; reflexivity.
  - rewrite succeeds_connected. symmetry. apply exitPath_success.
  - rewrite Hc in He.
    destruct (exitPath c op); try (rewrite He; apply app_nil_r);
      exists (trace (connect c)); split; assumption.
Qed.

(** C5 fails on the code. A client that is not in unit-testing mode dials
    a directory that accepts the connection and refuses the bind. Each of
    the five operations returns the error of [connect] before its deferred
    Close is registered: it has dialed and bound, and the connection the
    dial opened is never closed. The same client closes the connection
    when the directory accepts the bind and refuses the operation. *)
Theorem refused_bind_leaves_connection_open (op : Request) :
  let refused := NewClient fixtures.testConfig fixtures.refusingServer false in
  let accepted :=
    NewClient fixtures.testConfig (fixtures.missingServer []) false in
  let dr := ldap.mkDelRequest "uid=C00001,ou=users,o=company" in
  (dialError refused = None
   /\ bindError refused = Some "LDAP Result Code 49 Invalid Credentials: "
   /\ exitPath refused op = BindFailure
   /\ execute refused op
      = [DialCall true "ldap.company.com:636";
         BindCall "cn=root,o=company" "somePassword"]
   /\ existsb isClose (execute refused op) = false
   /\ errorOf refused op
      = Some (UnauthorizedError (Text "Invalid Credentials")))
  /\ (exitPath accepted (DeleteOp dr) = OperationFailure
      /\ execute accepted (DeleteOp dr)
         = [DialCall true "ldap.company.com:636";
            BindCall "cn=root,o=company" "somePassword";
            DelCall dr; CloseCall]).
Proof.
  destruct op; vm_compute; repeat split.
Qed.

(** ** handleLdapError *)

Lemma prefix_append (p s : string) :
  String.prefix p s = true <-> exists rest, s = p ^ rest.
Proof.
  revert s; induction p as [|a p IH]; intros [|b s]; simpl.
  - split; [intros _; exists ""; reflexivity | reflexivity].
  - split; [intros _; exists (String b s); reflexivity | reflexivity].
  - split; [discriminate | intros [rest H]; discriminate].
  - destruct (ascii_dec a b) as [->|Hab].
    + rewrite IH. split; intros [rest H]; exists rest.
      * now rewrite H.
      * now inversion H.
    + split; [discriminate | intros [rest H]; inversion H; congruence].
Qed.

Lemma Contains_unfold (s substr : string) :
  strings.Contains s substr
  = if String.prefix substr s then true
    else match s with
         | EmptyString => false
         | String _ s' => strings.Contains s' substr
         end.
Proof. destruct s; reflexivity. Qed.

(** [strings.Contains] holds exactly of the strings with [substr] somewhere
    inside. *)
Lemma Contains_occurs (s substr : string) :
  strings.Contains s substr = true
  <-> exists before after, s = before ^ substr ^ after.
Proof.
  induction s as [|a s IH]; rewrite Contains_unfold.
  - destruct (String.prefix substr "") eqn:Hp.
    + apply prefix_append in Hp. destruct Hp as [rest H].
      split; [intros _; exists "", rest; exact H | reflexivity].
    + split; [discriminate|].
      intros [before [after H]].
      destruct before; simpl in H; [|discriminate].
      assert (String.prefix substr "" = true)
        by (apply prefix_append; exists after; exact H).
      congruence.
  - destruct (String.prefix substr (String a s)) eqn:Hp.
    + apply prefix_append in Hp. destruct Hp as [rest H].
      split; [intros _; exists "", rest; exact H | reflexivity].
    + rewrite IH. split.
      * intros [before [after H]]. exists (String a before), after.
        simpl. now rewrite H.
      * intros [before [after H]].
        destruct before as [|b before]; simpl in H.
        -- assert (String.prefix substr (String a s) = true)
             by (apply prefix_append; exists after; exact H).
           congruence.
        -- inversion H. exists before, after. reflexivity.
Qed.

(** C6. The error translator takes the first of its cases that matches the
    error text: Unauthorized for the invalid-credentials or the
    invalid-DN-syntax text, else Forbidden for insufficient access rights,
    else BadRequest for entry already exists, else NotFound for no such
    object, else InternalServerError with the error text as its message. *)
Theorem handleLdapError_first_match (errStr : string) :
  let has := fun r =>
    strings.Contains errStr (ldap.LDAPResultCodeMap r) = true in
  let e := handleLdapError errStr in
  (has ldap.LDAPResultInvalidCredentials \/ has ldap.LDAPResultInvalidDNSyntax ->
   Code e = ErrCodeUnauthorized /\ Status e = 401)
  /\ (~ (has ldap.LDAPResultInvalidCredentials
         \/ has ldap.LDAPResultInvalidDNSyntax) ->
      has ldap.LDAPResultInsufficientAccessRights ->
      Code e = ErrCodeInsufficientAccess /\ Status e = 403)
  /\ (~ (has ldap.LDAPResultInvalidCredentials
         \/ has ldap.LDAPResultInvalidDNSyntax) ->
      ~ has ldap.LDAPResultInsufficientAccessRights ->
      has ldap.LDAPResultEntryAlreadyExists ->
      Code e = ErrCodeBadRequest /\ Status e = 400)
  /\ (~ (has ldap.LDAPResultInvalidCredentials
         \/ has ldap.LDAPResultInvalidDNSyntax) ->
      ~ has ldap.LDAPResultInsufficientAccessRights ->
      ~ has ldap.LDAPResultEntryAlreadyExists ->
      has ldap.LDAPResultNoSuchObject ->
      Code e = ErrCodeNotFound /\ Status e = 404)
  /\ (~ (has ldap.LDAPResultInvalidCredentials
         \/ has ldap.LDAPResultInvalidDNSyntax) ->
      ~ has ldap.LDAPResultInsufficientAccessRights ->
      ~ has ldap.LDAPResultEntryAlreadyExists ->
      ~ has ldap.LDAPResultNoSuchObject ->
      e = InternalServerError (Text errStr)).
Proof.
  intros has e. subst has e. unfold handleLdapError.
  destruct (strings.Contains errStr
              (ldap.LDAPResultCodeMap ldap.LDAPResultInvalidCredentials));
    destruct (strings.Contains errStr
                (ldap.LDAPResultCodeMap ldap.LDAPResultInvalidDNSyntax));
    destruct (strings.Contains errStr
                (ldap.LDAPResultCodeMap ldap.LDAPResultInsufficientAccessRights));
    destruct (strings.Contains errStr
                (ldap.LDAPResultCodeMap ldap.LDAPResultEntryAlreadyExists));
    destruct (strings.Contains errStr
                (ldap.LDAPResultCodeMap ldap.LDAPResultNoSuchObject));
    simpl; intuition congruence.
Qed.

(** An error text with two of the codes in it is translated by the first
    case, and an unknown one is passed on as it is. *)
Lemma handleLdapError_first_match_witness :
  (Code (handleLdapError "No Such Object after Invalid DN Syntax")
   = ErrCodeUnauthorized
   /\ Status (handleLdapError "No Such Object after Invalid DN Syntax") = 401)
  /\ handleLdapError "LDAP Result Code 200 Network Error: dial tcp"
     = InternalServerError (Text "LDAP Result Code 200 Network Error: dial tcp").
Proof.
  split.
  - apply (handleLdapError_first_match "No Such Object after Invalid DN Syntax").
    right. reflexivity.
  - apply (handleLdapError_first_match
             "LDAP Result Code 200 Network Error: dial tcp");
      vm_compute; intros H; try discriminate H;
      destruct H as [H|H]; discriminate H.
Defined.

(** ** Which calls a method makes *)

Lemma connect_session (c : Client) (k : Call) :
  In k (trace (connect c)) -> isSession k = true.
Proof.
  unfold connect. destruct (validate c); [intros []|].
  rewrite trace_bind, in_app_iff.
  assert (Hb : In k (trace (bindLdap c)) -> isSession k = true).
  { unfold bindLdap. rewrite trace_bind. simpl.
    destruct (srvBind _ _ _); simpl; intros [<-|[]]; reflexivity. }
  destruct (negb (unitTesting c)).
  - unfold dial. rewrite trace_bind, result_bind. simpl.
    destruct (srvDial _ _ _); simpl.
    + intros [[<-|[]]|[]]; reflexivity.
    + intros [[<-|[]]|H]; [reflexivity | exact (Hb H)].
  - simpl. intros [[]|H]. exact (Hb H).
Qed.

Lemma In_execute (c : Client) (op : Request) (k : Call) :
  In k (execute c op) ->
  isSession k = true \/ k = requestCall op \/ k = CloseCall.
Proof.
  rewrite execute_shape, in_app_iff. intros [H|H].
  - left. exact (connect_session c k H).
  - destruct (connected c); [|destruct H].
    destruct H as [<-|[<-|[]]]; auto.
Qed.

Lemma trace_ouGetAll (c : Client) :
  trace (organizationalUnits.GetAll c)
  = execute c (SearchOp (organizationalUnits.getSearchRequest c)).
Proof.
  unfold organizationalUnits.GetAll. rewrite trace_andThen. simpl.
  destruct (result _); apply app_nil_r.
Qed.

Lemma trace_validateGroupOu (c : Client) (ou : string) :
  trace (groups.validateGroupOu c ou)
  = execute c (SearchOp (organizationalUnits.getSearchRequest c)).
Proof.
  unfold groups.validateGroupOu. rewrite trace_andThen, trace_ouGetAll.
  destruct (result _) as [units| |]; try apply app_nil_r.
  destruct (negb _); apply app_nil_r.
Qed.

Lemma trace_validateGroup (c : Client) (cn ou : string) (k : Call) :
  In k (trace (groups.validateGroup c cn ou)) ->
  In k (execute c (SearchOp (organizationalUnits.getSearchRequest c))).
Proof.
  unfold groups.validateGroup.
  destruct (0 <? _); [intros []|].
  now rewrite trace_validateGroupOu.
Qed.

Lemma trace_groupsGet (c : Client) (cn ou : string) (k : Call) :
  In k (trace (groups.Get c cn ou)) ->
  In k (execute c (SearchOp (organizationalUnits.getSearchRequest c)))
  \/ In k (execute c (SearchOp
                        (groups.getSearchRequest c cn ou groupSearchFilter))).
Proof.
  unfold groups.Get. rewrite trace_andThen, in_app_iff. intros [H|H].
  - left. destruct (negb _); [|destruct H].
    now rewrite <- (trace_validateGroupOu c ou).
  - right. destruct (result _); try destruct H.
    rewrite trace_bind, in_app_iff in H. destruct H as [H|H]; [exact H|].
    destruct (result (doLDAPSearch _ _)) as [res|e|]; simpl in H;
      try destruct H.
    destruct (Status e =? StatusNotFound); destruct H.
Qed.

(** ** groups: the DN of a search *)

(** C7. The DN a group search starts from: [cn=<cn>,ou=<ou>,<groupBase>]
    when both names are given, [ou=<ou>,<groupBase>] when only the unit is,
    the group base itself when neither is; the search covers the whole
    subtree under it. *)
Theorem getDN_resolution (c : Client) (cn ou : string) :
  (cn <> "" -> ou <> "" ->
   groups.getDN c cn ou
   = "cn=" ^ cn ^ ",ou=" ^ ou ^ "," ^ GroupBaseDN (config c))
  /\ (cn = "" -> ou <> "" ->
      groups.getDN c cn ou = "ou=" ^ ou ^ "," ^ GroupBaseDN (config c))
  /\ (cn = "" -> ou = "" -> groups.getDN c cn ou = GroupBaseDN (config c))
  /\ (forall filter,
        ldap.BaseDN (groups.getSearchRequest c cn ou filter)
        = groups.getDN c cn ou
        /\ ldap.SearchScope (groups.getSearchRequest c cn ou filter)
           = ldap.ScopeWholeSubtree)
  /\ groups.GetAll c = groups.Get c "" ""
  /\ (forall filter k,
        In (SearchCall k) (trace (groups.GetFilter c filter)) ->
        ldap.BaseDN k = groups.getDN c "" "")
  /\ (forall k,
        In (SearchCall k) (trace (groups.Get c cn ou)) ->
        k = organizationalUnits.getSearchRequest c
        \/ ldap.BaseDN k = groups.getDN c cn ou).
Proof.
  split.
  { intros Hcn Hou. unfold groups.getDN.
    apply String.eqb_neq in Hcn. apply String.eqb_neq in Hou.
    rewrite Hcn, Hou. reflexivity. }
  split.
  { intros -> Hou. unfold groups.getDN. apply String.eqb_neq in Hou.
    rewrite Hou. reflexivity. }
  split.
  { intros -> ->. reflexivity. }
  split.
  { intros filter. split; reflexivity. }
  split.
  { reflexivity. }
  split.
  - intros filter k. unfold groups.GetFilter. rewrite trace_andThen.
    rewrite in_app_iff. intros [H|H].
    + apply (In_execute c (SearchOp _)) in H.
      destruct H as [H|[H|H]]; try discriminate H.
      inversion H. reflexivity.
    + destruct (result _) as [res| |]; destruct H.
  - intros k H. apply trace_groupsGet in H.
    destruct H as [H|H]; apply In_execute in H;
      destruct H as [H|[H|H]]; try discriminate H; inversion H.
    + left. reflexivity.
    + right. reflexivity.
Qed.

Lemma getDN_resolution_witness :
  let c := NewClient fixtures.testConfig (fixtures.serverWith [] []) true in
  groups.getDN c "g1" "test-ou-1" = "cn=g1,ou=test-ou-1,ou=projects,o=company"
  /\ groups.getDN c "" "test-ou-1" = "ou=test-ou-1,ou=projects,o=company"
  /\ groups.getDN c "" "" = "ou=projects,o=company".
Proof.
  intros c. split; [|split].
  - apply (getDN_resolution c "g1" "test-ou-1"); discriminate.
  - apply (getDN_resolution c "" "test-ou-1"); [reflexivity|discriminate].
  - apply (getDN_resolution c "" ""); reflexivity.
Defined.

(** ** groups: a search without a unit *)

Lemma getDN_without_ou (c : Client) (cn : string) :
  groups.getDN c cn "" = GroupBaseDN (config c).
Proof.
  unfold groups.getDN. simpl. rewrite !andb_false_r. reflexivity.
Qed.

(** C10. With a name and no unit the DN is the bare group base, as with
    neither: [Get cn ""] sends the whole-subtree search of [GetAll],
    whatever [cn] is, and returns the groups that search returns. *)
Theorem Get_without_ou_ignores_cn (c : Client) (cn : string) :
  cn <> "" ->
  groups.getDN c cn "" = GroupBaseDN (config c)
  /\ groups.getDN c cn "" = groups.getDN c "" ""
  /\ groups.getSearchRequest c cn "" groupSearchFilter
     = ldap.mkSearchRequest (GroupBaseDN (config c)) ldap.ScopeWholeSubtree
         ldap.NeverDerefAliases 0 0 false groupSearchFilter
         [CommonNameAttr; uniqueMemberAttr]
  /\ trace (groups.Get c cn "") = trace (groups.GetAll c)
  /\ (forall found,
        result (groups.Get c cn "") = Ok found
        <-> result (groups.GetAll c) = Ok found)
  /\ (forall res,
        result (doLDAPSearch c (groups.getSearchRequest c "" ""
                                  groupSearchFilter)) = Ok res ->
        result (groups.Get c cn "") = groups.parseSearchResult res).
Proof.
  intros _.
  assert (Hreq : groups.getSearchRequest c cn "" groupSearchFilter
                 = groups.getSearchRequest c "" "" groupSearchFilter).
  { unfold groups.getSearchRequest. now rewrite !getDN_without_ou. }
  split; [apply getDN_without_ou|].
  split; [now rewrite !getDN_without_ou|].
  split; [unfold groups.getSearchRequest; now rewrite getDN_without_ou|].
  unfold groups.GetAll, groups.Get.
  change (negb ("" =? "")%string) with false. cbv iota.
  rewrite !trace_andThen, !result_andThen.
  change (result (ret (Ok tt))) with (@Ok unit tt). cbv iota.
  rewrite !trace_bind, !result_bind, Hreq.
  destruct (result (doLDAPSearch c _)) as [res|e|]; simpl.
  - repeat split; try tauto. intros res' H. now inversion H.
  - destruct (Status e =? StatusNotFound); simpl;
      repeat split; try discriminate.
  - repeat split; try discriminate.
Qed.

Lemma Get_without_ou_ignores_cn_witness :
  let c := NewClient fixtures.testConfig
             (fixtures.serverWith
                [fixtures.groupEntry "g1" "test-ou-1" [fixtures.member "A"];
                 fixtures.groupEntry "g2" "test-ou-1" [fixtures.member "B"]]
                [])
             true in
  result (groups.Get c "g1" "") = result (groups.GetAll c)
  /\ option_map (@List.length _)
       (match result (groups.Get c "g1" "") with
        | Ok found => found
        | _ => None
        end) = Some 2.
Proof.
  intros c. split.
  - destruct (Get_without_ou_ignores_cn c "g1") as (_ & _ & _ & _ & _ & H);
      [discriminate|].
    rewrite (H (ldap.mkSearchResult
                  [fixtures.groupEntry "g1" "test-ou-1" [fixtures.member "A"];
                   fixtures.groupEntry "g2" "test-ou-1" [fixtures.member "B"]]));
      reflexivity.
  - reflexivity.
Defined.

(** ** users: Get and Filter *)

Lemma parse_users_loop (entries : list ldap.Entry) (users : slice users.User) :
  fold_left (fun users e => append users (users.parseEntry e)) entries users
  = match entries with
    | [] => users
    | _ => Some (elems users ++ map users.parseEntry entries)
    end.
Proof.
  revert users; induction entries as [|e entries IH]; intros users;
    [reflexivity|].
  simpl fold_left. rewrite IH.
  destruct entries; simpl; [reflexivity|].
  rewrite <- app_assoc. reflexivity.
Qed.

Lemma users_parseSearchResult_entries (res : ldap.SearchResult) :
  users.parseSearchResult res
  = Some (map users.parseEntry (ldap.Entries res)).
Proof.
  unfold users.parseSearchResult. rewrite parse_users_loop.
  destruct (ldap.Entries res) as [|e entries]; reflexivity.
Qed.

(** C9. For a uid that passes validation and a search that succeeds, [Get]
    indexes the parsed list at 0: without any entry the list is empty and
    the access is out of range; with at least one entry [Get] returns the
    user parsed from the first. *)
Theorem Get_indexes_first_entry (c : Client) (uid : string)
        (res : ldap.SearchResult) :
  users.validateUid uid = Ok tt ->
  result (doLDAPSearch c (users.getUserSearchRequest c (users.getDN c uid)))
  = Ok res ->
  (ldap.Entries res = [] ->
   users.parseSearchResult res = Some []
   /\ result (users.Get c uid) = Panic)
  /\ (forall e rest,
        ldap.Entries res = e :: rest ->
        result (users.Get c uid) = Ok (users.parseEntry e)).
Proof.
  intros Hv Hs. unfold users.Get.
  rewrite result_andThen. simpl. rewrite Hv, result_bind, Hs.
  rewrite users_parseSearchResult_entries.
  split.
  - intros ->. split; reflexivity.
  - intros e rest ->. reflexivity.
Qed.

Lemma Get_indexes_first_entry_witness :
  result (users.Get
            (NewClient fixtures.testConfig (fixtures.serverWith [] []) true)
            "C00001") = Panic
  /\ result (users.Get
               (NewClient fixtures.testConfig
                  (fixtures.serverWith [] [fixtures.userEntry "C00001"]) true)
               "C00001")
     = Ok (users.mkUser "C00001" "" "John" "" "" "" "" "" "Active").
Proof.
  split.
  - apply (Get_indexes_first_entry
             (NewClient fixtures.testConfig (fixtures.serverWith [] []) true)
             "C00001" (ldap.mkSearchResult []));
      reflexivity.
  - exact (proj2 (Get_indexes_first_entry
                    (NewClient fixtures.testConfig
                       (fixtures.serverWith [] [fixtures.userEntry "C00001"])
                       true)
                    "C00001"
                    (ldap.mkSearchResult [fixtures.userEntry "C00001"])
                    eq_refl eq_refl)
                 (fixtures.userEntry "C00001") [] eq_refl).
Defined.

(** ** users: the validation of a filter *)

Lemma EntryExists_In (l : list string) (entry : string) :
  slicelib.EntryExists l entry = true <-> In entry l.
Proof.
  unfold slicelib.EntryExists. rewrite existsb_exists. split.
  - intros [x [Hin Heq]]. apply String.eqb_eq in Heq. now subst.
  - intros Hin. exists entry. split; [exact Hin | apply String.eqb_refl].
Qed.

Lemma EntryExists_not_In (l : list string) (entry : string) :
  slicelib.EntryExists l entry = false <-> ~ In entry l.
Proof.
  rewrite <- EntryExists_In. destruct (slicelib.EntryExists l entry);
    split; congruence.
Qed.

Lemma validateFilter_cases (key value : string) :
  users.validateFilter key value
  = match blankNames key value with
    | _ :: _ =>
        Fail (BadRequestError
                (MissingMandatoryParameter (blankNames key value)))
    | [] =>
        if slicelib.EntryExists users.userAttributes key then Ok tt
        else Fail (BadRequestError
                     (Text (users.invalidFilterKeyErrMsg key
                              users.userAttributes)))
    end.
Proof.
  unfold users.validateFilter, blankNames.
  destruct (strings.TrimSpace key =? "")%string;
    destruct (strings.TrimSpace value =? "")%string;
    cbn -[slicelib.EntryExists users.userAttributes
          users.invalidFilterKeyErrMsg]; try reflexivity.
  destruct (slicelib.EntryExists users.userAttributes key); reflexivity.
Qed.

(** C8 (as amended). [Filter] fails with BadRequest, before any call on the
    directory, when the key or the value is empty or only white space,
    naming the ones that are (key first), and otherwise when the key is not
    one of the user attributes, listing these; for a valid key and value and
    a search that succeeds without an entry it returns an empty list that is
    not nil, and no error. *)
Theorem Filter_validation (c : Client) (key value : string) :
  (strings.TrimSpace key = "" \/ strings.TrimSpace value = "" ->
   users.Filter c key value
   = ([], Fail (BadRequestError
                  (MissingMandatoryParameter (blankNames key value))))
   /\ Status (BadRequestError
                (MissingMandatoryParameter (blankNames key value))) = 400
   /\ (In "key" (blankNames key value) <-> strings.TrimSpace key = "")
   /\ (In "value" (blankNames key value) <-> strings.TrimSpace value = ""))
  /\ (key = "" \/ value = "" ->
      strings.TrimSpace key = "" \/ strings.TrimSpace value = "")
  /\ (strings.TrimSpace key <> "" -> strings.TrimSpace value <> "" ->
      ~ In key users.userAttributes ->
      users.Filter c key value
      = ([], Fail (BadRequestError
                     (Text ("Invalid filter key '" ^ key
                            ^ "'. Valid filter keys are "
                            ^ "[uid altUid cn sn displayName employeeNumber mail status]")))))
  /\ (strings.TrimSpace value <> "" -> In key users.userAttributes ->
      forall res,
        result (doLDAPSearch c
                  (users.getUsersSearchRequest c
                     (WildcardUserSearchFilter key value))) = Ok res ->
        ldap.Entries res = [] ->
        result (users.Filter c key value) = Ok (Some [])).
Proof.
  assert (Hk : In "key" (blankNames key value) <-> strings.TrimSpace key = "").
  { unfold blankNames. rewrite <- String.eqb_eq.
    destruct (strings.TrimSpace key =? "")%string;
      destruct (strings.TrimSpace value =? "")%string; simpl;
      intuition congruence. }
  assert (Hv : In "value" (blankNames key value)
               <-> strings.TrimSpace value = "").
  { unfold blankNames. rewrite <- String.eqb_eq.
    destruct (strings.TrimSpace key =? "")%string;
      destruct (strings.TrimSpace value =? "")%string; simpl;
      intuition congruence. }
  assert (Hf : users.Filter c key value
               = andThen (ret (users.validateFilter key value))
                   (fun _ =>
                      andThen
                        (doLDAPSearch c
                           (users.getUsersSearchRequest c
                              (WildcardUserSearchFilter key value)))
                        (fun res => ret (Ok (users.parseSearchResult res)))))
    by reflexivity.
  split; [|split; [|split]].
  - intros H. repeat split; try tauto.
    rewrite Hf, validateFilter_cases.
    destruct (blankNames key value) eqn:Hb; [|reflexivity].
    exfalso. destruct H as [H|H]; [apply Hk in H | apply Hv in H];
      destruct H.
  - intros [->| ->]; [left|right]; reflexivity.
  - intros Hnk Hnv Hnot.
    rewrite Hf, validateFilter_cases.
    destruct (blankNames key value) as [|n ns] eqn:Hb.
    + apply EntryExists_not_In in Hnot. rewrite Hnot. reflexivity.
    + exfalso.
      assert (Hn : In n (blankNames key value)) by (rewrite Hb; now left).
      unfold blankNames in Hn.
      apply String.eqb_neq in Hnk. apply String.eqb_neq in Hnv.
      rewrite Hnk, Hnv in Hn. destruct Hn.
  - intros Hnv Hin res Hs Hres.
    assert (Hnk : strings.TrimSpace key <> "").
    { simpl in Hin.
      repeat (destruct Hin as [<-|Hin]; [discriminate|]). destruct Hin. }
    rewrite Hf, result_andThen.
    change (result (ret (users.validateFilter key value)))
      with (users.validateFilter key value).
    rewrite validateFilter_cases.
    destruct (blankNames key value) as [|n ns] eqn:Hb.
    + apply EntryExists_In in Hin. rewrite Hin.
      rewrite result_andThen, Hs.
      change (result (ret (Ok (users.parseSearchResult res))))
        with (Ok (users.parseSearchResult res)).
      rewrite users_parseSearchResult_entries, Hres. reflexivity.
    + exfalso.
      assert (Hn : In n (blankNames key value)) by (rewrite Hb; now left).
      unfold blankNames in Hn.
      apply String.eqb_neq in Hnk. apply String.eqb_neq in Hnv.
      rewrite Hnk, Hnv in Hn. destruct Hn.
Qed.

Lemma Filter_validation_witness :
  let c := NewClient fixtures.testConfig (fixtures.serverWith [] []) true in
  users.Filter c "" "x"
  = ([], Fail (BadRequestError (MissingMandatoryParameter ["key"])))
  /\ users.Filter c "badkey" "x"
     = ([], Fail (BadRequestError
                    (Text "Invalid filter key 'badkey'. Valid filter keys are [uid altUid cn sn displayName employeeNumber mail status]")))
  /\ result (users.Filter c "uid" "x") = Ok (Some []).
Proof.
  intros c. split; [|split].
  - apply (Filter_validation c "" "x"). left. reflexivity.
  - apply (Filter_validation c "badkey" "x"); try discriminate.
    simpl. intuition discriminate.
  - apply (Filter_validation c "uid" "x") with (res := ldap.mkSearchResult []);
      try discriminate; try reflexivity.
    simpl. auto.
Defined.

(** C8 (as stated) fails: a key of one space is not empty and is not a user
    attribute, and [Filter] reports it as a missing parameter; the valid
    keys are not listed. *)
Lemma Filter_blank_key_reported_missing :
  let c := NewClient fixtures.testConfig (fixtures.serverWith [] []) true in
  (" " =? "")%string = false
  /\ slicelib.EntryExists users.userAttributes " " = false
  /\ users.Filter c " " "x"
     = ([], Fail (BadRequestError (MissingMandatoryParameter ["key"]))).
Proof. vm_compute. repeat split. Qed.

(** ** groups: the requests of AddMembers and RemoveMembers *)

(** The loop of both methods: the DNs that pass the test, in the order of
    the identifiers and as often as they come. *)
Lemma members_loop (f : string -> string) (keep : string -> bool)
      (memberIds acc : list string) :
  fold_left
    (fun uniqueMembers memberId =>
       let uniqueMember := f memberId in
       if keep uniqueMember then uniqueMembers ++ [uniqueMember]
       else uniqueMembers)
    memberIds acc
  = acc ++ filter keep (map f memberIds).
Proof.
  revert acc; induction memberIds as [|m ms IH]; intros acc; simpl.
  - symmetry; apply app_nil_r.
  - rewrite IH. destruct (keep (f m)); [|reflexivity].
    rewrite <- app_assoc. reflexivity.
Qed.

Lemma addMembersRequest_changes (c : Client) (group : groups.Group)
      (cn ou : string) (memberIds : list string) :
  let new := toAdd c (groups.Members group) memberIds in
  groups.addMembersRequest c group cn ou memberIds
  = ldap.mkModifyRequest (groups.getDN c cn ou)
      ((if 0 <? List.length new
        then [ldap.mkChange ldap.AddAttribute uniqueMemberAttr new] else [])
       ++ (if 2 <=? List.length (groups.Members group) + List.length new
           then [ldap.mkChange ldap.DeleteAttribute uniqueMemberAttr
                   [sentinelDn c]]
           else [])).
Proof.
  intros new. unfold groups.addMembersRequest.
  rewrite (members_loop
             (fun memberId => groups.getUniqueMemberDn c (strings.ToUpper memberId))
             (fun dn => negb (slicelib.EntryExists (groups.Members group) dn))).
  change (filter _ _) with new. cbn [app].
  destruct (0 <? List.length new);
    destruct (2 <=? List.length (groups.Members group) + List.length new);
    reflexivity.
Qed.

Lemma removeMembersRequest_changes (c : Client) (group : groups.Group)
      (cn ou : string) (memberIds : list string) :
  let gone := toRemove c (groups.Members group) memberIds in
  groups.removeMembersRequest c group cn ou memberIds
  = ldap.mkModifyRequest (groups.getDN c cn ou)
      ((if 0 <? List.length gone
        then [ldap.mkChange ldap.DeleteAttribute uniqueMemberAttr gone]
        else [])
       ++ (if (Z.of_nat (List.length (groups.Members group))
               - Z.of_nat (List.length gone) =? 0)%Z
           then [ldap.mkChange ldap.AddAttribute uniqueMemberAttr
                   [sentinelDn c]]
           else [])).
Proof.
  intros gone. unfold groups.removeMembersRequest.
  rewrite (members_loop
             (fun memberId => groups.getUniqueMemberDn c (strings.ToUpper memberId))
             (fun dn => slicelib.EntryExists (groups.Members group) dn)).
  change (filter _ _) with gone. cbn [app].
  destruct (0 <? List.length gone);
    destruct (Z.of_nat (List.length (groups.Members group))
              - Z.of_nat (List.length gone) =? 0)%Z;
    reflexivity.
Qed.

Lemma In_execute_modify (c : Client) (op : Request) (mr : ldap.ModifyRequest) :
  In (ModifyCall mr) (execute c op) -> op = ModifyOp mr.
Proof.
  intros H. apply In_execute in H.
  destruct H as [H|[H|H]]; try discriminate H.
  destruct op; try discriminate H. now inversion H.
Qed.

Lemma validateGroup_reads (c : Client) (cn ou : string)
      (mr : ldap.ModifyRequest) :
  ~ In (ModifyCall mr) (trace (groups.validateGroup c cn ou)).
Proof.
  intros H. apply trace_validateGroup, In_execute_modify in H. discriminate H.
Qed.

Lemma groupsGet_reads (c : Client) (cn ou : string) (mr : ldap.ModifyRequest) :
  ~ In (ModifyCall mr) (trace (groups.Get c cn ou)).
Proof.
  intros H. apply trace_groupsGet in H.
  destruct H as [H|H]; apply In_execute_modify in H; discriminate H.
Qed.

(** The modify call of a membership method comes after its validation and
    its read of the group, with the request built from the first group
    read. *)
Lemma membership_modify
      (build : groups.Group -> ldap.ModifyRequest)
      (c : Client) (cn ou : string) (mr : ldap.ModifyRequest) :
  In (ModifyCall mr)
     (trace (andThen (groups.validateGroup c cn ou)
               (fun _ =>
                  andThen (groups.Get c cn ou)
                    (fun res =>
                       match elems res with
                       | [] => ret Panic
                       | group :: _ => doLDAPModify c (build group)
                       end)))) ->
  exists found group rest,
    result (groups.Get c cn ou) = Ok found
    /\ elems found = group :: rest
    /\ mr = build group.
Proof.
  rewrite trace_andThen, in_app_iff. intros [H|H].
  - exfalso. exact (validateGroup_reads _ _ _ _ H).
  - destruct (result (groups.validateGroup c cn ou)); try destruct H.
    rewrite trace_andThen, in_app_iff in H. destruct H as [H|H].
    + exfalso. exact (groupsGet_reads _ _ _ _ H).
    + destruct (result (groups.Get c cn ou)) as [found| |]; try destruct H.
      destruct (elems found) as [|group rest] eqn:Hf; [destruct H|].
      exists found, group, rest. repeat split; try assumption.
      apply (In_execute_modify c (ModifyOp (build group))) in H.
      now inversion H.
Qed.

(** C2. The modify request [AddMembers] sends adds exactly the qualified
    DNs of the requested identifiers (upper case, under the user base) that
    are not among the members of the group it read, by exact comparison,
    and deletes the sentinel DN, and nothing else, exactly when the members
    and the added DNs together are two or more. *)
Theorem AddMembers_modify_request (c : Client) (cn ou : string)
        (memberIds : list string) (mr : ldap.ModifyRequest) :
  In (ModifyCall mr) (trace (groups.AddMembers c cn ou memberIds)) ->
  exists found group rest,
    result (groups.Get c cn ou) = Ok found
    /\ elems found = group :: rest
    /\ ldap.ModifyDN mr = groups.getDN c cn ou
    /\ addSide mr = toAdd c (groups.Members group) memberIds
    /\ (In (sentinelDn c) (deleteSide mr)
        <-> 2 <= List.length (groups.Members group)
                 + List.length (toAdd c (groups.Members group) memberIds))
    /\ (forall dn, In dn (deleteSide mr) -> dn = sentinelDn c).
Proof.
  intros H.
  apply (membership_modify
           (fun group => groups.addMembersRequest c group cn ou memberIds)) in H.
  destruct H as (found & group & rest & Hget & Hfound & ->).
  exists found, group, rest.
  rewrite addMembersRequest_changes.
  unfold addSide, deleteSide. cbn [ldap.ModifyDN ldap.Changes].
  set (new := toAdd c (groups.Members group) memberIds).
  destruct (Nat.leb_spec 2 (List.length (groups.Members group)
                            + List.length new)) as [Hle|Hlt];
    destruct new as [|dn new'] eqn:Hnew; cbn;
    repeat split; try assumption; try reflexivity;
    try (now rewrite app_nil_r); intros; simpl in *;
    try tauto; try lia; intuition.
Qed.

Lemma AddMembers_modify_request_witness :
  let c := NewClient fixtures.testConfig
             (fixtures.serverWith
                [fixtures.groupEntry "g1" "test-ou-1" [fixtures.member "A"]] [])
             true in
  let mr := ldap.mkModifyRequest "cn=g1,ou=test-ou-1,ou=projects,o=company"
              [ldap.mkChange ldap.AddAttribute "uniqueMember"
                 ["uid=B,ou=users,o=company"];
               ldap.mkChange ldap.DeleteAttribute "uniqueMember"
                 ["uid=NO_SUCH_USER,ou=users,o=company"]] in
  exists found group rest,
    result (groups.Get c "g1" "test-ou-1") = Ok found
    /\ elems found = group :: rest
    /\ ldap.ModifyDN mr = groups.getDN c "g1" "test-ou-1"
    /\ addSide mr = toAdd c (groups.Members group) ["a"; "b"]
    /\ (In (sentinelDn c) (deleteSide mr)
        <-> 2 <= List.length (groups.Members group)
                 + List.length (toAdd c (groups.Members group) ["a"; "b"]))
    /\ (forall dn, In dn (deleteSide mr) -> dn = sentinelDn c).
Proof.
  intros c mr.
  apply (AddMembers_modify_request c "g1" "test-ou-1" ["a"; "b"] mr).
  vm_compute. do 10 right. left. reflexivity.
Defined.

(** C3. The modify request [RemoveMembers] sends deletes exactly the
    qualified DNs of the requested identifiers that are among the members of
    the group it read, and adds the sentinel DN, and nothing else, exactly
    when the number of members minus the number of deleted DNs is 0. *)
Theorem RemoveMembers_modify_request (c : Client) (cn ou : string)
        (memberIds : list string) (mr : ldap.ModifyRequest) :
  In (ModifyCall mr) (trace (groups.RemoveMembers c cn ou memberIds)) ->
  exists found group rest,
    result (groups.Get c cn ou) = Ok found
    /\ elems found = group :: rest
    /\ ldap.ModifyDN mr = groups.getDN c cn ou
    /\ deleteSide mr = toRemove c (groups.Members group) memberIds
    /\ (In (sentinelDn c) (addSide mr)
        <-> (Z.of_nat (List.length (groups.Members group))
             - Z.of_nat (List.length
                           (toRemove c (groups.Members group) memberIds))
             = 0)%Z)
    /\ (forall dn, In dn (addSide mr) -> dn = sentinelDn c).
Proof.
  intros H.
  apply (membership_modify
           (fun group => groups.removeMembersRequest c group cn ou memberIds))
    in H.
  destruct H as (found & group & rest & Hget & Hfound & ->).
  exists found, group, rest.
  rewrite removeMembersRequest_changes.
  unfold addSide, deleteSide. cbn [ldap.ModifyDN ldap.Changes].
  set (gone := toRemove c (groups.Members group) memberIds).
  destruct (Z.eqb_spec (Z.of_nat (List.length (groups.Members group))
                        - Z.of_nat (List.length gone)) 0) as [Hz|Hz];
    destruct gone as [|dn gone'] eqn:Hgone; cbn;
    repeat split; try assumption; try reflexivity;
    try (now rewrite app_nil_r); intros; simpl in *;
    try tauto; try lia; intuition.
Qed.

Lemma RemoveMembers_modify_request_witness :
  let c := NewClient fixtures.testConfig
             (fixtures.serverWith
                [fixtures.groupEntry "g1" "test-ou-1" [fixtures.member "A"]] [])
             true in
  let mr := ldap.mkModifyRequest "cn=g1,ou=test-ou-1,ou=projects,o=company"
              [ldap.mkChange ldap.DeleteAttribute "uniqueMember"
                 ["uid=A,ou=users,o=company"];
               ldap.mkChange ldap.AddAttribute "uniqueMember"
                 ["uid=NO_SUCH_USER,ou=users,o=company"]] in
  exists found group rest,
    result (groups.Get c "g1" "test-ou-1") = Ok found
    /\ elems found = group :: rest
    /\ ldap.ModifyDN mr = groups.getDN c "g1" "test-ou-1"
    /\ deleteSide mr = toRemove c (groups.Members group) ["a"; "c"]
    /\ (In (sentinelDn c) (addSide mr)
        <-> (Z.of_nat (List.length (groups.Members group))
             - Z.of_nat (List.length
                           (toRemove c (groups.Members group) ["a"; "c"]))
             = 0)%Z)
    /\ (forall dn, In dn (addSide mr) -> dn = sentinelDn c).
Proof.
  intros c mr.
  apply (RemoveMembers_modify_request c "g1" "test-ou-1" ["a"; "c"] mr).
  vm_compute. do 10 right. left. reflexivity.
Defined.

(** ** The membership methods do send their request *)

Lemma search_ok_connected (c : Client) (sr : ldap.SearchRequest)
      (res : ldap.SearchResult) :
  result (doLDAPSearch c sr) = Ok res -> connected c = true.
Proof.
  intros H. pose proof (succeeds_connected c (SearchOp sr)) as Hs.
  simpl in Hs. rewrite H in Hs. simpl in Hs.
  symmetry in Hs. apply andb_true_iff in Hs. tauto.
Qed.

Lemma groupsGet_ok_connected (c : Client) (cn ou : string)
      (found : slice groups.Group) :
  result (groups.Get c cn ou) = Ok found -> connected c = true.
Proof.
  unfold groups.Get. rewrite result_andThen.
  destruct (result (if negb (ou =? "")%string then _ else _));
    try discriminate.
  rewrite result_bind.
  destruct (result (doLDAPSearch c _)) as [res|e|] eqn:Hs; simpl.
  - intros _. exact (search_ok_connected _ _ _ Hs).
  - destruct (Status e =? StatusNotFound); discriminate.
  - discriminate.
Qed.

Lemma membership_sends
      (build : groups.Group -> ldap.ModifyRequest)
      (c : Client) (cn ou : string) (found : slice groups.Group)
      (group : groups.Group) (rest : list groups.Group) :
  result (groups.validateGroup c cn ou) = Ok tt ->
  result (groups.Get c cn ou) = Ok found ->
  elems found = group :: rest ->
  exists before,
    trace (andThen (groups.validateGroup c cn ou)
             (fun _ =>
                andThen (groups.Get c cn ou)
                  (fun res =>
                     match elems res with
                     | [] => ret Panic
                     | group :: _ => doLDAPModify c (build group)
                     end)))
    = before ++ [ModifyCall (build group); CloseCall].
Proof.
  intros Hv Hg Hf.
  rewrite trace_andThen, Hv, trace_andThen, Hg, Hf.
  change (trace (doLDAPModify c (build group)))
    with (execute c (ModifyOp (build group))).
  rewrite execute_shape, (groupsGet_ok_connected _ _ _ _ Hg).
  eexists. rewrite !app_assoc. reflexivity.
Qed.

Lemma AddMembers_sends (c : Client) (cn ou : string) (memberIds : list string)
      (found : slice groups.Group) (group : groups.Group)
      (rest : list groups.Group) :
  result (groups.validateGroup c cn ou) = Ok tt ->
  result (groups.Get c cn ou) = Ok found ->
  elems found = group :: rest ->
  exists before,
    trace (groups.AddMembers c cn ou memberIds)
    = before ++ [ModifyCall (groups.addMembersRequest c group cn ou memberIds);
                 CloseCall].
Proof.
  apply (membership_sends
           (fun group => groups.addMembersRequest c group cn ou memberIds)).
Qed.

Lemma RemoveMembers_sends (c : Client) (cn ou : string)
      (memberIds : list string) (found : slice groups.Group)
      (group : groups.Group) (rest : list groups.Group) :
  result (groups.validateGroup c cn ou) = Ok tt ->
  result (groups.Get c cn ou) = Ok found ->
  elems found = group :: rest ->
  exists before,
    trace (groups.RemoveMembers c cn ou memberIds)
    = before
      ++ [ModifyCall (groups.removeMembersRequest c group cn ou memberIds);
          CloseCall].
Proof.
  apply (membership_sends
           (fun group => groups.removeMembersRequest c group cn ou memberIds)).
Qed.

(** [Create] sends the add request [membership.createRequest]. *)
Lemma Create_sends (c : Client) (cn ou : string) (memberIds : list string) :
  result (groups.validateGroup c cn ou) = Ok tt ->
  trace (groups.Create c cn ou memberIds)
  = trace (groups.validateGroup c cn ou)
    ++ execute c (AddOp (membership.createRequest c cn ou memberIds)).
Proof.
  intros Hv. unfold groups.Create. rewrite trace_andThen, Hv.
  rewrite trace_bind. unfold membership.createRequest. simpl execute.
  destruct (result (doLDAPAdd c _)) as [u|e|]; simpl;
    try (destruct (Status e =? StatusBadRequest));
    now rewrite app_nil_r.
Qed.

(** ** The directory's side of a request *)

Section Values.

Import directory.

Lemma In_addValue (members : list string) (v x : string) :
  In x (addValue members v) <-> In x members \/ x = v.
Proof.
  unfold addValue. destruct (slicelib.EntryExists members v) eqn:He.
  - apply EntryExists_In in He. split; [tauto|].
    intros [H| ->]; assumption.
  - rewrite in_app_iff. simpl. intuition.
Qed.

Lemma In_addValues (vals members : list string) (x : string) :
  In x (addValues vals members) <-> In x members \/ In x vals.
Proof.
  unfold addValues. revert members.
  induction vals as [|v vals IH]; intros members; simpl.
  - tauto.
  - rewrite IH, In_addValue. intuition.
Qed.

Lemma addValues_present (vals members : list string) :
  (forall x, In x vals -> In x members) -> addValues vals members = members.
Proof.
  unfold addValues. induction vals as [|v vals IH]; intros H; simpl.
  - reflexivity.
  - unfold addValue at 2.
    assert (Hv : slicelib.EntryExists members v = true)
      by (apply EntryExists_In, H; now left).
    rewrite Hv. apply IH. intros x Hx. apply H. now right.
Qed.

Lemma addValues_one (vals members : list string) (s : string) :
  vals <> [] -> (forall x, In x vals -> x = s) -> ~ In s members ->
  addValues vals members = members ++ [s].
Proof.
  intros Hne Hall Hnot. destruct vals as [|v vals]; [contradiction|].
  assert (v = s) by (apply Hall; now left). subst v.
  unfold addValues. simpl. unfold addValue at 2.
  apply EntryExists_not_In in Hnot. rewrite Hnot.
  apply addValues_present. intros x Hx.
  rewrite (Hall x) by now right.
  apply in_app_iff. right. now left.
Qed.

Lemma length_addValues (vals members : list string) :
  List.length (addValues vals members)
  <= List.length members + List.length vals.
Proof.
  unfold addValues. revert members.
  induction vals as [|v vals IH]; intros members; simpl; [lia|].
  assert (H1 : List.length (addValue members v) <= List.length members + 1).
  { unfold addValue. destruct (slicelib.EntryExists members v);
      [lia | rewrite length_app; simpl; lia]. }
  specialize (IH (addValue members v)). lia.
Qed.

Lemma NoDup_addValues (vals members : list string) :
  NoDup members -> NoDup (addValues vals members).
Proof.
  unfold addValues. revert members.
  induction vals as [|v vals IH]; intros members Hnd; simpl; [exact Hnd|].
  apply IH. unfold addValue.
  destruct (slicelib.EntryExists members v) eqn:He; [exact Hnd|].
  apply EntryExists_not_In in He.
  apply NoDup_app; [exact Hnd | repeat constructor; intros [] |].
  intros x Hx [<-|[]]. contradiction.
Qed.

Lemma In_deleteValues (vals members : list string) (x : string) :
  In x (deleteValues vals members) <-> In x members /\ ~ In x vals.
Proof.
  unfold deleteValues. rewrite filter_In, negb_true_iff, EntryExists_not_In.
  reflexivity.
Qed.

Lemma deleteValues_absent (vals members : list string) :
  (forall x, In x vals -> ~ In x members) ->
  deleteValues vals members = members.
Proof.
  intros H. unfold deleteValues.
  induction members as [|m members IH]; simpl; [reflexivity|].
  assert (Hm : slicelib.EntryExists vals m = false).
  { apply EntryExists_not_In. intros Hin. apply (H m Hin). now left. }
  rewrite Hm. simpl. f_equal. apply IH.
  intros x Hx Hin. apply (H x Hx). now right.
Qed.

Lemma deleteValues_app (vals a b : list string) :
  deleteValues vals (a ++ b) = deleteValues vals a ++ deleteValues vals b.
Proof. apply filter_app. Qed.

Lemma deleteValues_self (s : string) : deleteValues [s] [s] = [].
Proof.
  unfold deleteValues, slicelib.EntryExists. simpl.
  rewrite String.eqb_refl. reflexivity.
Qed.

Lemma deleteValues_none (members : list string) :
  deleteValues [] members = members.
Proof. apply deleteValues_absent. intros x []. Qed.

Lemma NoDup_deleteValues (vals members : list string) :
  NoDup members -> NoDup (deleteValues vals members).
Proof. apply NoDup_filter. Qed.

End Values.

Lemma In_toAdd (c : Client) (members memberIds : list string) (x : string) :
  In x (toAdd c members memberIds)
  <-> In x (map (memberDn c) memberIds) /\ ~ In x members.
Proof.
  unfold toAdd. rewrite filter_In, negb_true_iff.
  change (existsb (String.eqb x) members)
    with (slicelib.EntryExists members x).
  rewrite EntryExists_not_In. reflexivity.
Qed.

Lemma In_toRemove (c : Client) (members memberIds : list string) (x : string) :
  In x (toRemove c members memberIds)
  <-> In x (map (memberDn c) memberIds) /\ In x members.
Proof.
  unfold toRemove. rewrite filter_In.
  change (existsb (String.eqb x) members)
    with (slicelib.EntryExists members x).
  rewrite EntryExists_In. reflexivity.
Qed.

Lemma toAdd_nothing (c : Client) (members memberIds : list string) :
  (forall x, In x (map (memberDn c) memberIds) -> In x members) ->
  toAdd c members memberIds = [].
Proof.
  intros H. destruct (toAdd c members memberIds) as [|x l] eqn:E;
    [reflexivity|].
  assert (Hx : In x (toAdd c members memberIds)) by (rewrite E; now left).
  apply In_toAdd in Hx. destruct Hx as [Hd Hn]. elim Hn. exact (H x Hd).
Qed.

Lemma toAdd_of_none (c : Client) (memberIds : list string) :
  toAdd c [] memberIds = map (memberDn c) memberIds.
Proof.
  unfold toAdd. induction (map (memberDn c) memberIds) as [|d l IH];
    simpl in *; [reflexivity|]. now rewrite IH.
Qed.

Lemma length_toAdd (c : Client) (members memberIds : list string) :
  List.length (toAdd c members memberIds) <= List.length memberIds.
Proof.
  unfold toAdd.
  rewrite <- (length_map (memberDn c) memberIds). apply filter_length_le.
Qed.

(** What the directory holds after the request of [AddMembers]. *)
Lemma afterAddMembers_members (c : Client) (cn ou : string)
      (memberIds members : list string) :
  membership.afterAddMembers c cn ou memberIds members
  = let added := directory.addValues (toAdd c members memberIds) members in
    if 2 <=? List.length members + List.length (toAdd c members memberIds)
    then directory.deleteValues [sentinelDn c] added
    else added.
Proof.
  unfold membership.afterAddMembers.
  rewrite addMembersRequest_changes.
  unfold directory.applyModify. cbn [ldap.Changes groups.Members membership.groupOf].
  destruct (toAdd c members memberIds) as [|d new] eqn:E;
    destruct (2 <=? _); reflexivity.
Qed.

(** What the directory holds after the request of [RemoveMembers]. *)
Lemma afterRemoveMembers_members (c : Client) (cn ou : string)
      (memberIds members : list string) :
  membership.afterRemoveMembers c cn ou memberIds members
  = let kept :=
      directory.deleteValues (toRemove c members memberIds) members in
    if (Z.of_nat (List.length members)
        - Z.of_nat (List.length (toRemove c members memberIds)) =? 0)%Z
    then directory.addValues [sentinelDn c] kept
    else kept.
Proof.
  unfold membership.afterRemoveMembers.
  rewrite removeMembersRequest_changes.
  unfold directory.applyModify. cbn [ldap.Changes groups.Members membership.groupOf].
  destruct (toRemove c members memberIds) as [|d gone] eqn:E;
    destruct (_ =? 0)%Z; cbn [app fold_left Nat.ltb Nat.leb List.length];
    unfold directory.applyChange; cbn -[directory.deleteValues directory.addValues];
    rewrite ?deleteValues_none; reflexivity.
Qed.

(** ** AddMembers twice *)

Lemma all_sentinel_NoDup (s : string) (members : list string) :
  NoDup members -> (forall x, In x members -> x = s) ->
  members = [] \/ members = [s].
Proof.
  intros Hnd Hall. destruct members as [|m members]; [now left|right].
  assert (m = s) by (apply Hall; now left). subst m.
  destruct members as [|m' members]; [reflexivity|].
  assert (m' = s) by (apply Hall; right; now left). subst m'.
  inversion Hnd as [|? ? Hnot _]. elim Hnot. now left.
Qed.

(** C4. Adding the same members a second time changes nothing: the member
    set after two rounds of [AddMembers] with the same identifiers is the
    one after the first round. The members a group has in the directory
    are a set, so the list read from it has no repetition. *)
Theorem AddMembers_idempotent (c : Client) (cn ou : string)
        (memberIds members : list string) :
  NoDup members ->
  membership.afterAddMembers c cn ou memberIds
    (membership.afterAddMembers c cn ou memberIds members)
  = membership.afterAddMembers c cn ou memberIds members.
Proof.
  intros Hnd.
  set (s := sentinelDn c).
  set (new := toAdd c members memberIds).
  set (added := directory.addValues new members).
  assert (Hall : forall x, In x (map (memberDn c) memberIds) -> In x added).
  { intros x Hx. unfold added. apply In_addValues.
    destruct (in_dec string_dec x members) as [Hm|Hm]; [now left|right].
    apply In_toAdd. now split. }
  rewrite (afterAddMembers_members c cn ou memberIds members).
  cbv zeta. fold new added s.
  destruct (Nat.leb_spec 2 (List.length members + List.length new))
    as [Hle|Hlt].
  - (* the sentinel was removed in the first round *)
    set (first := directory.deleteValues [s] added).
    assert (Hs : ~ In s first).
    { unfold first. rewrite In_deleteValues. intros [_ H]. apply H. now left. }
    assert (Hnew : forall x, In x (toAdd c first memberIds) -> x = s).
    { intros x Hx. apply In_toAdd in Hx. destruct Hx as [Hd Hn].
      destruct (string_dec x s) as [E|E]; [exact E|].
      elim Hn. unfold first. apply In_deleteValues. split; [now apply Hall|].
      intros [E'|[]]. now elim E. }
    assert (Hdel : directory.deleteValues [s] first = first).
    { apply deleteValues_absent. intros x [<-|[]]. exact Hs. }
    rewrite (afterAddMembers_members c cn ou memberIds first).
    cbv zeta. fold s.
    destruct (toAdd c first memberIds) as [|d again] eqn:Hagain.
    + (* nothing to add in the second round *)
      change (directory.addValues [] first) with first.
      rewrite Hdel. destruct (2 <=? _); reflexivity.
    + rewrite (addValues_one (d :: again) first s); try assumption;
        [|discriminate].
      destruct (Nat.leb_spec 2 (List.length first
                                + List.length (d :: again))) as [Hle2|Hlt2].
      * rewrite deleteValues_app, Hdel, deleteValues_self. apply app_nil_r.
      * (* one DN left to add to an empty group: not after a first round
           that removed the sentinel *)
        exfalso. simpl in Hlt2.
        assert (Hfirst : first = []) by (destruct first; [reflexivity|simpl in Hlt2; lia]).
        assert (Hagain' : again = []) by (destruct again; [reflexivity|simpl in Hlt2; lia]).
        subst again.
        rewrite Hfirst, toAdd_of_none in Hagain.
        assert (Hone : List.length memberIds = 1)
          by (rewrite <- (length_map (memberDn c)), Hagain; reflexivity).
        pose proof (length_toAdd c members memberIds) as Hlen.
        fold new in Hlen.
        assert (Hadded : forall x, In x added -> x = s).
        { intros x Hx. destruct (string_dec x s) as [E|E]; [exact E|].
          assert (In x first).
          { unfold first. apply In_deleteValues. split; [exact Hx|].
            intros [E'|[]]. now elim E. }
          rewrite Hfirst in H. destruct H. }
        assert (Hmem : forall x, In x members -> x = s).
        { intros x Hx. apply Hadded. unfold added. apply In_addValues.
          now left. }
        destruct (all_sentinel_NoDup s members Hnd Hmem) as [E|E].
        -- rewrite E in Hle. simpl in Hle. lia.
        -- assert (Hnone : new = []).
           { destruct new as [|x new'] eqn:En; [reflexivity|exfalso].
             assert (Hx : In x (toAdd c members memberIds))
               by (fold new; rewrite En; now left).
             apply In_toAdd in Hx. destruct Hx as [Hd Hn].
             apply Hn. rewrite E. left. symmetry. apply Hadded.
             unfold added. apply In_addValues. right. now left. }
           rewrite E, Hnone in Hle. simpl in Hle. lia.
  - (* the first round removed nothing *)
    rewrite (afterAddMembers_members c cn ou memberIds added).
    cbv zeta. rewrite (toAdd_nothing c added memberIds Hall).
    change (directory.addValues [] added) with added.
    pose proof (length_addValues new members) as Hlen. fold added in Hlen.
    destruct (Nat.leb_spec 2 (List.length added + List.length (@nil string)));
      [simpl in *; lia | reflexivity].
Qed.

Lemma AddMembers_idempotent_witness :
  let c := NewClient fixtures.testConfig (fixtures.serverWith [] []) true in
  membership.afterAddMembers c "g1" "test-ou-1" ["a"; "NO_SUCH_USER"]
    (membership.afterAddMembers c "g1" "test-ou-1" ["a"; "NO_SUCH_USER"]
       ["uid=NO_SUCH_USER,ou=users,o=company"])
  = membership.afterAddMembers c "g1" "test-ou-1" ["a"; "NO_SUCH_USER"]
      ["uid=NO_SUCH_USER,ou=users,o=company"].
Proof.
  intros c.
  apply (AddMembers_idempotent c "g1" "test-ou-1" ["a"; "NO_SUCH_USER"]
           ["uid=NO_SUCH_USER,ou=users,o=company"]).
  repeat constructor. intros [].
Defined.

(** ** The group is never left without a member, up to repeated identifiers *)

Lemma getAddRequest_members (c : Client) (memberIds acc : list string) :
  fold_left
    (fun uniqueMembers memberId =>
       uniqueMembers ++ [groups.getUniqueMemberDn c (strings.ToUpper memberId)])
    memberIds acc
  = acc ++ map (memberDn c) memberIds.
Proof.
  revert acc; induction memberIds as [|m ms IH]; intros acc; simpl.
  - symmetry; apply app_nil_r.
  - rewrite IH, <- app_assoc. reflexivity.
Qed.

(** What the directory holds after the request of [Create]. *)
Lemma afterCreate_members (c : Client) (cn ou : string)
      (memberIds : list string) :
  membership.afterCreate c cn ou memberIds
  = directory.addValues
      (match memberIds with
       | [] => [sentinelDn c]
       | _ => map (memberDn c) memberIds
       end)
      [].
Proof.
  unfold membership.afterCreate, membership.createRequest,
    groups.getAddRequest, directory.applyAdd.
  rewrite getAddRequest_members.
  cbn [ldap.Attribute ldap.NewAddRequest ldap.AddAttributes ldap.AddDN app
       flat_map fst snd].
  change (objectClassAttr =? uniqueMemberAttr)%string with false.
  change (CommonNameAttr =? uniqueMemberAttr)%string with false.
  change (uniqueMemberAttr =? uniqueMemberAttr)%string with true.
  cbv iota. cbn [app]. rewrite app_nil_r.
  destruct memberIds; reflexivity.
Qed.

Lemma addValues_nonempty (vals members : list string) :
  vals <> [] -> directory.addValues vals members <> [].
Proof.
  intros Hne E. destruct vals as [|v vals]; [contradiction|].
  assert (H : In v (directory.addValues (v :: vals) members))
    by (apply In_addValues; right; now left).
  rewrite E in H. destruct H.
Qed.

Lemma afterCreate_nonempty (c : Client) (cn ou : string)
      (memberIds : list string) :
  membership.afterCreate c cn ou memberIds <> [].
Proof.
  rewrite afterCreate_members. apply addValues_nonempty.
  destruct memberIds; discriminate.
Qed.

Lemma afterCreate_NoDup (c : Client) (cn ou : string)
      (memberIds : list string) :
  NoDup (membership.afterCreate c cn ou memberIds).
Proof.
  rewrite afterCreate_members. apply NoDup_addValues. constructor.
Qed.

Lemma afterOp_NoDup (c : Client) (cn ou : string) (members : list string)
      (op : membership.MemberOp) :
  NoDup members -> NoDup (membership.afterOp c cn ou members op).
Proof.
  intros Hnd. destruct op as [memberIds|memberIds]; simpl.
  - rewrite afterAddMembers_members. cbv zeta.
    destruct (2 <=? _);
      [apply NoDup_deleteValues|]; now apply NoDup_addValues.
  - rewrite afterRemoveMembers_members. cbv zeta.
    destruct (_ =? 0)%Z;
      [apply NoDup_addValues|]; now apply NoDup_deleteValues.
Qed.

(** [AddMembers] leaves a member in a group that had one. *)
Lemma afterAddMembers_nonempty (c : Client) (cn ou : string)
      (memberIds members : list string) :
  NoDup members -> members <> [] ->
  membership.afterAddMembers c cn ou memberIds members <> [].
Proof.
  intros Hnd Hne. rewrite afterAddMembers_members. cbv zeta.
  set (new := toAdd c members memberIds).
  destruct (Nat.leb_spec 2 (List.length members + List.length new))
    as [Hle|Hlt].
  - intros E.
    assert (Hall : forall x, In x (directory.addValues new members) ->
                             x = sentinelDn c).
    { intros x Hx. destruct (string_dec x (sentinelDn c)) as [Ex|Ex];
        [exact Ex|].
      assert (H : In x (directory.deleteValues [sentinelDn c]
                          (directory.addValues new members))).
      { apply In_deleteValues. split; [exact Hx|].
        intros [E'|[]]. now elim Ex. }
      rewrite E in H. destruct H. }
    assert (Hmem : forall x, In x members -> x = sentinelDn c).
    { intros x Hx. apply Hall, In_addValues. now left. }
    destruct (all_sentinel_NoDup _ _ Hnd Hmem) as [Em|Em];
      [contradiction|].
    destruct new as [|x new'] eqn:En.
    + rewrite Em in Hle. simpl in Hle. lia.
    + assert (Hx : In x (toAdd c members memberIds))
        by (fold new; rewrite En; now left).
      apply In_toAdd in Hx. destruct Hx as [_ Hn]. apply Hn.
      rewrite Em. left. symmetry. apply Hall, In_addValues. right. now left.
  - intros E. destruct members as [|m members]; [contradiction|].
    assert (H : In m (directory.addValues new (m :: members)))
      by (apply In_addValues; left; now left).
    rewrite E in H. destruct H.
Qed.

(** [RemoveMembers] leaves a member when the requested identifiers give
    pairwise different DNs. *)
Lemma afterRemoveMembers_nonempty (c : Client) (cn ou : string)
      (memberIds members : list string) :
  NoDup members -> NoDup (map (memberDn c) memberIds) ->
  membership.afterRemoveMembers c cn ou memberIds members <> [].
Proof.
  intros Hnd Hids. rewrite afterRemoveMembers_members. cbv zeta.
  set (gone := toRemove c members memberIds).
  destruct (Z.eqb_spec (Z.of_nat (List.length members)
                        - Z.of_nat (List.length gone)) 0) as [Hz|Hz].
  - apply addValues_nonempty. discriminate.
  - intros E.
    assert (Hincl : incl members gone).
    { intros x Hx. destruct (in_dec string_dec x gone) as [Hg|Hg];
        [exact Hg|].
      assert (H : In x (directory.deleteValues gone members))
        by (apply In_deleteValues; now split).
      rewrite E in H. destruct H. }
    assert (Hincl' : incl gone members).
    { intros x Hx. apply In_toRemove in Hx. tauto. }
    assert (Hgone : NoDup gone) by (apply NoDup_filter, Hids).
    pose proof (NoDup_incl_length Hnd Hincl).
    pose proof (NoDup_incl_length Hgone Hincl').
    lia.
Qed.

(** The invariant of the group, for the sequences of operations in which no
    removal names a member twice. *)
Lemma afterOps_nonempty (c : Client) (cn ou : string)
      (memberIds : list string) (ops : list membership.MemberOp) :
  Forall (distinctRemovals c) ops ->
  1 <= List.length (membership.afterOps c cn ou memberIds ops).
Proof.
  intros Hops. unfold membership.afterOps.
  assert (H : NoDup (membership.afterCreate c cn ou memberIds)
              /\ membership.afterCreate c cn ou memberIds <> [])
    by (split; [apply afterCreate_NoDup | apply afterCreate_nonempty]).
  revert H. generalize (membership.afterCreate c cn ou memberIds).
  induction Hops as [|op ops Hop Hops IH]; intros members [Hnd Hne]; simpl.
  - destruct members; [contradiction | simpl; lia].
  - apply IH. split; [now apply afterOp_NoDup|].
    destruct op as [ids|ids]; simpl.
    + now apply afterAddMembers_nonempty.
    + now apply afterRemoveMembers_nonempty.
Qed.

(** C1 fails on the code. A group is created with the member [a], and
    [RemoveMembers] is called with [a] twice: the loop keeps the DN twice,
    the difference of the lengths is -1 and not 0, so the request deletes
    the DN and adds no sentinel, and the group is left without a member. *)
Theorem RemoveMembers_repeated_id_empties_group :
  let c := NewClient fixtures.testConfig
             (fixtures.serverWith
                [fixtures.groupEntry "g1" "test-ou-1" [fixtures.member "A"]] [])
             true in
  let mr := ldap.mkModifyRequest "cn=g1,ou=test-ou-1,ou=projects,o=company"
              [ldap.mkChange ldap.DeleteAttribute "uniqueMember"
                 ["uid=A,ou=users,o=company"; "uid=A,ou=users,o=company"]] in
  membership.afterCreate c "g1" "test-ou-1" ["a"]
  = ["uid=A,ou=users,o=company"]
  /\ In (ModifyCall mr)
        (trace (groups.RemoveMembers c "g1" "test-ou-1" ["a"; "a"]))
  /\ directory.applyModify mr ["uid=A,ou=users,o=company"] = []
  /\ List.length
       (membership.afterOps c "g1" "test-ou-1" ["a"]
          [membership.RemoveMembersOp ["a"; "a"]]) = 0.
Proof.
  vm_compute. repeat split. do 10 right. left. reflexivity.
Qed.

(** ** One session for each operation *)

Lemma connect_cases (c : Client) :
  connect c
  = match missingConfiguration (config c) with
    | _ :: _ =>
        ([], Some (BadRequestError
                     (MissingMandatoryConfiguration
                        (missingConfiguration (config c)))))
    | [] =>
        let dialed := if unitTesting c then [] else [dialCall c] in
        match (if unitTesting c then None else dialError c) with
        | Some err => (dialed, Some (handleLdapError err))
        | None =>
            (dialed ++ [bindCall c],
             match bindError c with
             | Some err => Some (handleLdapError err)
             | None => None
             end)
        end
    end.
Proof.
  unfold connect. rewrite validate_missing.
  destruct (missingConfiguration (config c)) as [|n ns]; [|reflexivity].
  unfold dial, bindLdap, dialCall, bindCall, dialError, bindError.
  destruct (unitTesting c); cbn.
  - destruct (srvBind _ _ _); reflexivity.
  - destruct (srvDial _ _ _); cbn; [reflexivity|].
    destruct (srvBind _ _ _); reflexivity.
Qed.

Lemma doLDAP_cases (c : Client) (op : Request) :
  (execute c op, errorOf c op)
  = match result (connect c) with
    | Some e => (trace (connect c), Some e)
    | None =>
        (trace (connect c) ++ [requestCall op; CloseCall],
         option_map handleLdapError (rejection c op))
    end.
Proof.
  destruct op; cbn [execute errorOf rejection requestCall];
    [unfold doLDAPSearch|unfold doLDAPAdd|unfold doLDAPDelete
    |unfold doLDAPModify|unfold doLDAPPasswordModify];
    rewrite trace_bind, result_bind;
    destruct (result (connect c)); cbn [trace result ret fst snd];
    try (rewrite app_nil_r; reflexivity);
    rewrite trace_deferClose, result_deferClose, trace_bind, result_bind;
    cbn [trace result call fst snd];
    match goal with |- context [match ?x with _ => _ end] => destruct x end;
    reflexivity.
Qed.

(** X1. The calls of an operation, by the way it leaves: none when the
    configuration is incomplete; the dial alone when it fails; the dial and
    the bind when the bind fails; else the dial, the bind, the request and
    the close, in this order. In unit-testing mode there is no dial. *)
Theorem execute_one_session (c : Client) (op : Request) :
  let dialed := if unitTesting c then [] else [dialCall c] in
  execute c op
  = match exitPath c op with
    | ValidationFailure => []
    | DialFailure => [dialCall c]
    | BindFailure => dialed ++ [bindCall c]
    | OperationFailure | Success =>
        dialed ++ [bindCall c; requestCall op; CloseCall]
    end.
Proof.
  intros dialed. subst dialed.
  pose proof (f_equal fst (doLDAP_cases c op)) as H. cbn [fst] in H.
  rewrite H. clear H. unfold exitPath. rewrite connect_cases.
  unfold dialFails, bindFails, dialError, bindError.
  destruct (missingConfiguration (config c)); [|reflexivity].
  destruct (unitTesting c); cbn.
  - destruct (srvBind _ _ _); cbn; [reflexivity|].
    destruct (rejected c op); reflexivity.
  - destruct (srvDial _ _ _); cbn; [reflexivity|].
    destruct (srvBind _ _ _); cbn; [reflexivity|].
    destruct (rejected c op); reflexivity.
Qed.

(** X2. The error of an operation, by the way it leaves: BadRequest with the
    names of the missing configuration fields; the translation of the dial
    error, of the bind error, or of the error of the operation; none on
    success. *)
Theorem errorOf_by_exit (c : Client) (op : Request) :
  errorOf c op
  = match exitPath c op with
    | ValidationFailure =>
        Some (BadRequestError
                (MissingMandatoryConfiguration
                   (missingConfiguration (config c))))
    | DialFailure => option_map handleLdapError (dialError c)
    | BindFailure => option_map handleLdapError (bindError c)
    | OperationFailure => option_map handleLdapError (rejection c op)
    | Success => None
    end
  /\ (exitPath c op = ValidationFailure
      <-> missingConfiguration (config c) <> [])
  /\ (exitPath c op = DialFailure -> dialError c <> None)
  /\ (exitPath c op = BindFailure -> bindError c <> None)
  /\ (exitPath c op = OperationFailure -> rejection c op <> None).
Proof.
  pose proof (f_equal snd (doLDAP_cases c op)) as H. cbn [snd] in H.
  rewrite H. clear H. unfold exitPath. rewrite connect_cases.
  unfold dialFails, bindFails, dialError, bindError.
  destruct (missingConfiguration (config c)) as [|n ns].
  - assert (Hr : rejected c op
                 = match rejection c op with Some _ => true | None => false end).
    { destruct op; cbn;
        match goal with |- context [match ?x with _ => _ end] => destruct x end;
        reflexivity. }
    rewrite Hr.
    destruct (unitTesting c); cbn.
    + destruct (srvBind _ _ _); cbn;
        [|destruct (rejection c op); cbn];
        repeat split; try congruence; try discriminate; try tauto.
    + destruct (srvDial _ _ _); cbn;
        [|destruct (srvBind _ _ _); cbn;
          [|destruct (rejection c op); cbn]];
        repeat split; try congruence; try discriminate; try tauto.
  - cbn. repeat split; try congruence; try discriminate.
Qed.

Lemma errorOf_by_exit_witness :
  exitPath (NewClient fixtures.testConfig fixtures.refusingServer false)
           (DeleteOp (ldap.mkDelRequest "uid=C00001,ou=users,o=company"))
  = BindFailure
  /\ bindError (NewClient fixtures.testConfig fixtures.refusingServer false)
     <> None.
Proof.
  split; [reflexivity |].
  apply (proj1 (proj2 (proj2 (proj2
           (errorOf_by_exit
              (NewClient fixtures.testConfig fixtures.refusingServer false)
              (DeleteOp (ldap.mkDelRequest "uid=C00001,ou=users,o=company"))))))).
  reflexivity.
Defined.


(** ** The protocol of a new client *)

(** X3. A new client keeps the protocol [ldap] or [ldaps] it is given and
    takes [ldaps] for any other; the other fields are kept. So it dials with
    TLS unless the protocol given is exactly [ldap]. *)
Theorem NewClient_protocol (cfg : Config) (srv : Server) (testing : bool) :
  let c := NewClient cfg srv testing in
  Protocol (config c)
  = (if (Protocol cfg =? "ldap")%string || (Protocol cfg =? "ldaps")%string
     then Protocol cfg else "ldaps")
  /\ (Protocol (config c) = "ldap" \/ Protocol (config c) = "ldaps")
  /\ dialCall c
     = DialCall (negb (Protocol cfg =? "ldap")%string)
                (Hostname cfg ^ ":" ^ Port cfg)
  /\ SetProtocol c (Protocol (config c)) = c
  /\ (Hostname (config c), Port (config c), BaseDN (config c),
      UserBaseDN (config c), GroupBaseDN (config c), BindUser (config c),
      BindPassword (config c), ldapClient c, unitTesting c)
     = (Hostname cfg, Port cfg, BaseDN cfg, UserBaseDN cfg, GroupBaseDN cfg,
        BindUser cfg, BindPassword cfg, srv, testing).
Proof.
  intros c. subst c. unfold NewClient, SetProtocol, dialCall.
  unfold slicelib.EntryExists, validProtocols, ProtocolLdap, ProtocolLdaps.
  cbn [existsb config Protocol Hostname Port BaseDN UserBaseDN GroupBaseDN
       BindUser BindPassword ldapClient unitTesting].
  rewrite orb_false_r.
  destruct (String.eqb_spec (Protocol cfg) "ldap") as [E1|N1];
    destruct (String.eqb_spec (Protocol cfg) "ldaps") as [E2|N2];
    cbn [orb negb]; try rewrite E1; try rewrite E2.
  - rewrite E2 in E1. discriminate E1.
  - cbn. repeat split; auto.
  - cbn. repeat split; auto.
  - cbn. repeat split; auto.
Qed.

(** ** users: errors of the directory *)

Lemma doLDAP_connected (c : Client) (op : Request) :
  connected c = true ->
  execute c op = trace (connect c) ++ [requestCall op; CloseCall]
  /\ errorOf c op = option_map handleLdapError (rejection c op).
Proof.
  intros Hc. pose proof (doLDAP_cases c op) as H.
  unfold connected in Hc. destruct (result (connect c)); [discriminate|].
  now inversion H.
Qed.

Lemma errorOf_search (c : Client) (sr : ldap.SearchRequest) (e : Error) :
  errorOf c (SearchOp sr) = Some e -> result (doLDAPSearch c sr) = Fail e.
Proof. cbn. destruct (result (doLDAPSearch c sr)); congruence. Qed.

Lemma errorOf_delete (c : Client) (dr : ldap.DelRequest) (e : Error) :
  errorOf c (DeleteOp dr) = Some e -> result (doLDAPDelete c dr) = Fail e.
Proof. cbn. destruct (result (doLDAPDelete c dr)); congruence. Qed.

Lemma errorOf_add (c : Client) (ar : ldap.AddRequest) (e : Error) :
  errorOf c (AddOp ar) = Some e -> result (doLDAPAdd c ar) = Fail e.
Proof. cbn. destruct (result (doLDAPAdd c ar)); congruence. Qed.

Lemma errorOf_passwordModify (c : Client) (pmr : ldap.PasswordModifyRequest)
      (e : Error) :
  errorOf c (PasswordModifyOp pmr) = Some e ->
  result (doLDAPPasswordModify c pmr) = Fail e.
Proof. cbn. destruct (result (doLDAPPasswordModify c pmr)); congruence. Qed.

(** X4. When the directory answers with an error that translates to
    NotFound (its text has the no-such-object code and none of the codes
    tested before it), [Get], [Delete] and [SetNewPassword] return NotFound
    with a message that names the uid. *)
Theorem user_not_found_names_uid (c : Client) (uid err : string) :
  connected c = true ->
  Status (handleLdapError err) = 404 ->
  let notFound :=
    NotFoundError (Text ("User with uid = '" ^ uid ^ "' was not found")) in
  (users.validateUid uid = Ok tt ->
   rejection c (SearchOp (users.getUserSearchRequest c (users.getDN c uid)))
   = Some err ->
   result (users.Get c uid) = Fail notFound)
  /\ (users.validateUid uid = Ok tt ->
      rejection c (DeleteOp (users.getDeleteRequest c uid)) = Some err ->
      result (users.Delete c uid) = Fail notFound)
  /\ (forall newPassword,
        rejection c (PasswordModifyOp
                       (users.getPasswordModifyRequest c uid "" newPassword))
        = Some err ->
        result (users.SetNewPassword c uid newPassword) = Fail notFound).
Proof.
  intros Hc Hs notFound. subst notFound.
  split; [|split].
  - intros Hv Hr. unfold users.Get. rewrite result_andThen.
    change (result (ret (users.validateUid uid))) with (users.validateUid uid).
    rewrite Hv, result_bind.
    destruct (doLDAP_connected c
                (SearchOp (users.getUserSearchRequest c (users.getDN c uid)))
                Hc) as [_ He].
    rewrite Hr in He. apply errorOf_search in He. rewrite He.
    rewrite Hs. reflexivity.
  - intros Hv Hr. unfold users.Delete. rewrite result_andThen.
    change (result (ret (users.validateUid uid))) with (users.validateUid uid).
    rewrite Hv, result_bind.
    destruct (doLDAP_connected c (DeleteOp (users.getDeleteRequest c uid)) Hc)
      as [_ He].
    rewrite Hr in He. apply errorOf_delete in He. rewrite He.
    rewrite Hs. reflexivity.
  - intros newPassword Hr.
    assert (Hm : result (users.modifyPassword c uid "" newPassword)
                 = Fail (NotFoundError (Text (users.userNotFoundMsg uid)))).
    { unfold users.modifyPassword. rewrite result_bind.
      destruct (doLDAP_connected c
                  (PasswordModifyOp
                     (users.getPasswordModifyRequest c uid "" newPassword))
                  Hc) as [_ He].
      rewrite Hr in He. apply errorOf_passwordModify in He. rewrite He.
      rewrite Hs. reflexivity. }
    unfold users.SetNewPassword.
    destruct (String.eqb_spec newPassword "") as [->|Hn];
      rewrite result_andThen, Hm; reflexivity.
Qed.

Lemma user_not_found_names_uid_witness :
  let c := NewClient fixtures.testConfig (fixtures.missingServer []) true in
  let notFound := NotFoundError (Text "User with uid = 'C99999' was not found")
  in
  result (users.Get c "C99999") = Fail notFound
  /\ result (users.Delete c "C99999") = Fail notFound
  /\ result (users.SetNewPassword c "C99999" "secret") = Fail notFound.
Proof.
  intros c notFound.
  destruct (user_not_found_names_uid c "C99999" fixtures.noSuchObject
              eq_refl eq_refl) as (H1 & H2 & H3).
  split; [|split].
  - apply H1; reflexivity.
  - apply H2; reflexivity.
  - apply H3; reflexivity.
Defined.

(** ** users: Create *)

Lemma trace_doLDAPAdd (c : Client) (ar : ldap.AddRequest) :
  trace (doLDAPAdd c ar) = execute c (AddOp ar).
Proof. reflexivity. Qed.

(** X5. [Create] of a user that fails validation makes no call. Otherwise
    it runs the add in one session and, only when the add succeeded, the
    password change in a second one, with the password of the user as old
    and as new password. *)
Theorem users_Create_sessions (c : Client) (user : users.User) :
  let ar := users.getAddRequest c user in
  let pmr :=
    ldap.mkPasswordModifyRequest
      ("uid=" ^ users.Uid user ^ "," ^ UserBaseDN (config c))
      (users.UserPassword user) (users.UserPassword user) in
  trace (users.Create c user)
  = match users.validateUser user with
    | Ok _ =>
        execute c (AddOp ar)
        ++ (if succeeds c (AddOp ar)
            then execute c (PasswordModifyOp pmr) else [])
    | _ => []
    end
  /\ ldap.AddDN ar = "uid=" ^ users.Uid user ^ "," ^ UserBaseDN (config c)
  /\ (result (users.Create c user) = Ok tt
      <-> users.validateUser user = Ok tt
          /\ succeeds c (AddOp ar) = true
          /\ succeeds c (PasswordModifyOp pmr) = true).
Proof.
  intros ar pmr. split; [|split; [reflexivity|]].
  - unfold users.Create. rewrite trace_andThen.
    change (trace (ret (users.validateUser user))) with (@nil Call).
    change (result (ret (users.validateUser user)))
      with (users.validateUser user).
    destruct (users.validateUser user); try reflexivity.
    cbn [app]. rewrite trace_bind. fold ar.
    change (trace (doLDAPAdd c ar)) with (execute c (AddOp ar)).
    f_equal. cbn [succeeds].
    destruct (result (doLDAPAdd c ar)) as [u|e|]; cbn [isOk].
    + rewrite trace_andThen. unfold users.modifyPassword.
      rewrite trace_bind, result_bind.
      change (trace (doLDAPPasswordModify c _))
        with (execute c (PasswordModifyOp pmr)).
      destruct (result (doLDAPPasswordModify c _)) as [r|e|]; cbn;
        try (destruct (Status e =? StatusNotFound); cbn);
        now rewrite !app_nil_r.
    + destruct (Status e =? StatusBadRequest); reflexivity.
    + reflexivity.
  - unfold users.Create. rewrite result_andThen.
    change (result (ret (users.validateUser user)))
      with (users.validateUser user).
    destruct (users.validateUser user) as [[]|e|];
      [|split; [discriminate | intros [H _]; discriminate H]
       |split; [discriminate | intros [H _]; discriminate H]].
    rewrite result_bind. fold ar. cbn [succeeds].
    destruct (result (doLDAPAdd c ar)) as [u|e|]; cbn [isOk].
    + rewrite result_andThen. unfold users.modifyPassword.
      rewrite result_bind.
      change (users.getPasswordModifyRequest c (users.Uid user)
                (users.UserPassword user) (users.UserPassword user))
        with pmr.
      destruct (result (doLDAPPasswordModify c pmr)) as [r|e|]; cbn.
      * tauto.
      * destruct (Status e =? StatusNotFound); cbn;
          (split; [discriminate | intros (_ & _ & H); discriminate H]).
      * split; [discriminate | intros (_ & _ & H); discriminate H].
    + destruct (Status e =? StatusBadRequest); cbn;
        (split; [discriminate | intros (_ & H & _); discriminate H]).
    + cbn. split; [discriminate | intros (_ & H & _); discriminate H].
Qed.

Lemma doLDAPAdd_unconfigured (c : Client) (ar : ldap.AddRequest) :
  missingConfiguration (config c) <> [] ->
  doLDAPAdd c ar
  = ([], Fail (BadRequestError
                 (MissingMandatoryConfiguration
                    (missingConfiguration (config c))))).
Proof.
  intros Hm. unfold doLDAPAdd. rewrite connect_cases.
  destruct (missingConfiguration (config c)); [contradiction|reflexivity].
Qed.

(** X6. [Create] takes every BadRequest of the add step for an existing
    entry: the answer of the directory that the entry exists, and also the
    error of an incomplete configuration, for which it makes no call and
    returns Conflict with the message that the user already exists. *)
Theorem users_Create_conflict (c : Client) (user : users.User) :
  users.validateUser user = Ok tt ->
  let conflict :=
    ConflictError
      (Text ("User with uid = '" ^ users.Uid user ^ "' already exists")) in
  (forall err,
     connected c = true ->
     rejection c (AddOp (users.getAddRequest c user)) = Some err ->
     Status (handleLdapError err) = 400 ->
     result (users.Create c user) = Fail conflict)
  /\ (missingConfiguration (config c) <> [] ->
      users.Create c user = ([], Fail conflict)).
Proof.
  intros Hv conflict. subst conflict. split.
  - intros err Hc Hr Hs. unfold users.Create. rewrite result_andThen.
    change (result (ret (users.validateUser user)))
      with (users.validateUser user).
    rewrite Hv, result_bind.
    destruct (doLDAP_connected c (AddOp (users.getAddRequest c user)) Hc)
      as [_ He].
    rewrite Hr in He. apply errorOf_add in He. rewrite He, Hs. reflexivity.
  - intros Hm. unfold users.Create, andThen.
    change (ret (users.validateUser user)) with (@nil Call, users.validateUser user).
    rewrite Hv. cbn [bind].
    rewrite (doLDAPAdd_unconfigured c _ Hm). reflexivity.
Qed.

Lemma users_Create_conflict_witness :
  let unconfigured :=
    NewClient (mkConfig "ldaps" "" "636" "company" "ou=users,o=company"
                 "ou=projects,o=company" "cn=root,o=company" "somePassword")
              (fixtures.serverWith [] []) false in
  let c := NewClient fixtures.testConfig (fixtures.missingServer []) true in
  let conflict :=
    ConflictError (Text "User with uid = 'C00001' already exists") in
  result (users.Create c fixtures.john) = Fail conflict
  /\ users.Create unconfigured fixtures.john = ([], Fail conflict).
Proof.
  intros unconfigured c conflict. split.
  - apply (proj1 (users_Create_conflict c fixtures.john eq_refl))
      with (err := "LDAP Result Code 68 Entry Already Exists: ");
      reflexivity.
  - apply (proj2 (users_Create_conflict unconfigured fixtures.john eq_refl)).
    discriminate.
Defined.

(** ** users: validation *)

(** X7. A user passes the validation of [Create] exactly when uid, altUid,
    cn, sn, displayName, mail, userPassword and status are not blank and
    the status is one of Active, Disabled, Revoked and Deleted; the employee
    number is not looked at. *)
Theorem validateUser_accepts (user : users.User) :
  users.validateUser user = Ok tt
  <-> strings.TrimSpace (users.Uid user) <> ""
      /\ strings.TrimSpace (users.AltUid user) <> ""
      /\ strings.TrimSpace (users.Cn user) <> ""
      /\ strings.TrimSpace (users.Sn user) <> ""
      /\ strings.TrimSpace (users.DisplayName user) <> ""
      /\ strings.TrimSpace (users.Mail user) <> ""
      /\ strings.TrimSpace (users.UserPassword user) <> ""
      /\ (users.UserStatus user = "Active"
          \/ users.UserStatus user = "Disabled"
          \/ users.UserStatus user = "Revoked"
          \/ users.UserStatus user = "Deleted").
Proof.
  unfold users.validateUser, users.validateStatus.
  assert (Hs : slicelib.EntryExists users.validStatusList
                 (users.UserStatus user) = true
               <-> users.UserStatus user = "Active"
                   \/ users.UserStatus user = "Disabled"
                   \/ users.UserStatus user = "Revoked"
                   \/ users.UserStatus user = "Deleted").
  { rewrite EntryExists_In.
    unfold users.validStatusList, users.UserStatusActive,
      users.UserStatusDisabled, users.UserStatusRevoked,
      users.UserStatusDeleted.
    simpl. intuition congruence. }
  assert (Hblank : strings.TrimSpace (users.UserStatus user) = "" ->
                   slicelib.EntryExists users.validStatusList
                     (users.UserStatus user) = false).
  { intros Hb. apply EntryExists_not_In. intros Hin.
    destruct Hin as [H|[H|[H|[H|[]]]]]; rewrite <- H in Hb;
      vm_compute in Hb; discriminate Hb. }
  destruct (String.eqb_spec (strings.TrimSpace (users.Uid user)) "");
    destruct (String.eqb_spec (strings.TrimSpace (users.AltUid user)) "");
    destruct (String.eqb_spec (strings.TrimSpace (users.Cn user)) "");
    destruct (String.eqb_spec (strings.TrimSpace (users.Sn user)) "");
    destruct (String.eqb_spec (strings.TrimSpace (users.DisplayName user)) "");
    destruct (String.eqb_spec (strings.TrimSpace (users.Mail user)) "");
    destruct (String.eqb_spec (strings.TrimSpace (users.UserPassword user)) "");
    destruct (String.eqb_spec (strings.TrimSpace (users.UserStatus user)) "");
    cbn [app List.length Nat.ltb Nat.leb];
    try (split; [discriminate | tauto]).
  - split; [discriminate|]. intros (_ & _ & _ & _ & _ & _ & _ & H).
    apply Hblank in e. apply Hs in H. congruence.
  - destruct (slicelib.EntryExists users.validStatusList
                (users.UserStatus user)) eqn:E; cbn [negb].
    + split; [intros _|reflexivity]. repeat split; try assumption.
      now apply Hs.
    + split; [discriminate|]. intros H.
      assert (false = true) by (apply Hs; tauto). discriminate.
Qed.

(** ** users: passwords, deletion, filters *)

Lemma trace_bind_silent {A B} (m : M A) (f : A -> M B) :
  (forall a, trace (f a) = []) -> trace (bind m f) = trace m.
Proof. intros H. rewrite trace_bind, H. apply app_nil_r. Qed.

Lemma trace_andThen_silent {A B} (m : M (Outcome A))
      (f : A -> M (Outcome B)) :
  (forall a, trace (f a) = []) -> trace (andThen m f) = trace m.
Proof.
  intros H. rewrite trace_andThen.
  destruct (result m); rewrite ?H; apply app_nil_r.
Qed.

(** X8. [SetNewPassword] sends one password change for [uid=<uid>,<user
    base>] with an empty old password and the new password as given, without
    looking at the uid; when it succeeds the result is the password the
    directory generated if none was given, and the given one otherwise. *)
Theorem SetNewPassword_result (c : Client) (uid newPassword : string) :
  let pmr :=
    ldap.mkPasswordModifyRequest ("uid=" ^ uid ^ "," ^ UserBaseDN (config c))
                                 "" newPassword in
  trace (users.SetNewPassword c uid newPassword)
  = execute c (PasswordModifyOp pmr)
  /\ (forall res,
        result (doLDAPPasswordModify c pmr) = Ok res ->
        result (users.SetNewPassword c uid newPassword)
        = Ok (if (newPassword =? "")%string
              then ldap.GeneratedPassword res else newPassword)).
Proof.
  intros pmr.
  assert (Ht : forall np,
             trace (users.modifyPassword c uid "" np)
             = execute c (PasswordModifyOp
                            (users.getPasswordModifyRequest c uid "" np))).
  { intros np. unfold users.modifyPassword. rewrite trace_bind.
    cbn [execute].
    destruct (result (doLDAPPasswordModify c _)) as [r|e|]; cbn;
      try (destruct (Status e =? StatusNotFound); cbn);
      now rewrite app_nil_r. }
  assert (Hr : forall np res,
             result (doLDAPPasswordModify c
                       (users.getPasswordModifyRequest c uid "" np)) = Ok res ->
             result (users.modifyPassword c uid "" np) = Ok res).
  { intros np res H. unfold users.modifyPassword.
    rewrite result_bind, H. reflexivity. }
  unfold users.SetNewPassword.
  destruct (String.eqb_spec newPassword "") as [E|N].
  - subst newPassword. split.
    + rewrite trace_andThen, Ht.
      destruct (result (users.modifyPassword c uid "" "")); cbn;
        now rewrite app_nil_r.
    + intros res H. rewrite result_andThen, (Hr "" res H). reflexivity.
  - split.
    + rewrite trace_andThen, Ht.
      destruct (result (users.modifyPassword c uid "" newPassword)); cbn;
        now rewrite app_nil_r.
    + intros res H. rewrite result_andThen, (Hr newPassword res H).
      reflexivity.
Qed.

Lemma SetNewPassword_result_witness :
  let c := NewClient fixtures.testConfig fixtures.generatingServer true in
  result (users.SetNewPassword c "C00001" "") = Ok "generated"
  /\ result (users.SetNewPassword c "C00001" "secret") = Ok "secret".
Proof.
  intros c. split.
  - apply (proj2 (SetNewPassword_result c "C00001" "")
             (ldap.mkPasswordModifyResult "generated")).
    reflexivity.
  - apply (proj2 (SetNewPassword_result c "C00001" "secret")
             (ldap.mkPasswordModifyResult "generated")).
    reflexivity.
Defined.

Lemma uid_validation (c : Client) (uid : string) :
  (strings.TrimSpace uid = "" ->
   users.Get c uid
   = ([], Fail (BadRequestError (MissingMandatoryParameter ["uid"])))
   /\ users.Delete c uid
      = ([], Fail (BadRequestError (MissingMandatoryParameter ["uid"]))))
  /\ (strings.TrimSpace uid <> "" ->
      trace (users.Get c uid)
      = execute c
          (SearchOp
             (ldap.mkSearchRequest
                ("uid=" ^ uid ^ "," ^ UserBaseDN (config c))
                ldap.ScopeBaseObject ldap.NeverDerefAliases 0 0 false
                "(&(objectClass=inetOrgPerson))" users.userAttributes))
      /\ trace (users.Delete c uid)
         = execute c
             (DeleteOp
                (ldap.mkDelRequest
                   ("uid=" ^ uid ^ "," ^ UserBaseDN (config c))))).
Proof.
  split.
  - intros Hb. unfold users.Get, users.Delete, andThen, users.validateUid.
    rewrite Hb. split; reflexivity.
  - intros Hn. apply String.eqb_neq in Hn.
    unfold users.Get, users.Delete. rewrite !trace_andThen.
    unfold users.validateUid. rewrite Hn.
    change (result (ret (@Ok unit tt))) with (@Ok unit tt).
    cbn [trace ret fst app]. split.
    + rewrite trace_bind_silent; [reflexivity|].
      intros [res|e|]; try reflexivity.
      * destruct (nth_error _ 0); reflexivity.
      * destruct (Status e =? StatusNotFound); reflexivity.
    + rewrite trace_bind_silent; [reflexivity|].
      intros [res|e|]; try reflexivity.
      destruct (Status e =? StatusNotFound); reflexivity.
Qed.

(** X9. [Get] and [Delete] with a blank uid fail with BadRequest naming
    [uid] and make no call; with any other uid they run one search of the
    base object, or one deletion, of [uid=<uid>,<user base>]. *)
Theorem uid_validated_first (c : Client) (uid : string) :
  (strings.TrimSpace uid = "" ->
   users.Get c uid
   = ([], Fail (BadRequestError (MissingMandatoryParameter ["uid"])))
   /\ users.Delete c uid
      = ([], Fail (BadRequestError (MissingMandatoryParameter ["uid"]))))
  /\ (strings.TrimSpace uid <> "" ->
      trace (users.Get c uid)
      = execute c
          (SearchOp
             (ldap.mkSearchRequest
                ("uid=" ^ uid ^ "," ^ UserBaseDN (config c))
                ldap.ScopeBaseObject ldap.NeverDerefAliases 0 0 false
                "(&(objectClass=inetOrgPerson))" users.userAttributes))
      /\ trace (users.Delete c uid)
         = execute c
             (DeleteOp
                (ldap.mkDelRequest
                   ("uid=" ^ uid ^ "," ^ UserBaseDN (config c))))).
Proof. exact (uid_validation c uid). Qed.

Lemma uid_validated_first_witness :
  let c := NewClient fixtures.testConfig (fixtures.serverWith [] []) true in
  (users.Get c "  "
   = ([], Fail (BadRequestError (MissingMandatoryParameter ["uid"])))
   /\ users.Delete c "  "
      = ([], Fail (BadRequestError (MissingMandatoryParameter ["uid"]))))
  /\ trace (users.Delete c "C00001")
     = [BindCall "cn=root,o=company" "somePassword";
        DelCall (ldap.mkDelRequest "uid=C00001,ou=users,o=company");
        CloseCall].
Proof.
  intros c. split.
  - apply (uid_validated_first c "  "). reflexivity.
  - rewrite (proj2 (proj2 (uid_validated_first c "C00001")
                      ltac:(discriminate))).
    reflexivity.
Defined.

Lemma Filter_valid (c : Client) (key value : string) :
  users.validateFilter key value = Ok tt ->
  let sr := users.getUsersSearchRequest c (WildcardUserSearchFilter key value)
  in
  trace (users.Filter c key value) = execute c (SearchOp sr)
  /\ result (users.Filter c key value)
     = match result (doLDAPSearch c sr) with
       | Ok res => Ok (Some (map users.parseEntry (ldap.Entries res)))
       | Fail e => Fail e
       | Panic => Panic
       end.
Proof.
  intros Hf sr. unfold users.Filter.
  rewrite trace_andThen, result_andThen.
  change (result (ret (users.validateFilter key value)))
    with (users.validateFilter key value).
  change (trace (ret (users.validateFilter key value))) with (@nil Call).
  rewrite Hf. cbv iota. cbn [app]. fold sr. split.
  - apply trace_andThen_silent. reflexivity.
  - rewrite result_andThen.
    destruct (result (doLDAPSearch c sr)) as [res|e|]; try reflexivity.
    cbn [result ret snd]. now rewrite users_parseSearchResult_entries.
Qed.

(** X10. [FilterByStatus] with a status other than Active, Disabled,
    Revoked and Deleted (exact spelling) fails with BadRequest listing these
    and makes no call; with one of them it is the search of the users under
    the filter [(&(status=<status>)(objectClass=inetOrgPerson))], whose
    entries it returns parsed, in the order of the answer. *)
Theorem FilterByStatus_search (c : Client) (status : string) :
  (~ In status users.validStatusList ->
   users.FilterByStatus c status
   = ([], Fail (BadRequestError
                  (Text ("Invalid status '" ^ status
                         ^ "'. Valid status's are "
                         ^ "[Active Disabled Revoked Deleted]")))))
  /\ (In status users.validStatusList ->
      let sr :=
        ldap.mkSearchRequest (UserBaseDN (config c)) ldap.ScopeWholeSubtree
          ldap.NeverDerefAliases 0 0 false
          ("(&(status=" ^ status ^ ")(objectClass=inetOrgPerson))")
          users.userAttributes in
      trace (users.FilterByStatus c status) = execute c (SearchOp sr)
      /\ result (users.FilterByStatus c status)
         = match result (doLDAPSearch c sr) with
           | Ok res => Ok (Some (map users.parseEntry (ldap.Entries res)))
           | Fail e => Fail e
           | Panic => Panic
           end).
Proof.
  split.
  - intros Hn. apply EntryExists_not_In in Hn.
    unfold users.FilterByStatus, andThen, users.validateStatus.
    rewrite Hn. reflexivity.
  - intros Hin sr.
    assert (Hv : users.validateStatus status = Ok tt).
    { apply EntryExists_In in Hin. unfold users.validateStatus.
      now rewrite Hin. }
    assert (Hf : users.validateFilter statusAttr status = Ok tt).
    { destruct Hin as [H|[H|[H|[H|[]]]]]; rewrite <- H; reflexivity. }
    destruct (Filter_valid c statusAttr status Hf) as [Ht Hr].
    unfold users.FilterByStatus.
    rewrite trace_andThen, result_andThen.
    change (result (ret (users.validateStatus status)))
      with (users.validateStatus status).
    change (trace (ret (users.validateStatus status))) with (@nil Call).
    rewrite Hv. cbv iota. cbn [app]. split; assumption.
Qed.

Lemma FilterByStatus_search_witness :
  let c := NewClient fixtures.testConfig (fixtures.serverWith [] []) true in
  users.FilterByStatus c "active"
  = ([], Fail (BadRequestError
                 (Text "Invalid status 'active'. Valid status's are [Active Disabled Revoked Deleted]")))
  /\ result (users.FilterByStatus c "Active") = Ok (Some []).
Proof.
  intros c. split.
  - apply (FilterByStatus_search c "active").
    intros [H|[H|[H|[H|[]]]]]; discriminate H.
  - rewrite (proj2 (proj2 (FilterByStatus_search c "Active")
                      ltac:(left; reflexivity))).
    reflexivity.
Defined.

(** ** users: the types of accounts *)

Lemma users_GetAll_parsed (c : Client) :
  trace (users.GetAll c)
  = execute c (SearchOp (users.getUsersSearchRequest c userSearchFilter))
  /\ result (users.GetAll c)
     = match result (doLDAPSearch c
                       (users.getUsersSearchRequest c userSearchFilter)) with
       | Ok res => Ok (Some (map users.parseEntry (ldap.Entries res)))
       | Fail e => Fail e
       | Panic => Panic
       end.
Proof.
  unfold users.GetAll. split.
  - apply trace_andThen_silent. reflexivity.
  - rewrite result_andThen.
    destruct (result (doLDAPSearch c _)) as [res|e|]; try reflexivity.
    cbn [result ret snd]. now rewrite users_parseSearchResult_entries.
Qed.

Lemma M_eta {A} (m : M A) : m = (trace m, result m).
Proof. destruct m; reflexivity. Qed.

(** The loop of [getPersonalAccounts] and of [getNPAAccounts]: the users
    that pass the test, in order; nil when none does. *)
Lemma accounts_loop (keep : users.User -> bool) (l : list users.User)
      (res : slice users.User) :
  fold_left (fun res user => if keep user then append res user else res) l res
  = match filter keep l with
    | [] => res
    | kept => Some (elems res ++ kept)
    end.
Proof.
  revert res; induction l as [|u l IH]; intros res; [reflexivity|].
  cbn [fold_left filter]. rewrite IH.
  destruct (keep u); [|reflexivity].
  destruct (filter keep l); cbn; [reflexivity|].
  now rewrite <- app_assoc.
Qed.

(** X11. For a pattern that compiles and a listing of the users that
    succeeds, the personal accounts are the users whose uid matches, the
    non-personal ones those whose uid neither matches nor contains
    [_BUILDER], both in the order of the listing and nil when there is none;
    no user is in both, and a user in neither has [_BUILDER] in its uid. *)
Theorem FilterByType_classes (c : Client) (cRegex : string -> bool)
        (all : slice users.User) :
  result (users.GetAll c) = Ok all ->
  let personal := filter (fun u => cRegex (users.Uid u)) (elems all) in
  let npa :=
    filter (fun u => negb (cRegex (users.Uid u))
                     && negb (strings.Contains (users.Uid u) "_BUILDER"))
           (elems all) in
  users.FilterByType c (inr cRegex) "personal"
  = (trace (users.GetAll c),
     Ok (match personal with [] => None | _ => Some personal end))
  /\ users.FilterByType c (inr cRegex) "npa"
     = (trace (users.GetAll c),
        Ok (match npa with [] => None | _ => Some npa end))
  /\ (forall u, In u personal -> ~ In u npa)
  /\ (forall u, In u (elems all) ->
                In u personal \/ In u npa
                \/ strings.Contains (users.Uid u) "_BUILDER" = true).
Proof.
  intros Hall personal npa.
  assert (Hp : forall keep : users.User -> bool,
             andThen (users.GetAll c)
               (fun users =>
                  ret (Ok (fold_left
                             (fun res user =>
                                if keep user then append res user else res)
                             (elems users) None)))
             = (trace (users.GetAll c),
                Ok (match filter keep (elems all) with
                    | [] => None
                    | _ => Some (filter keep (elems all))
                    end))).
  { intros keep.
    etransitivity; [apply M_eta|]. f_equal.
    - now apply trace_andThen_silent.
    - rewrite result_andThen, Hall. cbn [result ret snd].
      rewrite accounts_loop. destruct (filter keep (elems all)); reflexivity. }
  split; [|split; [|split]].
  - cbn. apply (Hp (fun u => cRegex (users.Uid u))).
  - cbn. apply (Hp (fun u => negb (cRegex (users.Uid u))
                             && negb (strings.Contains (users.Uid u)
                                        users.BuilderAccountSuffix))).
  - intros u Hu Hn. unfold personal in Hu. unfold npa in Hn.
    apply filter_In in Hu. apply filter_In in Hn.
    destruct Hu as [_ Hu], Hn as [_ Hn]. rewrite Hu in Hn. discriminate Hn.
  - intros u Hu. unfold personal, npa. rewrite !filter_In.
    destruct (cRegex (users.Uid u)); [left; now split|].
    destruct (strings.Contains (users.Uid u) "_BUILDER");
      [right; right; reflexivity | right; left; now split].
Qed.

Lemma FilterByType_classes_witness :
  let c := NewClient fixtures.testConfig
             (fixtures.missingServer
                [fixtures.userEntry "C00001"; fixtures.userEntry "ABC_BUILDER";
                 fixtures.userEntry "nxrm-ado-agent"])
             true in
  let cRegex := String.prefix "C0" in
  option_map (map users.Uid)
    (match result (users.FilterByType c (inr cRegex) "personal") with
     | Ok found => found
     | _ => None
     end) = Some ["C00001"]
  /\ option_map (map users.Uid)
       (match result (users.FilterByType c (inr cRegex) "npa") with
        | Ok found => found
        | _ => None
        end) = Some ["nxrm-ado-agent"].
Proof.
  intros c cRegex.
  destruct (FilterByType_classes c cRegex
              (Some (map users.parseEntry
                       [fixtures.userEntry "C00001";
                        fixtures.userEntry "ABC_BUILDER";
                        fixtures.userEntry "nxrm-ado-agent"]))
              eq_refl) as (H1 & H2 & _).
  rewrite H1, H2. split; reflexivity.
Defined.

(** X12. [FilterByType] with a type other than personal, npa and builder
    fails with BadRequest listing these and makes no call; for personal and
    npa a pattern that does not compile gives InternalServerError with the
    text of the compile error, before any call; builder does not look at the
    pattern and is the filter of the uids [*_BUILDER]. *)
Theorem FilterByType_rejects (c : Client) (compiled : users.Compiled)
        (userType err : string) :
  (userType <> "personal" -> userType <> "npa" -> userType <> "builder" ->
   users.FilterByType c compiled userType
   = ([], Fail (BadRequestError
                  (Text ("Invalid type '" ^ userType
                         ^ "'. Valid types are [personal npa builder]")))))
  /\ users.FilterByType c (inl err) "personal"
     = ([], Fail (InternalServerError (Text err)))
  /\ users.FilterByType c (inl err) "npa"
     = ([], Fail (InternalServerError (Text err)))
  /\ users.FilterByType c compiled "builder" = users.Filter c "uid" "*_BUILDER"
  /\ trace (users.Filter c "uid" "*_BUILDER")
     = execute c
         (SearchOp
            (ldap.mkSearchRequest (UserBaseDN (config c))
               ldap.ScopeWholeSubtree ldap.NeverDerefAliases 0 0 false
               "(&(uid=*_BUILDER)(objectClass=inetOrgPerson))"
               users.userAttributes)).
Proof.
  split; [|split; [|split; [|split]]]; try reflexivity.
  - intros H1 H2 H3. unfold users.FilterByType.
    apply String.eqb_neq in H1. apply String.eqb_neq in H2.
    apply String.eqb_neq in H3.
    unfold users.UserTypePersonal, users.UserTypeNPA, users.UserTypeBuilder.
    rewrite H1, H2, H3. reflexivity.
  - apply (Filter_valid c "uid" "*_BUILDER"). reflexivity.
Qed.

Lemma FilterByType_rejects_witness :
  users.FilterByType
    (NewClient fixtures.testConfig (fixtures.serverWith [] []) true)
    (inl "error parsing regexp") "Personal"
  = ([], Fail (BadRequestError
                 (Text "Invalid type 'Personal'. Valid types are [personal npa builder]"))).
Proof.
  apply (FilterByType_rejects
           (NewClient fixtures.testConfig (fixtures.serverWith [] []) true)
           (inl "error parsing regexp") "Personal" "");
    discriminate.
Defined.

(** ** groups: validation *)

Lemma readOnly_search (c : Client) (sr : ldap.SearchRequest) :
  readOnly (execute c (SearchOp sr)).
Proof.
  intros k Hk. apply In_execute in Hk.
  destruct Hk as [H|[->| ->]]; [|reflexivity|reflexivity].
  destruct k; try discriminate H; reflexivity.
Qed.

Lemma readOnly_validateGroup (c : Client) (cn ou : string) :
  readOnly (trace (groups.validateGroup c cn ou)).
Proof.
  intros k Hk. apply trace_validateGroup in Hk.
  exact (readOnly_search _ _ _ Hk).
Qed.

Lemma validateGroup_outcomes (c : Client) (cn ou : string) :
  (strings.TrimSpace cn = "" \/ strings.TrimSpace ou = "" ->
   groups.validateGroup c cn ou
   = ([], Fail (BadRequestError
                  (MissingMandatoryParameter
                     ((if (strings.TrimSpace cn =? "")%string
                       then ["cn"] else [])
                      ++ (if (strings.TrimSpace ou =? "")%string
                          then ["ou"] else []))))))
  /\ (strings.TrimSpace cn <> "" -> strings.TrimSpace ou <> "" ->
      trace (groups.validateGroup c cn ou)
      = trace (organizationalUnits.GetAll c)
      /\ forall units,
           result (organizationalUnits.GetAll c) = Ok units ->
           (In ou (elems units) ->
            result (groups.validateGroup c cn ou) = Ok tt)
           /\ (~ In ou (elems units) ->
               result (groups.validateGroup c cn ou)
               = Fail (BadRequestError
                         (Text ("Invalid organizational unit '" ^ ou
                                ^ "'. Valid values are "
                                ^ fmt.showSlice (elems units)))))).
Proof.
  unfold groups.validateGroup. split.
  - intros H.
    destruct (String.eqb_spec (strings.TrimSpace cn) "");
      destruct (String.eqb_spec (strings.TrimSpace ou) "");
      try reflexivity. tauto.
  - intros Hc Ho. apply String.eqb_neq in Hc. apply String.eqb_neq in Ho.
    rewrite Hc, Ho. cbn [app List.length Nat.ltb Nat.leb].
    split.
    + rewrite trace_validateGroupOu, trace_ouGetAll. reflexivity.
    + intros units Hu. unfold groups.validateGroupOu.
      rewrite result_andThen, Hu. split; intros Hin.
      * apply EntryExists_In in Hin. rewrite Hin. reflexivity.
      * apply EntryExists_not_In in Hin. rewrite Hin. reflexivity.
Qed.

(** X13. The validation of a group fails with BadRequest, without a call,
    when the name or the unit is blank, naming the blank ones ([cn] before
    [ou]); otherwise it lists the organizational units and fails with
    BadRequest, listing them, when the unit is not one of them. *)
Theorem validateGroup_cases (c : Client) (cn ou : string) :
  (strings.TrimSpace cn = "" \/ strings.TrimSpace ou = "" ->
   groups.validateGroup c cn ou
   = ([], Fail (BadRequestError
                  (MissingMandatoryParameter
                     ((if (strings.TrimSpace cn =? "")%string
                       then ["cn"] else [])
                      ++ (if (strings.TrimSpace ou =? "")%string
                          then ["ou"] else []))))))
  /\ (strings.TrimSpace cn <> "" -> strings.TrimSpace ou <> "" ->
      trace (groups.validateGroup c cn ou)
      = trace (organizationalUnits.GetAll c)
      /\ forall units,
           result (organizationalUnits.GetAll c) = Ok units ->
           (In ou (elems units) ->
            result (groups.validateGroup c cn ou) = Ok tt)
           /\ (~ In ou (elems units) ->
               result (groups.validateGroup c cn ou)
               = Fail (BadRequestError
                         (Text ("Invalid organizational unit '" ^ ou
                                ^ "'. Valid values are "
                                ^ fmt.showSlice (elems units)))))).
Proof. exact (validateGroup_outcomes c cn ou). Qed.

Lemma validateGroup_cases_witness :
  let c := NewClient fixtures.testConfig (fixtures.serverWith [] []) true in
  groups.validateGroup c "" " "
  = ([], Fail (BadRequestError (MissingMandatoryParameter ["cn"; "ou"])))
  /\ result (groups.validateGroup c "g1" "test")
     = Fail (BadRequestError
               (Text "Invalid organizational unit 'test'. Valid values are [test-ou-1]")).
Proof.
  intros c. split.
  - apply (validateGroup_cases c "" " "). left. reflexivity.
  - destruct (validateGroup_cases c "g1" "test") as [_ H].
    destruct H as [_ H]; try discriminate.
    apply (H (Some ["test-ou-1"])); [reflexivity|].
    intros [E|[]]. discriminate E.
Defined.

(** X14. When the validation of the group fails, [Create], [Delete],
    [AddMembers] and [RemoveMembers] stop there: they make the calls of the
    validation and no other, none of which changes the directory, and
    return its error. *)
Theorem invalid_group_not_written (c : Client) (cn ou : string)
        (memberIds : list string) (e : Error) :
  result (groups.validateGroup c cn ou) = Fail e ->
  groups.Create c cn ou memberIds = (trace (groups.validateGroup c cn ou), Fail e)
  /\ groups.Delete c cn ou = (trace (groups.validateGroup c cn ou), Fail e)
  /\ groups.AddMembers c cn ou memberIds
     = (trace (groups.validateGroup c cn ou), Fail e)
  /\ groups.RemoveMembers c cn ou memberIds
     = (trace (groups.validateGroup c cn ou), Fail e)
  /\ readOnly (trace (groups.validateGroup c cn ou)).
Proof.
  intros Hv.
  assert (H : forall (f : unit -> M (Outcome unit)),
             andThen (groups.validateGroup c cn ou) f
             = (trace (groups.validateGroup c cn ou), Fail e)).
  { intros f. etransitivity; [apply M_eta|].
    rewrite trace_andThen, result_andThen, Hv, app_nil_r. reflexivity. }
  repeat split; try apply H. apply readOnly_validateGroup.
Qed.

Lemma invalid_group_not_written_witness :
  let c := NewClient fixtures.testConfig (fixtures.serverWith [] []) true in
  let invalid :=
    BadRequestError
      (Text "Invalid organizational unit 'test'. Valid values are [test-ou-1]")
  in
  result (groups.Create c "g1" "test" ["a"]) = Fail invalid
  /\ result (groups.RemoveMembers c "g1" "test" ["a"]) = Fail invalid
  /\ trace (groups.Delete c "g1" "test")
     = [BindCall "cn=root,o=company" "somePassword";
        SearchCall (organizationalUnits.getSearchRequest c);
        CloseCall].
Proof.
  intros c invalid.
  destruct (invalid_group_not_written c "g1" "test" ["a"] invalid eq_refl)
    as (H1 & H2 & _ & H4 & _).
  rewrite H1, H2, H4. repeat split.
Defined.

(** X15. What [groups.Create] adds: the entry [cn=<cn>,ou=<ou>,<group
    base>] with the object classes of a group, its name, and as members the
    qualified DNs of the identifiers in the order given, or the sentinel
    alone when none is given. *)
Theorem groups_Create_request (c : Client) (cn ou : string)
        (memberIds : list string) (ar : ldap.AddRequest) :
  In (AddCall ar) (trace (groups.Create c cn ou memberIds)) ->
  ar = ldap.mkAddRequest
         ("cn=" ^ cn ^ ",ou=" ^ ou ^ "," ^ GroupBaseDN (config c))
         [("objectClass", ["groupOfUniqueNames"; "top"]);
          ("cn", [cn]);
          ("uniqueMember",
           match memberIds with
           | [] => [sentinelDn c]
           | _ => map (memberDn c) memberIds
           end)].
Proof.
  intros Hin.
  destruct (result (groups.validateGroup c cn ou)) as [[]|e|] eqn:Hv.
  - rewrite (Create_sends c cn ou memberIds Hv), in_app_iff in Hin.
    destruct Hin as [Hin|Hin].
    + apply readOnly_validateGroup in Hin. discriminate Hin.
    + apply In_execute in Hin.
      destruct Hin as [Hin|[Hin|Hin]]; try discriminate Hin.
      inversion Hin as [Har]. clear Hin.
      assert (Hcn : (cn =? "")%string = false /\ (ou =? "")%string = false).
      { destruct (validateGroup_outcomes c cn ou) as [Hb _].
        split; apply String.eqb_neq; intros ->;
          rewrite (Hb ltac:(auto)) in Hv; discriminate Hv. }
      destruct Hcn as [Hcn Hou].
      unfold membership.createRequest, groups.getAddRequest.
      rewrite getAddRequest_members. unfold groups.getDN.
      rewrite Hcn, Hou. cbn [negb andb].
      destruct memberIds; reflexivity.
  - exfalso. unfold groups.Create in Hin.
    rewrite trace_andThen, Hv, app_nil_r in Hin.
    apply readOnly_validateGroup in Hin. discriminate Hin.
  - exfalso. unfold groups.Create in Hin.
    rewrite trace_andThen, Hv, app_nil_r in Hin.
    apply readOnly_validateGroup in Hin. discriminate Hin.
Qed.

Lemma groups_Create_request_witness :
  let c := NewClient fixtures.testConfig (fixtures.serverWith [] []) true in
  let ar := ldap.mkAddRequest "cn=g1,ou=test-ou-1,ou=projects,o=company"
              [("objectClass", ["groupOfUniqueNames"; "top"]);
               ("cn", ["g1"]);
               ("uniqueMember", ["uid=NO_SUCH_USER,ou=users,o=company"])] in
  ar = ldap.mkAddRequest
         ("cn=" ^ "g1" ^ ",ou=" ^ "test-ou-1" ^ "," ^ GroupBaseDN (config c))
         [("objectClass", ["groupOfUniqueNames"; "top"]);
          ("cn", ["g1"]);
          ("uniqueMember", [sentinelDn c])].
Proof.
  intros c ar.
  apply (groups_Create_request c "g1" "test-ou-1" [] ar).
  vm_compute. do 4 right. left. reflexivity.
Defined.

(** ** The methods that read *)

Lemma readOnly_nil : readOnly [].
Proof. intros k []. Qed.

Lemma readOnly_connect (c : Client) : readOnly (trace (connect c)).
Proof.
  intros k Hk. apply connect_session in Hk.
  destruct k; try discriminate Hk; reflexivity.
Qed.

Lemma readOnly_usersFilter (c : Client) (key value : string) :
  readOnly (trace (users.Filter c key value)).
Proof.
  destruct (users.validateFilter key value) as [[]|e|] eqn:Hv.
  - rewrite (proj1 (Filter_valid c key value Hv)). apply readOnly_search.
  - unfold users.Filter, andThen, bind. cbn. rewrite Hv. apply readOnly_nil.
  - unfold users.Filter, andThen, bind. cbn. rewrite Hv. apply readOnly_nil.
Qed.

Lemma readOnly_usersGetAll (c : Client) : readOnly (trace (users.GetAll c)).
Proof. rewrite (proj1 (users_GetAll_parsed c)). apply readOnly_search. Qed.

(** X16. The methods that read make no call that changes the directory:
    the listing of the organizational units, [Get], [GetAll] and
    [GetFilter] of the groups, [GetAll], [Get], [Filter], [FilterByStatus]
    and [FilterByType] of the users, and [Authenticate]. *)
Theorem reads_never_write (c : Client) :
  readOnly (trace (organizationalUnits.GetAll c))
  /\ (forall cn ou, readOnly (trace (groups.Get c cn ou)))
  /\ readOnly (trace (groups.GetAll c))
  /\ (forall searchFilter, readOnly (trace (groups.GetFilter c searchFilter)))
  /\ readOnly (trace (users.GetAll c))
  /\ (forall uid, readOnly (trace (users.Get c uid)))
  /\ (forall key value, readOnly (trace (users.Filter c key value)))
  /\ (forall status, readOnly (trace (users.FilterByStatus c status)))
  /\ (forall compiled userType,
        readOnly (trace (users.FilterByType c compiled userType)))
  /\ readOnly (trace (users.Authenticate c)).
Proof.
  assert (Hget : forall cn ou, readOnly (trace (groups.Get c cn ou))).
  { intros cn ou k Hk. apply trace_groupsGet in Hk.
    destruct Hk as [Hk|Hk]; exact (readOnly_search _ _ _ Hk). }
  repeat split.
  - rewrite trace_ouGetAll. apply readOnly_search.
  - exact Hget.
  - apply Hget.
  - intros searchFilter. unfold groups.GetFilter.
    rewrite trace_andThen_silent; [apply readOnly_search|].
    intros res. destruct (groups.parseSearchResult res); reflexivity.
  - apply readOnly_usersGetAll.
  - intros uid.
    destruct (String.eqb_spec (strings.TrimSpace uid) "") as [E|N].
    + rewrite (proj1 (proj1 (uid_validation c uid) E)).
      apply readOnly_nil.
    + rewrite (proj1 (proj2 (uid_validation c uid) N)).
      apply readOnly_search.
  - apply readOnly_usersFilter.
  - intros status. unfold users.FilterByStatus. rewrite trace_andThen.
    cbn [trace ret fst result snd app].
    destruct (users.validateStatus status);
      [apply readOnly_usersFilter | apply readOnly_nil | apply readOnly_nil].
  - intros compiled userType. unfold users.FilterByType.
    destruct (userType =? users.UserTypePersonal)%string;
      [|destruct (userType =? users.UserTypeBuilder)%string;
        [|destruct (userType =? users.UserTypeNPA)%string]].
    + unfold users.getPersonalAccounts.
      destruct compiled; [apply readOnly_nil|].
      rewrite trace_andThen_silent by reflexivity.
      apply readOnly_usersGetAll.
    + apply readOnly_usersFilter.
    + unfold users.getNPAAccounts.
      destruct compiled; [apply readOnly_nil|].
      rewrite trace_andThen_silent by reflexivity.
      apply readOnly_usersGetAll.
    + apply readOnly_nil.
  - apply readOnly_connect.
Qed.

(** X17. [Authenticate] dials and binds and does nothing else: it sends no
    search and never closes the connection; it returns no error exactly
    when the configuration is complete and neither the dial (made unless in
    unit-testing mode) nor the bind fails. *)
Theorem Authenticate_binds_only (c : Client) :
  (forall call, In call (trace (users.Authenticate c)) ->
                isSession call = true)
  /\ closes (trace (users.Authenticate c)) = 0
  /\ (result (users.Authenticate c) = None
      <-> missingConfiguration (config c) = []
          /\ (unitTesting c = true \/ dialError c = None)
          /\ bindError c = None)
  /\ (result (users.Authenticate c) = None ->
      trace (users.Authenticate c)
      = (if unitTesting c then [] else [dialCall c]) ++ [bindCall c]).
Proof.
  unfold users.Authenticate.
  split; [exact (connect_session c)|].
  split; [exact (connect_closes_nothing c)|].
  rewrite connect_cases.
  destruct (missingConfiguration (config c)) as [|n ns].
  - destruct (unitTesting c); cbn.
    + destruct (bindError c); cbn; split; try reflexivity;
        intuition congruence.
    + destruct (dialError c); cbn;
        [|destruct (bindError c); cbn]; split; try reflexivity;
        intuition congruence.
  - cbn. split; intuition congruence.
Qed.

Lemma Authenticate_binds_only_witness :
  let c := NewClient fixtures.testConfig (fixtures.serverWith [] []) false in
  trace (users.Authenticate c)
  = [DialCall true "ldap.company.com:636";
     BindCall "cn=root,o=company" "somePassword"].
Proof.
  intros c.
  apply (proj2 (proj2 (proj2 (Authenticate_binds_only c)))).
  reflexivity.
Defined.

(** ** groups: the unit read back from a DN *)

Lemma Contains_cons (ch : ascii) (s substr : string) :
  strings.Contains (String ch s) substr = false ->
  String.prefix substr (String ch s) = false
  /\ strings.Contains s substr = false.
Proof.
  rewrite (Contains_unfold (String ch s)).
  destruct (String.prefix substr (String ch s)); [discriminate|]. auto.
Qed.

Lemma Split_piece (a rest : string) :
  strings.Contains a "," = false ->
  strings.Split (a ^ String "," rest) "," = a :: strings.Split rest ",".
Proof.
  induction a as [|ch a IH]; intros H.
  - reflexivity.
  - apply Contains_cons in H. destruct H as [Hp Hc].
    cbn [String.append strings.Split].
    destruct (Ascii.eqb_spec ch ",") as [->|Hne].
    + cbn in Hp. destruct a; discriminate Hp.
    + rewrite (IH Hc). reflexivity.
Qed.

Lemma Split_whole (a : string) :
  strings.Contains a "," = false -> strings.Split a "," = [a].
Proof.
  induction a as [|ch a IH]; intros H; [reflexivity|].
  apply Contains_cons in H. destruct H as [Hp Hc].
  cbn [strings.Split].
  destruct (Ascii.eqb_spec ch ",") as [->|Hne].
  - cbn in Hp. destruct a; discriminate Hp.
  - rewrite (IH Hc). reflexivity.
Qed.

Lemma removeFrom_absent (old s : string) :
  strings.Contains s old = false -> strings.removeFrom 0 old s = s.
Proof.
  induction s as [|ch s IH]; intros H; [reflexivity|].
  apply Contains_cons in H. destruct H as [Hp Hc].
  cbn [strings.removeFrom]. rewrite Hp, (IH Hc). reflexivity.
Qed.

Lemma prefix_String (a b : ascii) (p s : string) :
  String.prefix (String a p) (String b s)
  = if ascii_dec a b then String.prefix p s else false.
Proof. reflexivity. Qed.

Lemma prefix_empty (s : string) : String.prefix "" s = true.
Proof. destruct s; reflexivity. Qed.

Lemma Contains_prefixed (p s : string) :
  strings.Contains p "," = false -> strings.Contains s "," = false ->
  strings.Contains (p ^ s) "," = false.
Proof.
  induction p as [|ch p IH]; intros Hp Hs; [exact Hs|].
  apply Contains_cons in Hp. destruct Hp as [Hpre Hc].
  cbn [String.append]. rewrite Contains_unfold.
  rewrite prefix_String in Hpre |- *.
  destruct (ascii_dec "," ch) as [E|N].
  - rewrite prefix_empty in Hpre. discriminate Hpre.
  - now apply IH.
Qed.

Lemma append_assoc (a b d : string) : (a ^ b) ^ d = a ^ b ^ d.
Proof. induction a; cbn; [reflexivity | now rewrite IHa]. Qed.

Lemma removeFrom_ou (ou : string) :
  strings.removeFrom 0 "ou=" ("ou=" ^ ou) = strings.removeFrom 0 "ou=" ou.
Proof.
  change ("ou=" ^ ou) with (String "o" (String "u" (String "=" ou))).
  cbn [strings.removeFrom].
  assert (H : String.prefix "ou=" (String "o" (String "u" (String "=" ou)))
              = true)
    by (apply prefix_append; exists ou; reflexivity).
  rewrite H. reflexivity.
Qed.

(** X18. An entry named as [getDN] names a group, with a name and a unit
    that have no comma and a unit that does not contain [ou=], is parsed to
    a group of that unit, with its DN, the first value of [cn] as name and
    the values of [uniqueMember] as members. *)
Theorem parse_group_of_getDN (c : Client) (cn ou : string)
        (attrs : list ldap.EntryAttribute) :
  cn <> "" -> ou <> "" ->
  strings.Contains cn "," = false ->
  strings.Contains ou "," = false ->
  strings.Contains ou "ou=" = false ->
  let entry := ldap.mkEntry (groups.getDN c cn ou) attrs in
  groups.parseEntry entry
  = Some (groups.mkGroup
            ("cn=" ^ cn ^ ",ou=" ^ ou ^ "," ^ GroupBaseDN (config c))
            ou
            (ldap.GetAttributeValue entry "cn")
            (ldap.GetAttributeValues entry "uniqueMember"))
  /\ groups.parseSearchResult (ldap.mkSearchResult [entry])
     = Ok (Some [groups.mkGroup
                   ("cn=" ^ cn ^ ",ou=" ^ ou ^ "," ^ GroupBaseDN (config c))
                   ou
                   (ldap.GetAttributeValue entry "cn")
                   (ldap.GetAttributeValues entry "uniqueMember")]).
Proof.
  intros Hcn Hou Hc1 Hc2 Hc3 entry.
  assert (Hdn : groups.getDN c cn ou
                = ("cn=" ^ cn) ^ String "," (("ou=" ^ ou)
                                             ^ String "," (GroupBaseDN (config c)))).
  { unfold groups.getDN.
    apply String.eqb_neq in Hcn. apply String.eqb_neq in Hou.
    rewrite Hcn, Hou. cbn [negb andb].
    unfold CommonNameAttr, OrganizationalUnitAttr.
    rewrite !append_assoc. reflexivity. }
  assert (Hparse : groups.parseEntry entry
                   = Some (groups.mkGroup
                             ("cn=" ^ cn ^ ",ou=" ^ ou ^ ","
                              ^ GroupBaseDN (config c))
                             ou
                             (ldap.GetAttributeValue entry "cn")
                             (ldap.GetAttributeValues entry "uniqueMember"))).
  { unfold groups.parseEntry. subst entry. cbn [ldap.DN].
    rewrite Hdn at 1.
    rewrite Split_piece
      by (apply (Contains_prefixed "cn=" cn); [reflexivity | exact Hc1]).
    rewrite Split_piece
      by (apply (Contains_prefixed "ou=" ou); [reflexivity | exact Hc2]).
    cbn [nth_error].
    unfold strings.RemoveAll, OrganizationalUnitAttrValuePrefix,
      OrganizationalUnitAttr.
    change ("ou" ^ "=") with "ou=".
    rewrite removeFrom_ou, (removeFrom_absent "ou=" ou Hc3).
    rewrite Hdn at 1. rewrite !append_assoc. reflexivity. }
  split; [exact Hparse|].
  unfold groups.parseSearchResult. cbn [ldap.Entries groups.parseEntries].
  rewrite Hparse. reflexivity.
Qed.

Lemma parse_group_of_getDN_witness :
  let c := NewClient fixtures.testConfig (fixtures.serverWith [] []) true in
  groups.parseEntry
    (ldap.mkEntry (groups.getDN c "g1" "test-ou-1")
       [ldap.mkEntryAttribute "cn" ["g1"];
        ldap.mkEntryAttribute "uniqueMember" ["uid=A,ou=users,o=company"]])
  = Some (groups.mkGroup "cn=g1,ou=test-ou-1,ou=projects,o=company"
            "test-ou-1" "g1" ["uid=A,ou=users,o=company"]).
Proof.
  intros c.
  apply (parse_group_of_getDN c "g1" "test-ou-1");
    try discriminate; reflexivity.
Defined.

(** X19. The parsing of a search result for groups takes the second of the
    pieces of each DN between commas: one entry whose DN has no comma makes
    it panic, whatever the other entries are. *)
Theorem parse_group_without_comma (res : ldap.SearchResult)
        (entry : ldap.Entry) :
  In entry (ldap.Entries res) ->
  strings.Contains (ldap.DN entry) "," = false ->
  groups.parseSearchResult res = Panic.
Proof.
  intros Hin Hc. unfold groups.parseSearchResult.
  generalize (@None (list groups.Group)).
  induction (ldap.Entries res) as [|e entries IH]; intros acc;
    [destruct Hin|].
  cbn [groups.parseEntries].
  destruct Hin as [->|Hin].
  - unfold groups.parseEntry. rewrite (Split_whole _ Hc). reflexivity.
  - destruct (groups.parseEntry e); [apply IH, Hin | reflexivity].
Qed.

Lemma parse_group_without_comma_witness :
  groups.parseSearchResult
    (ldap.mkSearchResult
       [fixtures.groupEntry "g1" "test-ou-1" [];
        ldap.mkEntry "o=company" []])
  = Panic.
Proof.
  apply (parse_group_without_comma _ (ldap.mkEntry "o=company" []));
    [right; left; reflexivity | reflexivity].
Defined.

(** ** The members after AddMembers and RemoveMembers *)

(** X20. After [AddMembers] the group holds its former members and the
    qualified DNs of the identifiers, the sentinel excepted when the former
    members and the DNs to add are two or more together. *)
Theorem afterAddMembers_holds (c : Client) (cn ou : string)
        (memberIds members : list string) (x : string) :
  In x (membership.afterAddMembers c cn ou memberIds members)
  <-> (In x members \/ In x (map (memberDn c) memberIds))
      /\ (2 <= List.length members
               + List.length (toAdd c members memberIds) ->
          x <> sentinelDn c).
Proof.
  rewrite afterAddMembers_members. cbv zeta.
  assert (Hadd : In x (directory.addValues (toAdd c members memberIds) members)
                 <-> In x members \/ In x (map (memberDn c) memberIds)).
  { rewrite In_addValues, In_toAdd.
    destruct (in_dec string_dec x members); tauto. }
  destruct (Nat.leb_spec 2 (List.length members
                            + List.length (toAdd c members memberIds))).
  - rewrite In_deleteValues, Hadd. simpl. intuition congruence.
  - rewrite Hadd. intuition lia.
Qed.

(** X21. After [RemoveMembers] the group holds its former members other
    than the qualified DNs of the identifiers, and the sentinel when as
    many DNs were taken out of the request as the group had members. *)
Theorem afterRemoveMembers_holds (c : Client) (cn ou : string)
        (memberIds members : list string) (x : string) :
  In x (membership.afterRemoveMembers c cn ou memberIds members)
  <-> (In x members /\ ~ In x (map (memberDn c) memberIds))
      \/ (x = sentinelDn c
          /\ List.length members
             = List.length (toRemove c members memberIds)).
Proof.
  rewrite afterRemoveMembers_members. cbv zeta.
  assert (Hdel : In x (directory.deleteValues (toRemove c members memberIds)
                         members)
                 <-> In x members /\ ~ In x (map (memberDn c) memberIds)).
  { rewrite In_deleteValues, In_toRemove. tauto. }
  destruct (Z.eqb_spec (Z.of_nat (List.length members)
                        - Z.of_nat (List.length
                                      (toRemove c members memberIds))) 0).
  - rewrite In_addValues, Hdel. simpl. intuition (try lia; try congruence).
  - rewrite Hdel. intuition lia.
Qed.

Lemma toRemove_all (c : Client) (memberIds members : list string) :
  NoDup members -> NoDup (map (memberDn c) memberIds) ->
  (forall m, In m members -> In m (map (memberDn c) memberIds)) ->
  List.length (toRemove c members memberIds) = List.length members.
Proof.
  intros Hm Hd Hall.
  assert (NoDup (toRemove c members memberIds)) by (apply NoDup_filter, Hd).
  assert (incl (toRemove c members memberIds) members)
    by (intros x Hx; apply In_toRemove in Hx; tauto).
  assert (incl members (toRemove c members memberIds))
    by (intros x Hx; apply In_toRemove; auto).
  pose proof (NoDup_incl_length H H0).
  pose proof (NoDup_incl_length Hm H1). lia.
Qed.

Lemma deleteValues_all (vals members : list string) :
  (forall m, In m members -> In m vals) ->
  directory.deleteValues vals members = [].
Proof.
  intros Hall.
  destruct (directory.deleteValues vals members) as [|x l] eqn:E;
    [reflexivity|exfalso].
  assert (Hx : In x (directory.deleteValues vals members))
    by (rewrite E; now left).
  apply In_deleteValues in Hx. destruct Hx as [Hin Hn]. auto.
Qed.

Lemma removing_all_members (c : Client) (cn ou : string)
      (memberIds members : list string) :
  NoDup members -> NoDup (map (memberDn c) memberIds) ->
  (forall m, In m members -> In m (map (memberDn c) memberIds)) ->
  membership.afterRemoveMembers c cn ou memberIds members = [sentinelDn c].
Proof.
  intros Hm Hd Hall. rewrite afterRemoveMembers_members. cbv zeta.
  rewrite (toRemove_all c memberIds members Hm Hd Hall), Z.sub_diag.
  cbn [Z.eqb].
  rewrite deleteValues_all; [reflexivity|].
  intros m Hin. apply In_toRemove. auto.
Qed.

(** X22. [RemoveMembers] that names every member of the group, each once,
    leaves exactly the sentinel. *)
Theorem RemoveMembers_all_leaves_sentinel (c : Client) (cn ou : string)
        (memberIds members : list string) :
  NoDup members -> NoDup (map (memberDn c) memberIds) ->
  (forall m, In m members -> In m (map (memberDn c) memberIds)) ->
  membership.afterRemoveMembers c cn ou memberIds members = [sentinelDn c].
Proof. apply removing_all_members. Qed.

Lemma RemoveMembers_all_leaves_sentinel_witness :
  let c := NewClient fixtures.testConfig (fixtures.serverWith [] []) true in
  membership.afterRemoveMembers c "g1" "test-ou-1" ["b"; "a"; "c"]
    ["uid=A,ou=users,o=company"; "uid=B,ou=users,o=company"]
  = ["uid=NO_SUCH_USER,ou=users,o=company"].
Proof.
  intros c.
  apply (RemoveMembers_all_leaves_sentinel c "g1" "test-ou-1" ["b"; "a"; "c"]).
  - repeat constructor; simpl; intuition discriminate.
  - repeat constructor; simpl; intuition discriminate.
  - simpl. intuition.
Defined.

(** X23. Removing the same members a second time changes nothing, when
    the identifiers name no member twice. *)
Theorem RemoveMembers_idempotent (c : Client) (cn ou : string)
        (memberIds members : list string) :
  NoDup members -> NoDup (map (memberDn c) memberIds) ->
  membership.afterRemoveMembers c cn ou memberIds
    (membership.afterRemoveMembers c cn ou memberIds members)
  = membership.afterRemoveMembers c cn ou memberIds members.
Proof.
  intros Hm Hd.
  set (s := sentinelDn c).
  set (gone := toRemove c members memberIds).
  set (kept := directory.deleteValues gone members).
  assert (Hkept : forall x, In x kept ->
                            In x members /\ ~ In x (map (memberDn c) memberIds)).
  { intros x Hx. unfold kept in Hx. apply In_deleteValues in Hx.
    unfold gone in Hx. rewrite In_toRemove in Hx. tauto. }
  assert (Hgone : NoDup gone) by (apply NoDup_filter, Hd).
  assert (Hincl : incl gone members)
    by (intros x Hx; apply In_toRemove in Hx; tauto).
  rewrite (afterRemoveMembers_members c cn ou memberIds members).
  cbv zeta. fold gone kept s.
  destruct (Z.eqb_spec (Z.of_nat (List.length members)
                        - Z.of_nat (List.length gone)) 0) as [Hz|Hz].
  - (* every member was removed: the group is the sentinel alone *)
    assert (Hk : kept = []).
    { apply deleteValues_all. intros m Hin.
      assert (Hl : List.length members <= List.length gone) by lia.
      apply (NoDup_length_incl Hgone Hl Hincl). exact Hin. }
    rewrite Hk. change (directory.addValues [s] []) with [s].
    destruct (in_dec string_dec s (map (memberDn c) memberIds)) as [Hs|Hs].
    + apply removing_all_members; [repeat constructor; intros [] | exact Hd |].
      intros m [<-|[]]. exact Hs.
    + assert (Hnone : toRemove c [s] memberIds = []).
      { destruct (toRemove c [s] memberIds) as [|x l] eqn:E; [reflexivity|].
        assert (Hx : In x (toRemove c [s] memberIds))
          by (rewrite E; now left).
        apply In_toRemove in Hx. destruct Hx as [Hd' [<-|[]]]. tauto. }
      rewrite (afterRemoveMembers_members c cn ou memberIds [s]).
      cbv zeta. rewrite Hnone, deleteValues_none. reflexivity.
  - (* some member is left, and none of those is in the request *)
    assert (Hnone : toRemove c kept memberIds = []).
    { destruct (toRemove c kept memberIds) as [|x l] eqn:E; [reflexivity|].
      assert (Hx : In x (toRemove c kept memberIds)) by (rewrite E; now left).
      apply In_toRemove in Hx. destruct Hx as [Hd' Hin].
      apply Hkept in Hin. tauto. }
    rewrite (afterRemoveMembers_members c cn ou memberIds kept).
    cbv zeta. rewrite Hnone, deleteValues_none. cbn [List.length].
    rewrite Z.sub_0_r.
    destruct (Z.eqb_spec (Z.of_nat (List.length kept)) 0) as [E|N];
      [|reflexivity].
    exfalso. assert (kept = []) by (destruct kept; [reflexivity|discriminate]).
    assert (Hin : incl members gone).
    { intros x Hx. destruct (in_dec string_dec x gone) as [Hg|Hg];
        [exact Hg|].
      assert (In x kept) by (apply In_deleteValues; now split).
      rewrite H in H0. destruct H0. }
    pose proof (NoDup_incl_length Hm Hin).
    pose proof (NoDup_incl_length Hgone Hincl). lia.
Qed.

Lemma RemoveMembers_idempotent_witness :
  let c := NewClient fixtures.testConfig (fixtures.serverWith [] []) true in
  membership.afterRemoveMembers c "g1" "test-ou-1" ["a"; "NO_SUCH_USER"]
    (membership.afterRemoveMembers c "g1" "test-ou-1" ["a"; "NO_SUCH_USER"]
       ["uid=A,ou=users,o=company"])
  = membership.afterRemoveMembers c "g1" "test-ou-1" ["a"; "NO_SUCH_USER"]
      ["uid=A,ou=users,o=company"].
Proof.
  intros c.
  apply (RemoveMembers_idempotent c "g1" "test-ou-1" ["a"; "NO_SUCH_USER"]
           ["uid=A,ou=users,o=company"]).
  - repeat constructor. intros [].
  - repeat constructor; simpl; intuition discriminate.
Defined.

(** ** Adding members and removing them again *)

Lemma filter_all {A} (p : A -> bool) (l : list A) :
  (forall x, In x l -> p x = true) -> filter p l = l.
Proof.
  induction l as [|a l IH]; intros H; cbn; [reflexivity|].
  rewrite (H a) by now left. f_equal. apply IH. intros x Hx. apply H.
  now right.
Qed.

Lemma toAdd_fresh (c : Client) (members memberIds : list string) :
  (forall x, In x (map (memberDn c) memberIds) -> ~ In x members) ->
  toAdd c members memberIds = map (memberDn c) memberIds.
Proof.
  intros H. unfold toAdd. apply filter_all. intros x Hx.
  apply negb_true_iff.
  change (existsb (String.eqb x) members)
    with (slicelib.EntryExists members x).
  apply EntryExists_not_In. now apply H.
Qed.

Lemma toRemove_present (c : Client) (members memberIds : list string) :
  (forall x, In x (map (memberDn c) memberIds) -> In x members) ->
  toRemove c members memberIds = map (memberDn c) memberIds.
Proof.
  intros H. unfold toRemove. apply filter_all. intros x Hx.
  change (existsb (String.eqb x) members)
    with (slicelib.EntryExists members x).
  apply EntryExists_In. now apply H.
Qed.

Lemma addValues_fresh (vals members : list string) :
  NoDup vals -> (forall x, In x vals -> ~ In x members) ->
  directory.addValues vals members = members ++ vals.
Proof.
  unfold directory.addValues. revert members.
  induction vals as [|v vals IH]; intros members Hnd Hfresh; cbn.
  - symmetry. apply app_nil_r.
  - inversion Hnd as [|? ? Hv Hnd']; subst.
    unfold directory.addValue at 2.
    assert (Hn : slicelib.EntryExists members v = false)
      by (apply EntryExists_not_In, Hfresh; now left).
    rewrite Hn, IH; [now rewrite <- app_assoc | exact Hnd' |].
    intros x Hx Hin. apply in_app_iff in Hin.
    destruct Hin as [Hin|[<-|[]]].
    + apply (Hfresh x); [now right | exact Hin].
    + contradiction.
Qed.

(** X24. Adding new members to a group and removing the same ones again
    gives the group back, when the identifiers name pairwise different DNs
    that are neither members nor the sentinel, and the group holds either
    the sentinel alone or no sentinel. *)
Theorem add_then_remove_restores (c : Client) (cn ou : string)
        (memberIds members : list string) :
  NoDup (map (memberDn c) memberIds) ->
  (forall x, In x (map (memberDn c) memberIds) -> ~ In x members) ->
  ~ In (sentinelDn c) (map (memberDn c) memberIds) ->
  members <> [] ->
  members = [sentinelDn c] \/ ~ In (sentinelDn c) members ->
  membership.afterRemoveMembers c cn ou memberIds
    (membership.afterAddMembers c cn ou memberIds members)
  = members.
Proof.
  intros Hd Hfresh Hs Hne Hcase.
  set (D := map (memberDn c) memberIds) in *.
  set (s := sentinelDn c) in *.
  assert (HdelD : directory.deleteValues D D = [])
    by (apply deleteValues_all; auto).
  rewrite afterAddMembers_members. cbv zeta.
  rewrite (toAdd_fresh c members memberIds Hfresh). fold D s.
  rewrite (addValues_fresh D members Hd Hfresh).
  destruct Hcase as [->|Hnos].
  - (* the sentinel alone *)
    destruct D as [|d D'] eqn:ED.
    + cbn [List.length Nat.add Nat.leb app].
      rewrite afterRemoveMembers_members. cbv zeta.
      rewrite toRemove_present by (fold D; rewrite ED; intros x []).
      fold D. rewrite ED. rewrite deleteValues_none. reflexivity.
    + replace (2 <=? List.length [s] + List.length (d :: D')) with true
        by (symmetry; apply Nat.leb_le; cbn; lia).
      rewrite deleteValues_app, deleteValues_self.
      rewrite deleteValues_absent
        by (intros x [<-|[]]; exact Hs).
      cbn [app].
      rewrite afterRemoveMembers_members. cbv zeta.
      rewrite toRemove_present by (fold D; rewrite ED; auto).
      fold D. rewrite ED, HdelD, Z.sub_diag. reflexivity.
  - (* no sentinel among the members *)
    assert (Hadded : (if 2 <=? List.length members + List.length D
                      then directory.deleteValues [s] (members ++ D)
                      else members ++ D) = members ++ D).
    { destruct (2 <=? _); [|reflexivity].
      apply deleteValues_absent. intros x [<-|[]] Hin.
      apply in_app_iff in Hin. tauto. }
    rewrite Hadded, afterRemoveMembers_members. cbv zeta.
    rewrite toRemove_present
      by (intros x Hx; apply in_app_iff; now right).
    fold D. rewrite deleteValues_app, HdelD, app_nil_r.
    rewrite deleteValues_absent by (intros x Hx Hin; exact (Hfresh x Hx Hin)).
    rewrite length_app.
    destruct (Z.eqb_spec (Z.of_nat (List.length members + List.length D)
                          - Z.of_nat (List.length D)) 0) as [E|N];
      [|reflexivity].
    assert (List.length members <> 0)
      by (destruct members; [contradiction | discriminate]).
    lia.
Qed.

Lemma add_then_remove_restores_witness :
  let c := NewClient fixtures.testConfig (fixtures.serverWith [] []) true in
  membership.afterRemoveMembers c "g1" "test-ou-1" ["a"; "b"]
    (membership.afterAddMembers c "g1" "test-ou-1" ["a"; "b"]
       ["uid=NO_SUCH_USER,ou=users,o=company"])
  = ["uid=NO_SUCH_USER,ou=users,o=company"].
Proof.
  intros c.
  apply (add_then_remove_restores c "g1" "test-ou-1" ["a"; "b"]
           ["uid=NO_SUCH_USER,ou=users,o=company"]).
  - change (NoDup ["uid=A,ou=users,o=company"; "uid=B,ou=users,o=company"]).
    repeat constructor; simpl; intuition discriminate.
  - change (forall x,
               In x ["uid=A,ou=users,o=company"; "uid=B,ou=users,o=company"] ->
               ~ In x ["uid=NO_SUCH_USER,ou=users,o=company"]).
    intros x [<-|[<-|[]]] [H|[]]; discriminate H.
  - change (~ In "uid=NO_SUCH_USER,ou=users,o=company"
              ["uid=A,ou=users,o=company"; "uid=B,ou=users,o=company"]).
    intros [H|[H|[]]]; discriminate H.
  - discriminate.
  - left. reflexivity.
Defined.

(** X25. A group created by [Create] keeps at least one member through any
    sequence of [AddMembers] and [RemoveMembers] in which no removal names
    a member twice. *)
Theorem created_group_keeps_a_member (c : Client) (cn ou : string)
        (memberIds : list string) (ops : list membership.MemberOp) :
  Forall (distinctRemovals c) ops ->
  1 <= List.length (membership.afterOps c cn ou memberIds ops)
  /\ NoDup (membership.afterOps c cn ou memberIds ops).
Proof.
  intros Hops. split.
  - now apply afterOps_nonempty.
  - unfold membership.afterOps.
    pose proof (afterCreate_NoDup c cn ou memberIds) as H.
    revert H. generalize (membership.afterCreate c cn ou memberIds).
    clear Hops. induction ops as [|op ops IH]; intros members Hnd; simpl;
      [exact Hnd|].
    apply IH. now apply afterOp_NoDup.
Qed.

Lemma created_group_keeps_a_member_witness :
  let c := NewClient fixtures.testConfig (fixtures.serverWith [] []) true in
  1 <= List.length
         (membership.afterOps c "g1" "test-ou-1" []
            [membership.AddMembersOp ["a"; "b"; "a"];
             membership.RemoveMembersOp ["b"; "a"];
             membership.RemoveMembersOp ["c"]])
  /\ NoDup (membership.afterOps c "g1" "test-ou-1" []
              [membership.AddMembersOp ["a"; "b"; "a"];
               membership.RemoveMembersOp ["b"; "a"];
               membership.RemoveMembersOp ["c"]]).
Proof.
  intros c.
  apply (created_group_keeps_a_member c "g1" "test-ou-1" []).
  repeat constructor; simpl; intuition discriminate.
Defined.

(** ** groups: errors of the directory *)

(** X26. The listing of the organizational units gives, for a search that
    succeeds, the first value of [ou] of each entry, in the order of the
    answer (the empty string for an entry without one), and nil when there
    is no entry; it fails with the error of the search otherwise. *)
Theorem organizationalUnits_listed (c : Client) :
  trace (organizationalUnits.GetAll c)
  = execute c
      (SearchOp
         (ldap.mkSearchRequest (GroupBaseDN (config c)) ldap.ScopeSingleLevel
            ldap.NeverDerefAliases 0 0 false
            "(&(objectClass=organizationalUnit))" ["ou"]))
  /\ result (organizationalUnits.GetAll c)
     = match result (doLDAPSearch c (organizationalUnits.getSearchRequest c))
       with
       | Ok res =>
           Ok (match ldap.Entries res with
               | [] => None
               | entries =>
                   Some (map (fun e => ldap.GetAttributeValue e "ou") entries)
               end)
       | Fail e => Fail e
       | Panic => Panic
       end.
Proof.
  split; [apply trace_ouGetAll|].
  unfold organizationalUnits.GetAll. rewrite result_andThen.
  destruct (result (doLDAPSearch c _)) as [res|e|]; try reflexivity.
  cbn [result ret snd]. f_equal.
  unfold organizationalUnits.parseSearchResult.
  assert (H : forall entries acc,
             fold_left
               (fun organizationalUnits entry =>
                  append organizationalUnits
                         (ldap.GetAttributeValue entry OrganizationalUnitAttr))
               entries acc
             = match entries with
               | [] => acc
               | _ => Some (elems acc
                            ++ map (fun e => ldap.GetAttributeValue e "ou")
                                   entries)
               end).
  { induction entries as [|e entries IH]; intros acc; [reflexivity|].
    cbn [fold_left]. rewrite IH.
    destruct entries; cbn; [reflexivity|]. now rewrite <- app_assoc. }
  rewrite H. destruct (ldap.Entries res); reflexivity.
Qed.

(** X27. When the directory answers the search or the deletion of a group
    with an error that translates to NotFound, [Get] and [Delete] of the
    groups return NotFound with a message that names the cn and the ou
    asked for. *)
Theorem group_not_found_names_cn_ou (c : Client) (cn ou err : string) :
  connected c = true ->
  Status (handleLdapError err) = 404 ->
  let notFound :=
    NotFoundError
      (Text ("Group with cn = '" ^ cn ^ "' and ou = '" ^ ou
             ^ "' was not found")) in
  (ou = "" \/ result (groups.validateGroupOu c ou) = Ok tt ->
   rejection c (SearchOp (groups.getSearchRequest c cn ou groupSearchFilter))
   = Some err ->
   result (groups.Get c cn ou) = Fail notFound)
  /\ (result (groups.validateGroup c cn ou) = Ok tt ->
      rejection c (DeleteOp (groups.getDeleteRequest c cn ou)) = Some err ->
      result (groups.Delete c cn ou) = Fail notFound).
Proof.
  intros Hc Hs notFound. subst notFound. split.
  - intros Hv Hr. unfold groups.Get. rewrite result_andThen.
    assert (Hv' : result (if negb (ou =? "")%string
                          then groups.validateGroupOu c ou
                          else ret (Ok tt)) = Ok tt).
    { destruct (String.eqb_spec ou "") as [E|N]; [reflexivity|].
      destruct Hv as [Hv|Hv]; [contradiction | exact Hv]. }
    rewrite Hv', result_bind.
    destruct (doLDAP_connected c
                (SearchOp (groups.getSearchRequest c cn ou groupSearchFilter))
                Hc) as [_ He].
    rewrite Hr in He. apply errorOf_search in He. rewrite He, Hs.
    reflexivity.
  - intros Hv Hr. unfold groups.Delete. rewrite result_andThen, Hv.
    rewrite result_bind.
    destruct (doLDAP_connected c (DeleteOp (groups.getDeleteRequest c cn ou))
                Hc) as [_ He].
    rewrite Hr in He. apply errorOf_delete in He. rewrite He, Hs.
    reflexivity.
Qed.

Lemma group_not_found_names_cn_ou_witness :
  let c := NewClient fixtures.testConfig (fixtures.missingServer []) true in
  let notFound :=
    NotFoundError
      (Text "Group with cn = 'g1' and ou = 'test-ou-1' was not found") in
  result (groups.Get c "g1" "test-ou-1") = Fail notFound
  /\ result (groups.Delete c "g1" "test-ou-1") = Fail notFound.
Proof.
  intros c notFound.
  destruct (group_not_found_names_cn_ou c "g1" "test-ou-1"
              fixtures.noSuchObject eq_refl eq_refl) as [H1 H2].
  split.
  - apply H1; [right|]; reflexivity.
  - apply H2; reflexivity.
Defined.

(** X28. [groups.Create] returns Conflict, naming the cn and the ou, when
    the directory answers the add with an error that translates to
    BadRequest (the entry exists). With an incomplete configuration it
    fails in the validation of the unit instead, with the BadRequest that
    names the missing fields, and makes no call. *)
Theorem groups_Create_conflict (c : Client) (cn ou : string)
        (memberIds : list string) :
  (forall err,
     connected c = true ->
     result (groups.validateGroup c cn ou) = Ok tt ->
     rejection c (AddOp (membership.createRequest c cn ou memberIds))
     = Some err ->
     Status (handleLdapError err) = 400 ->
     result (groups.Create c cn ou memberIds)
     = Fail (ConflictError
               (Text ("Group with cn = '" ^ cn ^ "' and ou = '" ^ ou
                      ^ "' already exists"))))
  /\ (missingConfiguration (config c) <> [] ->
      strings.TrimSpace cn <> "" -> strings.TrimSpace ou <> "" ->
      groups.Create c cn ou memberIds
      = ([], Fail (BadRequestError
                     (MissingMandatoryConfiguration
                        (missingConfiguration (config c)))))).
Proof.
  split.
  - intros err Hc Hv Hr Hs. unfold groups.Create.
    rewrite result_andThen, Hv, result_bind.
    destruct (doLDAP_connected c
                (AddOp (membership.createRequest c cn ou memberIds)) Hc)
      as [_ He].
    rewrite Hr in He. apply errorOf_add in He.
    unfold membership.createRequest in He. rewrite He, Hs. reflexivity.
  - intros Hm Hcn Hou.
    assert (Hs : doLDAPSearch c (organizationalUnits.getSearchRequest c)
                 = ([], Fail (BadRequestError
                                (MissingMandatoryConfiguration
                                   (missingConfiguration (config c)))))).
    { unfold doLDAPSearch. rewrite connect_cases.
      destruct (missingConfiguration (config c)); [contradiction|reflexivity]. }
    unfold groups.Create, groups.validateGroup.
    apply String.eqb_neq in Hcn. apply String.eqb_neq in Hou.
    rewrite Hcn, Hou. cbn [app List.length Nat.ltb Nat.leb].
    unfold groups.validateGroupOu, organizationalUnits.GetAll.
    rewrite Hs. reflexivity.
Qed.

Lemma groups_Create_conflict_witness :
  let c := NewClient fixtures.testConfig (fixtures.missingServer []) true in
  let unconfigured :=
    NewClient (mkConfig "ldaps" "" "636" "company" "ou=users,o=company"
                 "ou=projects,o=company" "cn=root,o=company" "somePassword")
              (fixtures.serverWith [] []) false in
  result (groups.Create c "g1" "test-ou-1" [])
  = Fail (ConflictError
            (Text "Group with cn = 'g1' and ou = 'test-ou-1' already exists"))
  /\ groups.Create unconfigured "g1" "test-ou-1" []
     = ([], Fail (BadRequestError
                    (MissingMandatoryConfiguration ["LDAP_HOSTNAME"]))).
Proof.
  intros c unconfigured. split.
  - apply (proj1 (groups_Create_conflict c "g1" "test-ou-1" []))
      with (err := "LDAP Result Code 68 Entry Already Exists: ");
      reflexivity.
  - apply (proj2 (groups_Create_conflict unconfigured "g1" "test-ou-1" []));
      discriminate.
Defined.
